(** * Esmerald handler dispatch core: a shallow embedding of
      [esmerald/routing/base.py] and [esmerald/datastructures/base.py].

    Python objects with mutable attributes are modelled by explicit state:
    the handler object [self] (with its single-slot caches), a store of
    dictionaries addressed by reference (object identity), a store of
    response objects, and a trace of the observable calls made on
    collaborators.  Exceptions are results of a small state-and-exception
    monad; the state survives a raise, as in Python. *)

From Stdlib Require Import ZArith.
From stdpp Require Import base option list strings pretty gmap.

Set Warnings "-register-all".
Local Open Scope string_scope.
Local Open Scope Z_scope.
Local Open Scope list_scope.

(** ** Python dictionaries

    A [dict] keeps insertion order; assigning to an existing key keeps the
    key's position and replaces the value.  [items] is the list itself. *)
Module PyDict.
Section dict.
Context {K V : Type} `{EqDecision K}.

Fixpoint get (d : list (K * V)) (k : K) : option V :=
  match d with
  | [] => None
  | (k', v) :: d' => if decide (k = k') then Some v else get d' k
  end.

(** [d[k] = v] *)
Fixpoint set (k : K) (v : V) (d : list (K * V)) : list (K * V) :=
  match d with
  | [] => [(k, v)]
  | (k', v') :: d' =>
      if decide (k = k') then (k, v) :: d' else (k', v') :: set k v d'
  end.

(** [d.update(other)] *)
Definition update (d other : list (K * V)) : list (K * V) :=
  fold_left (fun acc kv => set kv.1 kv.2 acc) other d.

Definition keys (d : list (K * V)) : list K := map fst d.
Definition values (d : list (K * V)) : list V := map snd d.

(** A list of pairs is the [items()] of a dictionary when no key repeats. *)
Definition wf (d : list (K * V)) : Prop := NoDup (keys d).
End dict.
End PyDict.

(** ** Values shared by the handler's collaborators *)

(** The sentinel [Void] of [esmerald.typing]: a cache slot is either unset
    or holds a value. *)
Inductive Slot (A : Type) : Type :=
| Void : Slot A
| Filled : A -> Slot A.
Arguments Void {A}.
Arguments Filled {A} _.

(** Modelled from the spec: [Inject] (esmerald.injector) is not part of the
    sources; it is "a named provider bound to a key; equality-comparable by
    underlying provider identity".  A provider is identified by a number, as
    by [id()]. *)
Record Inject : Type := mkInject { dependency : nat }.

#[global] Instance Inject_eq_dec : EqDecision Inject.
Proof. solve_decision. Defined.

(** The connection as the permission checks and the kwargs model see it. *)
Record Connection : Type := mkConnection {
  conn_user : string;
  conn_body : string
}.

(** A permission class: instantiated per check, then asked
    [has_permission(connection, handler)]. *)
Record Permission : Type := mkPermission {
  perm_name : string;
  has_permission : Connection -> bool
}.

(** [AsyncCallable(fn)] of [esmerald.utils.sync]: the wrapper around a
    callable that makes calling it awaitable. *)
Record AsyncCallable : Type := mkAsyncCallable { fn_wrapped : Permission }.

(** Exception handlers are keyed by an exception class or a status code. *)
Inductive ExcKey : Type :=
| ExcClass (name : string)
| ExcStatus (code : Z).

#[global] Instance ExcKey_eq_dec : EqDecision ExcKey.
Proof. solve_decision. Defined.

Record ExcHandler : Type := mkExcHandler { exc_handler_id : nat }.

#[global] Instance ExcHandler_eq_dec : EqDecision ExcHandler.
Proof. solve_decision. Defined.

(** ** Ownership layers

    Every node of the chain exposes [dependencies], [permissions] and
    [exception_handlers] (each possibly [None]) and an [owner]
    back-reference; the root has no owner. *)
Inductive Layer : Type := mkLayer {
  dependencies : option (list (string * Inject));
  permissions : option (list Permission);
  exception_handlers : option (list (ExcKey * ExcHandler));
  owner : option Layer
}.

(** Induction along the owner chain. *)
Fixpoint Layer_owner_ind (P : Layer -> Prop)
    (Hroot : forall d p e, P (mkLayer d p e None))
    (Hstep : forall d p e up, P up -> P (mkLayer d p e (Some up)))
    (l : Layer) : P l :=
  match l with
  | mkLayer d p e None => Hroot d p e
  | mkLayer d p e (Some up) =>
      Hstep d p e up (Layer_owner_ind P Hroot Hstep up)
  end.

(** [x or {}] and [x or []]: [None] and the empty collection are both falsy. *)
Definition or_empty {A : Type} (x : option (list A)) : list A :=
  match x with
  | Some l => l
  | None => []
  end.

(** The [while current:] loop of [ownership_layers]: append [current], move
    to [current.owner]. *)
Fixpoint walk_owners (current : Layer) : list Layer :=
  match current with
  | mkLayer _ _ _ o =>
      current :: match o with
                 | Some up => walk_owners up
                 | None => []
                 end
  end.

Definition ownership_layers (self_layer : Layer) : list Layer :=
  reverse (walk_owners self_layer).

(** ** Cookies, headers and response objects *)

(** Python values that end up in header and cookie mappings. *)
Inductive PyVal : Type :=
| PNone
| PStr (s : string)
| PInt (z : Z)
| PBool (b : bool)
| PResponseHeader (value : PyVal).

#[global] Instance PyVal_eq_dec : EqDecision PyVal.
Proof. solve_decision. Defined.

(** [class Cookie(BaseModel)], fields in declaration order with their
    defaults ([path = "/"], [samesite = "lax"], every other optional field
    [None]). *)
Record Cookie : Type := mkCookie {
  key : string;
  value : option string;
  max_age : option Z;
  expires : option Z;
  path : string;
  domain : option string;
  secure : option bool;
  httponly : option bool;
  samesite : string;
  description : option string
}.

(** [Cookie(key=k, value=v)] with every other field at its default. *)
Definition Cookie_kv (k v : string) : Cookie :=
  mkCookie k (Some v) None None "/" None None None "lax" None.

(** One entry of [model.dict(exclude_none=True)]: a field whose value is
    [None] is left out. *)
Definition field {A : Type} (name : string) (inj : A -> PyVal) (x : option A)
  : list (string * PyVal) :=
  match x with
  | Some a => [(name, inj a)]
  | None => []
  end.

(** [cookie.dict(exclude_none=True, exclude={"description"})] *)
Definition cookie_dict (c : Cookie) : list (string * PyVal) :=
  [("key", PStr (key c))]
  ++ field "value" PStr (value c)
  ++ field "max_age" PInt (max_age c)
  ++ field "expires" PInt (expires c)
  ++ [("path", PStr (path c))]
  ++ field "domain" PStr (domain c)
  ++ field "secure" PBool (secure c)
  ++ field "httponly" PBool (httponly c)
  ++ [("samesite", PStr (samesite c))].

(** [class ResponseHeader(BaseModel)]: [value: Optional[Any] = None].  As a
    Python value the object itself is [PResponseHeader value]. *)
Record ResponseHeader : Type := mkResponseHeader { header_value : PyVal }.

Definition header_object (h : ResponseHeader) : PyVal :=
  PResponseHeader (header_value h).

(** The handler's [media_type] is a [MediaType] enum member or a string. *)
Inductive MediaTypeAttr : Type :=
| EnumMember (member_value : string)
| Str (s : string).

(** [BackgroundTask] / [BackgroundTasks], opaque here. *)
Record Background : Type := mkBackground { background_id : nat }.

(** What a handler function returns as plain data. *)
Inductive Content : Type :=
| CNone
| CBool (b : bool)
| CInt (z : Z)
| CStr (s : string)
| CList (l : list Content)
| CDict (d : list (string * Content)).

(** A response object in the store.  [r_class] is the class's method
    resolution order (the class itself first), which is what [isinstance]
    consults.  [r_cookies] is the [cookies] attribute, which Esmerald's own
    [Response] has and the transport-native response does not.
    [r_set_cookie] records the [set_cookie] calls in order; [r_headers]
    holds the header lines other than those the [set_cookie] calls add. *)
Record ResponseObj : Type := mkResponseObj {
  r_class : list string;
  r_status_code : option Z;
  r_media_type : option MediaTypeAttr;
  r_headers : list (string * PyVal);
  r_cookies : option (list Cookie);
  r_body : string;
  r_background : option Background;
  r_set_cookie : list (list (string * PyVal))
}.

(** Modelled from the spec: the response-class family is not part of the
    sources; it exposes a "constructor accepting (content, status_code,
    headers, media_type, background), mutable status_code/media_type/headers,
    and a set_cookie operation".  The class serialises its content
    with [render]. *)
Record ResponseClass : Type := mkResponseClass {
  cls_mro : list string;
  render : Content -> string
}.

(** Modelled from the spec: the constructor of that family, called as
    [response_class(background, content, headers, media_type, status_code)];
    it stores its arguments and the rendered content. *)
Definition new_response (cls : ResponseClass) (background : option Background)
    (content : Content) (headers : list (string * PyVal))
    (media_type : option MediaTypeAttr) (status_code : option Z) : ResponseObj :=
  {| r_class := cls_mro cls;
     r_status_code := status_code;
     r_media_type := media_type;
     r_headers := headers;
     r_cookies := Some [];
     r_body := render cls content;
     r_background := background;
     r_set_cookie := [] |}.

(** [class ResponseContainer(BaseModel, ABC)]: [to_response] is abstract;
    a concrete container supplies it. *)
Record ResponseContainer : Type := mkResponseContainer {
  rc_background : option Background;
  rc_headers : list (string * PyVal);
  rc_cookies : list Cookie;
  to_response :
    list (string * PyVal) -> option MediaTypeAttr -> option Z -> ResponseObj
}.

(** The runtime value a handler function hands to its response handler. *)
Inductive Value : Type :=
| VContent (c : Content)
| VAwaitable (v : Value)
| VContainer (c : ResponseContainer)
| VResponse (r : nat).

(** The declared return annotation.  A class is given by its method
    resolution order (itself first). *)
Inductive Annotation : Type :=
| AnnEmpty
| AnnNotAClass (repr : string)
| AnnClass (mro : list string).

(** ** Response handlers as closures

    Each [create_*_handler] returns the inner function [response_content]
    closed over the creator's arguments; the closure is a value here, and
    [response_content] below runs it. *)
Inductive ResponseHandler : Type :=
| ContainerHandler (cookies : list Cookie)
    (headers : list (string * ResponseHeader))
    (media_type : option MediaTypeAttr) (status_code : option Z)
| JSONHandler (status_code : option Z)
| EsmeraldHandler (cookies : list Cookie)
    (headers : list (string * ResponseHeader))
    (status_code : option Z) (media_type : option MediaTypeAttr)
| StarletteHandler (cookies : list Cookie)
    (headers : list (string * ResponseHeader))
    (media_type : option MediaTypeAttr)
| PlainHandler (background : option Background) (cookies : list Cookie)
    (headers : list (string * ResponseHeader))
    (media_type : option string) (response_class : ResponseClass)
    (status_code : option Z).

(** ** The handler object and the program state *)

Definition Kwargs : Type := list (string * Value).

(** The signature model is only asked to validate the collected kwargs;
    [None] stands for a validation error. *)
Record SignatureModel : Type := mkSignatureModel {
  parse_values_from_connection_kwargs : Connection -> Kwargs -> option Kwargs
}.

(** [self]: the handler's own layer attributes with the owner chain, the
    three single-slot caches, and the configuration read by
    [get_response_handler].  [response_class], [response_headers] and
    [response_cookies] stand for the results of [get_response_class()],
    [get_response_headers()] and [get_response_cookies()], and
    [allow_header] for the property of that name; none of the four is defined
    in this module. *)
Record Handler : Type := mkHandler {
  layer : Layer;
  signature_model : option SignatureModel;
  _dependencies : Slot nat;
  _permissions : Slot (list AsyncCallable);
  _response_handler : Slot ResponseHandler;
  return_annotation : Annotation;
  media_type : option MediaTypeAttr;
  status_code : option Z;
  background : option Background;
  response_class : ResponseClass;
  response_headers : list (string * ResponseHeader);
  response_cookies : list Cookie;
  allow_header : list (string * PyVal)
}.

Definition set__dependencies (s : Slot nat) (h : Handler) : Handler :=
  mkHandler (layer h) (signature_model h) s (_permissions h)
    (_response_handler h) (return_annotation h) (media_type h) (status_code h)
    (background h) (response_class h) (response_headers h)
    (response_cookies h) (allow_header h).

Definition set__permissions (s : Slot (list AsyncCallable)) (h : Handler)
  : Handler :=
  mkHandler (layer h) (signature_model h) (_dependencies h) s
    (_response_handler h) (return_annotation h) (media_type h) (status_code h)
    (background h) (response_class h) (response_headers h)
    (response_cookies h) (allow_header h).

Definition set__response_handler (s : Slot ResponseHandler) (h : Handler)
  : Handler :=
  mkHandler (layer h) (signature_model h) (_dependencies h) (_permissions h)
    s (return_annotation h) (media_type h) (status_code h)
    (background h) (response_class h) (response_headers h)
    (response_cookies h) (allow_header h).

(** Calls on collaborators that a caller can observe. *)
Inductive Event : Type :=
| EvInstantiate (p : Permission)
| EvHasPermission (p : Permission) (c : Connection)
| EvToKwargs (c : Connection)
| EvAwaitBody (c : Connection)
| EvResolveDependency (key : string)
| EvParseValues (kwargs : Kwargs)
| EvCallHandler (owner_first : bool) (kwargs : Kwargs).

Inductive Exception : Type :=
| RuntimeError (msg : string)
| ImproperlyConfigured (key dependency_key : string)
| PermissionDenied (p : Permission)
| AttributeError (attr : string)
| TypeError (msg : string)
| ValidationError
| HandlerError (msg : string).

Inductive Result (A : Type) : Type :=
| Ok (a : A)
| Raise (e : Exception).
Arguments Ok {A} _.
Arguments Raise {A} _.

Record State : Type := mkState {
  self : Handler;
  dicts : list (list (string * Inject));
  responses : list ResponseObj;
  trace : list Event
}.

(** ** The state-and-exception monad *)

Definition M (A : Type) : Type := State -> Result A * State.

#[global] Instance M_ret : MRet M := fun A a st => (Ok a, st).

#[global] Instance M_bind : MBind M := fun A B f m st =>
  match m st with
  | (Ok a, st') => f a st'
  | (Raise e, st') => (Raise e, st')
  end.

Definition raise {A : Type} (e : Exception) : M A := fun st => (Raise e, st).

Definition lift {A : Type} (r : Result A) : M A := fun st => (r, st).

Definition get_self : M Handler := fun st => (Ok (self st), st).

Definition modify_self (f : Handler -> Handler) : M unit := fun st =>
  (Ok tt, mkState (f (self st)) (dicts st) (responses st) (trace st)).

Definition emit (e : Event) : M unit := fun st =>
  (Ok tt, mkState (self st) (dicts st) (responses st) (trace st ++ [e])).

(** A fresh dictionary object: its reference is the next free index. *)
Definition new_dict (d : list (string * Inject)) : M nat := fun st =>
  (Ok (length (dicts st)),
   mkState (self st) (dicts st ++ [d]) (responses st) (trace st)).

Definition read_dict (r : nat) : M (list (string * Inject)) := fun st =>
  match dicts st !! r with
  | Some d => (Ok d, st)
  | None => (Raise (RuntimeError "dangling dict reference"), st)
  end.

Definition write_dict (r : nat) (d : list (string * Inject)) : M unit :=
  fun st =>
    (Ok tt, mkState (self st) (<[r := d]> (dicts st)) (responses st) (trace st)).

Definition new_resp (o : ResponseObj) : M nat := fun st =>
  (Ok (length (responses st)),
   mkState (self st) (dicts st) (responses st ++ [o]) (trace st)).

Definition read_resp (r : nat) : M ResponseObj := fun st =>
  match responses st !! r with
  | Some o => (Ok o, st)
  | None => (Raise (RuntimeError "dangling response reference"), st)
  end.

Definition write_resp (r : nat) (o : ResponseObj) : M unit := fun st =>
  (Ok tt, mkState (self st) (dicts st) (<[r := o]> (responses st)) (trace st)).

(** [for x in l: body(x)] *)
Fixpoint for_each {A : Type} (l : list A) (body : A -> M unit) : M unit :=
  match l with
  | [] => mret tt
  | x :: l' => body x ;; for_each l' body
  end.

(** ** Truthiness *)

Definition truthy_int (x : option Z) : bool :=
  match x with
  | Some n => negb (Z.eqb n 0)
  | None => false
  end.

Definition truthy_str (s : string) : bool := negb (bool_decide (s = "")).

(** [MediaType] mixes [str] into the enum, so a member is as truthy as its
    value. *)
Definition truthy_media_type (x : option MediaTypeAttr) : bool :=
  match x with
  | Some (EnumMember v) => truthy_str v
  | Some (Str s) => truthy_str s
  | None => false
  end.

Definition truthy_content (c : Content) : bool :=
  match c with
  | CNone => false
  | CBool b => b
  | CInt z => negb (Z.eqb z 0)
  | CStr s => truthy_str s
  | CList l => negb (bool_decide (l = []))
  | CDict d => negb (bool_decide (d = []))
  end.

Definition truthy_value (v : Value) : bool :=
  match v with
  | VContent c => truthy_content c
  | VAwaitable _ | VContainer _ | VResponse _ => true
  end.

(** ** [BaseHandlerMixin]: cookies and headers *)

(** The first loop of [get_cookies]: [filtered_cookies] starts as a copy of
    the local cookies and grows while the other cookies are visited; the
    membership test reads the list as it is at that moment. *)
Definition filter_cookies (local_cookies other_cookies : list Cookie)
  : list Cookie :=
  fold_left
    (fun filtered_cookies cookie =>
       if existsb (fun c => bool_decide (key cookie = key c)) filtered_cookies
       then filtered_cookies
       else filtered_cookies ++ [cookie])
    other_cookies local_cookies.

Definition get_cookies (local_cookies other_cookies : list Cookie)
  : list (list (string * PyVal)) :=
  map cookie_dict (filter_cookies local_cookies other_cookies).

(** [{k: v.value for k, v in headers.items()}] *)
Definition get_headers (headers : list (string * ResponseHeader))
  : list (string * PyVal) :=
  PyDict.update [] (map (fun kv => (kv.1, header_value kv.2)) headers).

(** [{**a, **b}] and [{**a, **b, **c}] *)
Definition merge2 (a b : list (string * PyVal)) : list (string * PyVal) :=
  PyDict.update (PyDict.update [] a) b.

Definition merge3 (a b c : list (string * PyVal)) : list (string * PyVal) :=
  PyDict.update (merge2 a b) c.

(** ** [BaseHandlerMixin]: dependencies *)

Fixpoint has_dependency_unique (dependencies : list (string * Inject))
    (key : string) (injector : Inject) : Result unit :=
  match dependencies with
  | [] => Ok tt
  | (dependency_key, value) :: rest =>
      if decide (injector = value)
      then Raise (ImproperlyConfigured key dependency_key)
      else has_dependency_unique rest key injector
  end.

Definition get_dependencies : M nat :=
  h ← get_self;
  match signature_model h with
  | None =>
      raise (RuntimeError
        "get_dependencies cannot be called before a signature model has been generated")
  | Some _ =>
      match _dependencies h with
      | Void =>
          r ← new_dict [];
          modify_self (set__dependencies (Filled r));;
          for_each (ownership_layers (layer h)) (fun layer =>
            for_each (or_empty (dependencies layer)) (fun kv =>
              d ← read_dict r;
              lift (has_dependency_unique d kv.1 kv.2);;
              write_dict r (PyDict.set kv.1 kv.2 d)));;
          mret r
      | Filled r => mret r
      end
  end.

(** ** [BaseHandlerMixin]: permissions *)

(** The list is built in [self._permissions] itself and then replaced by the
    wrapped list; nothing can observe the slot in between, so the unwrapped
    list is a local here. *)
Definition resolve_permissions : M (list AsyncCallable) :=
  h ← get_self;
  match _permissions h with
  | Void =>
      let collected :=
        fold_left (fun acc layer => acc ++ or_empty (permissions layer))
          (ownership_layers (layer h)) [] in
      let wrapped := map mkAsyncCallable collected in
      modify_self (set__permissions (Filled wrapped));;
      mret wrapped
  | Filled ps => mret ps
  end.

(** Modelled from the spec: [continue_or_raise_permission_exception]
    (esmerald.permissions.utils) is not part of the sources; "if it returns
    falsy (or the check's own continuation policy says to raise), raise a
    Permission-Denied error immediately". *)
Definition continue_or_raise_permission_exception (connection : Connection)
    (permission : Permission) : M unit :=
  if has_permission permission connection
  then mret tt
  else raise (PermissionDenied permission).

Definition allow_connection (connection : Connection) : M unit :=
  perms ← resolve_permissions;
  for_each perms (fun permission =>
    let permission := fn_wrapped permission in
    emit (EvInstantiate permission);;
    emit (EvHasPermission permission connection);;
    continue_or_raise_permission_exception connection permission).

(** ** [BaseHandlerMixin]: exception handlers *)

Definition get_exception_handlers : M (list (ExcKey * ExcHandler)) :=
  h ← get_self;
  mret (fold_left
          (fun resolved_exception_handlers layer =>
             PyDict.update resolved_exception_handlers
               (or_empty (exception_handlers layer)))
          (ownership_layers (layer h)) []).

(** ** [BaseResponseHandler]: the five response strategies *)

(** Attribute assignments on a response object. *)
Definition with_status_code (sc : option Z) (o : ResponseObj) : ResponseObj :=
  mkResponseObj (r_class o) sc (r_media_type o) (r_headers o) (r_cookies o)
    (r_body o) (r_background o) (r_set_cookie o).

Definition with_media_type (mt : option MediaTypeAttr) (o : ResponseObj)
  : ResponseObj :=
  mkResponseObj (r_class o) (r_status_code o) mt (r_headers o) (r_cookies o)
    (r_body o) (r_background o) (r_set_cookie o).

Definition with_headers (hs : list (string * PyVal)) (o : ResponseObj)
  : ResponseObj :=
  mkResponseObj (r_class o) (r_status_code o) (r_media_type o) hs (r_cookies o)
    (r_body o) (r_background o) (r_set_cookie o).

Definition with_background (bg : option Background) (o : ResponseObj)
  : ResponseObj :=
  mkResponseObj (r_class o) (r_status_code o) (r_media_type o) (r_headers o)
    (r_cookies o) (r_body o) bg (r_set_cookie o).

(** [for cookie in _cookies: response.set_cookie(...)]: the calls are
    recorded on the object, in order. *)
Definition set_cookies (cs : list (list (string * PyVal))) (o : ResponseObj)
  : ResponseObj :=
  mkResponseObj (r_class o) (r_status_code o) (r_media_type o) (r_headers o)
    (r_cookies o) (r_body o) (r_background o) (r_set_cookie o ++ cs).

(** ** The header object of a response

    Modelled from the spec: the response-class family is not part of the
    sources; the spec gives it "mutable status_code/media_type/headers".
    The [headers] of a response is the transport library's [MutableHeaders]
    (re-exported by [esmerald.datastructures]), which is not part of the
    sources either and is modelled by what it does: it is a list of lines
    (name, value), in which a name may occur on several lines; it keeps the
    names lower-cased and finds a line by the lower-cased name it is asked
    for.  A stored name is read through [lower] here, so that a response
    built with a name in capitals behaves as the library's, which
    lower-cases the names it is built with.  Values are kept as they are:
    the encoding of a line to bytes, which refuses a value that is not a
    string, is left to the library. *)

(** [str.lower] on a string of Latin-1 code points: the letters A-Z and the
    accented capitals 192-222, the multiplication sign 215 apart, move 32
    up. *)
Definition lower_char (a : Ascii.ascii) : Ascii.ascii :=
  let n := Ascii.nat_of_ascii a in
  if (Nat.leb 65 n && Nat.leb n 90)
     || (Nat.leb 192 n && Nat.leb n 222 && negb (Nat.eqb n 215))
  then Ascii.ascii_of_nat (n + 32)
  else a.

Fixpoint lower (s : string) : string :=
  match s with
  | EmptyString => EmptyString
  | String a s' => String (lower_char a) (lower s')
  end.

(** [headers[key]]: the value of the first line of that name, if any. *)
Fixpoint headers_getitem {V : Type} (raw : list (string * V)) (key : string)
  : option V :=
  match raw with
  | [] => None
  | (k, v) :: rest =>
      if decide (lower k = lower key) then Some v
      else headers_getitem rest key
  end.

(** What [**data.headers] contributes to a dictionary display: the header
    object is a mapping whose [keys()] are the names of its lines, in
    order, and each is looked up with [headers[name]]. *)
Definition headers_items (raw : list (string * PyVal))
  : list (string * PyVal) :=
  map (fun kv => (lower kv.1, default kv.2 (headers_getitem raw kv.1))) raw.

(** [headers[key] = value]: the first line of that name is replaced and the
    other lines of that name are removed; without such a line, one is
    added at the end. *)
Fixpoint headers_setitem (key : string) (value : PyVal)
    (raw : list (string * PyVal)) : list (string * PyVal) :=
  match raw with
  | [] => [(lower key, value)]
  | (k, v) :: rest =>
      if decide (lower k = lower key)
      then (lower key, value)
           :: filter (fun kv => lower kv.1 <> lower key) rest
      else (k, v) :: headers_setitem key value rest
  end.

(** [for header, value in _headers.items(): data.headers[header] = value] *)
Definition headers_assign_all (hs raw : list (string * PyVal))
  : list (string * PyVal) :=
  fold_left (fun raw kv => headers_setitem kv.1 kv.2 raw) hs raw.

Definition assign_headers (hs : list (string * PyVal)) (o : ResponseObj)
  : ResponseObj :=
  with_headers (headers_assign_all hs (r_headers o)) o.

(** A runtime value that is a response object; any other value lacks the
    attributes the response functions read. *)
Definition as_response (attr : string) (data : Value) : M nat :=
  match data with
  | VResponse r => mret r
  | _ => raise (AttributeError attr)
  end.

(** The inner function of [create_response_container_handler]. *)
Definition response_container_content (cookies : list Cookie)
    (headers : list (string * ResponseHeader))
    (media_type : option MediaTypeAttr) (status_code : option Z)
    (data : Value) : M Value :=
  match data with
  | VContainer c =>
      let _headers := merge2 (get_headers headers) (rc_headers c) in
      let _cookies := get_cookies (rc_cookies c) cookies in
      response ← new_resp (to_response c _headers media_type status_code);
      o ← read_resp response;
      write_resp response (set_cookies _cookies o);;
      mret (VResponse response)
  | VResponse _ => raise (AttributeError "to_response")
  | _ => raise (AttributeError "headers")
  end.

(** The inner function of [create_response_handler]. *)
Definition response_esmerald_content (cookies : list Cookie)
    (headers : list (string * ResponseHeader))
    (status_code : option Z) (media_type : option MediaTypeAttr)
    (data : Value) : M Value :=
  r ← as_response "cookies" data;
  o ← read_resp r;
  match r_cookies o with
  | None => raise (AttributeError "cookies")
  | Some data_cookies =>
      h ← get_self;
      let _cookies := get_cookies data_cookies cookies in
      let _headers :=
        merge3 (get_headers headers) (headers_items (r_headers o))
          (allow_header h) in
      let o := set_cookies _cookies o in
      let o := if truthy_int status_code then with_status_code status_code o
               else o in
      let o := if truthy_media_type media_type then with_media_type media_type o
               else o in
      write_resp r (assign_headers _headers o);;
      mret data
  end.

(** The inner function of [create_json_response_handler]. *)
Definition response_json_content (status_code : option Z) (data : Value)
  : M Value :=
  (if truthy_int status_code
   then r ← as_response "status_code" data;
        o ← read_resp r;
        write_resp r (with_status_code status_code o)
   else mret tt);;
  mret data.

(** The inner function of [create_starlette_response_handler]. *)
Definition response_starlette_content (cookies : list Cookie)
    (headers : list (string * ResponseHeader))
    (media_type : option MediaTypeAttr) (data : Value) : M Value :=
  r ← as_response "headers" data;
  o ← read_resp r;
  h ← get_self;
  let _cookies := get_cookies cookies [] in
  let _headers :=
    merge3 (get_headers headers) (headers_items (r_headers o))
      (allow_header h) in
  let o := set_cookies _cookies o in
  let o := with_media_type media_type o in
  write_resp r (assign_headers _headers o);;
  mret data.

(** [get_response_data]: [if isawaitable(data): data = await data]. *)
Definition get_response_data (data : Value) : M Value :=
  match data with
  | VAwaitable v => mret v
  | _ => mret data
  end.

Definition JSONResponse : string := "starlette.responses.JSONResponse".
Definition ORJSONResponse : string := "esmerald.responses.ORJSONResponse".
Definition Response : string := "esmerald.responses.Response".
Definition StarletteResponse : string := "starlette.responses.Response".
Definition ResponseContainer_cls : string :=
  "esmerald.datastructures.ResponseContainer".

(** [isinstance(obj, classes)] for an object whose class has the given
    method resolution order. *)
Definition isinstance_mro (mro : list string) (classes : list string) : bool :=
  existsb (fun c => bool_decide (c ∈ mro)) classes.

(** The inner function of [create_handler]: the fallback for plain values.
    The response class receives the header declarations as they are;
    [render] is defined on plain content, and any other object handed over as
    content is not serialisable. *)
Definition response_plain_content (background : option Background)
    (cookies : list Cookie) (headers : list (string * ResponseHeader))
    (media_type : option string) (response_class : ResponseClass)
    (status_code : option Z) (data : Value) : M Value :=
  data ← get_response_data data;
  let _cookies := get_cookies cookies [] in
  let construct (content : Content) : M nat :=
    new_resp (new_response response_class background content
                (map (fun kv => (kv.1, header_object kv.2)) headers)
                (Str <$> media_type) status_code) in
  response ←
    match data with
    | VResponse r =>
        o ← read_resp r;
        if isinstance_mro (r_class o) [JSONResponse; ORJSONResponse]
        then write_resp r (with_background background
                             (with_status_code status_code o));;
             mret r
        else lift (Raise (TypeError "content is not serialisable"))
    | VContent c => construct c
    | _ => lift (Raise (TypeError "content is not serialisable"))
    end;
  o ← read_resp response;
  write_resp response (set_cookies _cookies o);;
  mret (VResponse response).

Definition create_response_container_handler (cookies : list Cookie)
    (headers : list (string * ResponseHeader))
    (media_type : option MediaTypeAttr) (status_code : option Z)
  : ResponseHandler :=
  ContainerHandler cookies headers media_type status_code.

Definition create_response_handler (cookies : list Cookie)
    (headers : list (string * ResponseHeader))
    (status_code : option Z) (media_type : option MediaTypeAttr)
  : ResponseHandler :=
  EsmeraldHandler cookies headers status_code media_type.

Definition create_json_response_handler (status_code : option Z)
  : ResponseHandler := JSONHandler status_code.

Definition create_starlette_response_handler (cookies : list Cookie)
    (headers : list (string * ResponseHeader))
    (media_type : option MediaTypeAttr) : ResponseHandler :=
  StarletteHandler cookies headers media_type.

Definition create_handler (background : option Background)
    (cookies : list Cookie) (headers : list (string * ResponseHeader))
    (media_type : option string) (response_class : ResponseClass)
    (status_code : option Z) : ResponseHandler :=
  PlainHandler background cookies headers media_type response_class
    status_code.

(** Calling a response handler on the handler function's return value. *)
Definition response_content (f : ResponseHandler) (data : Value) : M Value :=
  match f with
  | ContainerHandler cookies headers media_type status_code =>
      response_container_content cookies headers media_type status_code data
  | JSONHandler status_code => response_json_content status_code data
  | EsmeraldHandler cookies headers status_code media_type =>
      response_esmerald_content cookies headers status_code media_type data
  | StarletteHandler cookies headers media_type =>
      response_starlette_content cookies headers media_type data
  | PlainHandler background cookies headers media_type response_class
      status_code =>
      response_plain_content background cookies headers media_type
        response_class status_code data
  end.

(** Modelled from the spec: [is_class_and_subclass] (esmerald.utils.helpers)
    is not part of the sources; the selection is "a static dispatch over the
    declared return-type annotation": the annotation is a class and a
    subclass of (one of) the given class(es). *)
Definition is_class_and_subclass (value : Annotation) (_type : list string)
  : bool :=
  match value with
  | AnnClass mro => isinstance_mro mro _type
  | _ => false
  end.

Definition get_response_handler : M ResponseHandler :=
  h ← get_self;
  match _response_handler h with
  | Void =>
      let media_type' :=
        match media_type h with
        | Some (EnumMember v) => Some v
        | Some (Str s) => Some s
        | None => None
        end in
      let response_class := response_class h in
      let headers := response_headers h in
      let cookies := response_cookies h in
      let handler :=
        if is_class_and_subclass (return_annotation h) [ResponseContainer_cls]
        then create_response_container_handler cookies headers (media_type h)
               (status_code h)
        else if is_class_and_subclass (return_annotation h)
                  [JSONResponse; ORJSONResponse]
        then create_json_response_handler (status_code h)
        else if is_class_and_subclass (return_annotation h) [Response]
        then create_response_handler cookies headers (status_code h)
               (media_type h)
        else if is_class_and_subclass (return_annotation h) [StarletteResponse]
        then create_starlette_response_handler cookies headers (media_type h)
        else create_handler (background h) cookies headers media_type'
               response_class (status_code h) in
      modify_self (set__response_handler (Filled handler));;
      mret handler
  | Filled handler => mret handler
  end.

(** Modelled from the spec: [to_response] is defined on the concrete handler
    classes, which are not part of the sources; step (d) of the orchestrator
    is to "hand the raw return value to the cached response handler". *)
Definition to_response_ (data : Value) : M Value :=
  response_handler ← get_response_handler;
  response_content response_handler data.

(** ** Dispatch: [_get_response_data] and [call_handler_function] *)

Record Dependency : Type := mkDependency { dep_key : string }.

(** [KwargsModel] (esmerald.kwargs) as the dispatch code uses it.  The
    ["data"] entry produced by [to_kwargs], when present, is the awaitable
    that reads the connection body. *)
Record KwargsModel : Type := mkKwargsModel {
  has_kwargs : bool;
  to_kwargs : Connection -> Kwargs;
  expected_dependencies : list Dependency;
  resolve_dependency : Dependency -> Connection -> Kwargs -> Result Value
}.

(** The route handed to [_get_response_data]: its signature model, whether
    its owner is an [APIView], and its function, which receives the owner
    first when there is one to bind. *)
Record Route : Type := mkRoute {
  route_signature_model : SignatureModel;
  owner_is_APIView : bool;
  fn : bool -> Kwargs -> Result Value
}.

Definition _get_response_data (route : Route) (parameter_model : KwargsModel)
    (request : Connection) : M Value :=
  let signature_model := route_signature_model route in
  parsed_kwargs ←
    (if has_kwargs parameter_model
     then
       emit (EvToKwargs request);;
       let kwargs := to_kwargs parameter_model request in
       kwargs ←
         match PyDict.get kwargs "data" with
         | Some request_data =>
             if truthy_value request_data
             then match request_data with
                  | VAwaitable body =>
                      emit (EvAwaitBody request);;
                      mret (PyDict.set "data" body kwargs)
                  | _ => raise (TypeError "object can't be used in 'await' expression")
                  end
             else mret kwargs
         | None => mret kwargs
         end;
       kwargs ←
         foldl (fun acc dependency =>
                  kwargs ← acc;
                  emit (EvResolveDependency (dep_key dependency));;
                  v ← lift (resolve_dependency parameter_model dependency
                              request kwargs);
                  mret (PyDict.set (dep_key dependency) v kwargs))
               (mret kwargs) (expected_dependencies parameter_model);
       emit (EvParseValues kwargs);;
       match parse_values_from_connection_kwargs signature_model request kwargs
       with
       | Some parsed => mret parsed
       | None => raise ValidationError
       end
     else mret []);
  emit (EvCallHandler (owner_is_APIView route) parsed_kwargs);;
  lift (fn route (owner_is_APIView route) parsed_kwargs).

Definition call_handler_function (request : Connection) (route : Route)
    (parameter_model : KwargsModel) : M Value :=
  response_data ← _get_response_data route parameter_model request;
  to_response_ response_data.

Definition get_response_for_request (request : Connection) (route : Route)
    (parameter_model : KwargsModel) : M Value :=
  call_handler_function request route parameter_model.

(** ** The pure content of the dependency walk

    [dependency_items] is the sequence of [(key, value)] pairs that the two
    nested loops of [get_dependencies] visit, root layer first;
    [accumulate] is what the loop body does to the accumulated mapping,
    stopping at the first raise and keeping the mapping as it was then. *)
Definition dependency_items (layers : list Layer) : list (string * Inject) :=
  flat_map (fun layer => or_empty (dependencies layer)) layers.

Fixpoint accumulate (d : list (string * Inject))
    (items : list (string * Inject))
  : Result unit * list (string * Inject) :=
  match items with
  | [] => (Ok tt, d)
  | kv :: rest =>
      match has_dependency_unique d kv.1 kv.2 with
      | Ok _ => accumulate (PyDict.set kv.1 kv.2 d) rest
      | Raise e => (Raise e, d)
      end
  end.

(** The permissions of a chain in evaluation order. *)
Definition layer_permissions (layers : list Layer) : list Permission :=
  flat_map (fun layer => or_empty (permissions layer)) layers.

(** The events of evaluating the given permissions, one after the other. *)
Definition evaluation_events (connection : Connection) (ps : list Permission)
  : list Event :=
  flat_map (fun p => [EvInstantiate p; EvHasPermission p connection]) ps.

(** The loop of [allow_connection] over an already resolved list. *)
Definition check_all (connection : Connection) (perms : list AsyncCallable)
  : M unit :=
  for_each perms (fun permission =>
    let permission := fn_wrapped permission in
    emit (EvInstantiate permission);;
    emit (EvHasPermission permission connection);;
    continue_or_raise_permission_exception connection permission).

(** The state with further events appended to the trace. *)
Definition traced (st : State) (evs : list Event) : State :=
  mkState (self st) (dicts st) (responses st) (trace st ++ evs).

(** ** Sample configurations *)

Definition provider_db : Inject := mkInject 1.
Definition provider_session : Inject := mkInject 2.

Definition sample_signature_model : SignatureModel :=
  mkSignatureModel (fun _ kwargs => Some kwargs).

(** A layer that only declares dependencies. *)
Definition dependency_layer (deps : list (string * Inject))
    (o : option Layer) : Layer :=
  mkLayer (Some deps) None None o.

(** Root binds [db]; the handler binds the same provider as [session]. *)
Definition conflict_chain : Layer :=
  dependency_layer [("session", provider_db)]
    (Some (dependency_layer [("db", provider_db)] None)).

(** Root and handler bind [db] to two distinct providers. *)
Definition override_chain : Layer :=
  dependency_layer [("db", provider_session)]
    (Some (dependency_layer [("db", provider_db)] None)).

(** Root binds [a]; the layer below rebinds [a] to another provider; the
    handler binds the root's provider as [b]. *)
Definition shadow_chain : Layer :=
  dependency_layer [("b", provider_db)]
    (Some (dependency_layer [("a", provider_session)]
       (Some (dependency_layer [("a", provider_db)] None)))).

(** Root and handler bind [db] to the very same provider. *)
Definition same_binding_chain : Layer :=
  dependency_layer [("db", provider_db)]
    (Some (dependency_layer [("db", provider_db)] None)).

Definition plain_class : ResponseClass :=
  mkResponseClass [Response; StarletteResponse] (fun _ => "").

(** A handler on top of the given chain, no cache filled yet. *)
Definition handler_on (l : Layer) : Handler :=
  mkHandler l (Some sample_signature_model) Void Void Void AnnEmpty None None
    None plain_class [] [] [].

Definition initial_state (h : Handler) : State := mkState h [] [] [].


(** The state a first, successful, call of [get_dependencies] leaves on the
    override chain, and a handler over another chain holding the same
    reference. *)
Definition override_state : State := initial_state (handler_on override_chain).

Definition override_state_resolved : State :=
  mkState (set__dependencies (Filled 0%nat) (handler_on override_chain))
    [[("db", provider_session)]] [] [].

Definition rewired_state : State :=
  mkState (set__dependencies (Filled 0%nat) (handler_on conflict_chain))
    [[("db", provider_session)]] [] [].


Definition IsAuthenticated : Permission :=
  mkPermission "IsAuthenticated"
    (fun c => negb (bool_decide (conn_user c = ""))).

Definition IsAdmin : Permission :=
  mkPermission "IsAdmin" (fun c => bool_decide (conn_user c = "admin")).

Definition AllowAny : Permission := mkPermission "AllowAny" (fun _ => true).

(** The root asks for an authenticated user; the handler asks for an admin
    and then lets anyone in. *)
Definition permission_chain : Layer :=
  mkLayer None (Some [IsAdmin; AllowAny]) None
    (Some (mkLayer None (Some [IsAuthenticated]) None None)).

Definition alice : Connection := mkConnection "alice" "".


(** A pre-built JSON response and an Esmerald response without cookies of
    its own, each alone in the store. *)
Definition json_response_obj : ResponseObj :=
  mkResponseObj [JSONResponse; StarletteResponse] (Some 200)
    (Some (Str "application/json"))
    [("content-type", PStr "application/json")] None "{}" None [].

Definition esmerald_response_obj : ResponseObj :=
  mkResponseObj [Response; StarletteResponse] (Some 200)
    (Some (Str "text/plain")) [("content-type", PStr "text/plain")]
    (Some []) "ok" None [].

Definition state_with (o : ResponseObj) : State :=
  mkState (handler_on (mkLayer None None None None)) [] [o] [].


(** A handler declared to return [ORJSONResponse], which is also a generic
    and a transport-native response. *)
Definition orjson_handler : Handler :=
  mkHandler (mkLayer None None None None) (Some sample_signature_model)
    Void Void Void
    (AnnClass [ORJSONResponse; Response; StarletteResponse; "builtins.object"])
    (Some (EnumMember "application/json")) (Some 200) None plain_class [] []
    [].

(** A small JSON serialiser for the sample response class. *)
Definition quote : string := String (Ascii.ascii_of_nat 34) "".

Fixpoint render_json (c : Content) : string :=
  match c with
  | CNone => "null"
  | CBool true => "true"
  | CBool false => "false"
  | CInt z => pretty z
  | CStr s => quote +:+ s +:+ quote
  | CList l =>
      "[" +:+
      (fix items (l : list Content) : string :=
         match l with
         | [] => ""
         | x :: l' =>
             render_json x +:+
             match l' with [] => "" | _ => "," +:+ items l' end
         end) l
      +:+ "]"
  | CDict d =>
      "{" +:+
      (fix members (d : list (string * Content)) : string :=
         match d with
         | [] => ""
         | (k, x) :: d' =>
             quote +:+ k +:+ quote +:+ ":" +:+ render_json x +:+
             match d' with [] => "" | _ => "," +:+ members d' end
         end) d
      +:+ "}"
  end.

Definition json_class : ResponseClass :=
  mkResponseClass [Response; StarletteResponse] render_json.

(** A handler declared to return [dict], configured with status code 201
    and the JSON media type. *)
Definition dict_handler : Handler :=
  mkHandler (mkLayer None None None None) (Some sample_signature_model)
    Void Void Void (AnnClass ["builtins.dict"; "builtins.object"])
    (Some (EnumMember "application/json")) (Some 201) None json_class [] []
    [].


(** A computation that adds nothing to the trace. *)
Definition keeps_trace {A : Type} (m : M A) : Prop :=
  forall st : State, trace (m st).2 = trace st.

(** A route whose function takes no parameters, with a kwargs model that
    would read the body if it were ever asked for kwargs. *)
Definition ping_route : Route :=
  mkRoute sample_signature_model false
    (fun _ _ => Ok (VContent (CDict [("ping", CStr "pong")]))).

Definition no_kwargs_model : KwargsModel :=
  mkKwargsModel false
    (fun c => [("data", VAwaitable (VContent (CStr (conn_body c))))])
    [] (fun _ _ _ => Ok (VContent CNone)).


(** A kwargs model that declares a body parameter, and a route taking it. *)
Definition body_model : KwargsModel :=
  mkKwargsModel true
    (fun c => [("data", VAwaitable (VContent (CStr (conn_body c))))])
    [] (fun _ _ _ => Ok (VContent CNone)).

Definition echo_route : Route :=
  mkRoute sample_signature_model false
    (fun _ kwargs =>
       match PyDict.get kwargs "data" with
       | Some v => Ok v
       | None => Raise (TypeError "missing argument data")
       end).

Definition bob : Connection := mkConnection "bob" "hello".

(** The application maps [ValueError] and status 404; the handler maps
    [ValueError] again. *)
Definition exception_chain : Layer :=
  mkLayer None None (Some [(ExcClass "ValueError", mkExcHandler 3)])
    (Some (mkLayer None None
             (Some [(ExcClass "ValueError", mkExcHandler 1);
                    (ExcStatus 404, mkExcHandler 2)])
             None)).


(** ** [BaseHandlerMixin]: the remaining properties of the chain *)

(** [dependency_names]: the set comprehension over the keys of every
    layer's dependencies. *)
Definition dependency_names (self_layer : Layer) : gset string :=
  list_to_set
    (flat_map (fun layer => PyDict.keys (or_empty (dependencies layer)))
       (ownership_layers self_layer)).

(** Every entry of the list is the owner of the entry after it. *)
Fixpoint owner_linked (ls : list Layer) : Prop :=
  match ls with
  | a :: rest =>
      match rest with
      | b :: _ => owner b = Some a /\ owner_linked rest
      | [] => True
      end
  | [] => True
  end.

(** A handler whose dependency slot is filled, although it has no signature
    model. *)
Definition unsigned_state : State :=
  mkState
    (mkHandler override_chain None (Filled 0%nat) Void Void AnnEmpty None None
       None plain_class [] [] [])
    [[("db", provider_session)]] [] [].

(** The permission chain after its permissions were resolved, and a handler
    over a chain without any permission that holds the resolved list. *)
Definition permission_state_resolved : State :=
  mkState
    (set__permissions
       (Filled (map mkAsyncCallable [IsAuthenticated; IsAdmin; AllowAny]))
       (handler_on permission_chain)) [] [] [].

Definition permission_state_rewired : State :=
  mkState
    (set__permissions
       (Filled (map mkAsyncCallable [IsAuthenticated; IsAdmin; AllowAny]))
       (handler_on (mkLayer None None None None))) [] [] [].

Definition admin : Connection := mkConnection "admin" "".


(** A container with a header and a cookie of its own, built into an
    Esmerald response. *)
Definition sample_container : ResponseContainer :=
  mkResponseContainer None [("x-served-by", PStr "container")]
    [Cookie_kv "session" "c"]
    (fun headers media_type status_code =>
       mkResponseObj [Response; StarletteResponse] status_code media_type
         headers (Some []) "file" None []).


(** ** The parameter collection of [_get_response_data]

    The body of the [if parameter_model.has_kwargs:] branch up to, and not
    including, the validation call. *)
Definition resolve_step (parameter_model : KwargsModel)
    (request : Connection) (acc : M Kwargs) (dependency : Dependency)
  : M Kwargs :=
  kwargs ← acc;
  emit (EvResolveDependency (dep_key dependency));;
  v ← lift (resolve_dependency parameter_model dependency request kwargs);
  mret (PyDict.set (dep_key dependency) v kwargs).

Definition resolve_dependencies (parameter_model : KwargsModel)
    (request : Connection) (kwargs : Kwargs) : M Kwargs :=
  foldl (resolve_step parameter_model request) (mret kwargs)
    (expected_dependencies parameter_model).

Definition await_data (request : Connection) (kwargs : Kwargs) : M Kwargs :=
  match PyDict.get kwargs "data" with
  | Some request_data =>
      if truthy_value request_data
      then match request_data with
           | VAwaitable body =>
               emit (EvAwaitBody request);;
               mret (PyDict.set "data" body kwargs)
           | _ => raise (TypeError "object can't be used in 'await' expression")
           end
      else mret kwargs
  | None => mret kwargs
  end.

Definition collect_kwargs (parameter_model : KwargsModel)
    (request : Connection) : M Kwargs :=
  emit (EvToKwargs request);;
  kwargs ← await_data request (to_kwargs parameter_model request);
  resolve_dependencies parameter_model request kwargs.

(** A kwargs model with three dependencies, the second of which fails, and
    a route whose signature model rejects everything. *)
Definition failing_dependency_model : KwargsModel :=
  mkKwargsModel true (fun _ => [])
    [mkDependency "db"; mkDependency "cache"; mkDependency "mail"]
    (fun d _ kwargs =>
       if bool_decide (dep_key d = "cache")
       then Raise (HandlerError "cache is down")
       else Ok (VContent (CStr (dep_key d)))).

Definition rejecting_route : Route :=
  mkRoute (mkSignatureModel (fun _ _ => None)) false
    (fun _ _ => Ok (VContent CNone)).


(** The events of awaiting the body, for the kwargs that [to_kwargs] gave,
    and of resolving the given dependencies one after the other. *)
Definition body_events (request : Connection) (kwargs : Kwargs) : list Event :=
  match PyDict.get kwargs "data" with
  | Some (VAwaitable _) => [EvAwaitBody request]
  | _ => []
  end.

Definition resolve_events (deps : list Dependency) : list Event :=
  map (fun d => EvResolveDependency (dep_key d)) deps.


(** ** [BaseSignature]: building the signature and kwargs models

    The attributes of the concrete handler classes that
    [create_signature_model] reads and writes, beside those of [Handler]:
    the handler function, its HTTP methods, its path convertors, and the
    three places a kwargs model is stored in. *)
Record Convertor : Type := mkConvertor { convertor_name : string }.

Inductive Callable : Type :=
| HandlerFunction (id : nat)
| ProviderFunction (id : nat).

Record HandlerAttrs : Type := mkHandlerAttrs {
  handler_fn : Callable;
  methods : list string;
  param_convertors : list (string * Convertor);
  kwargs : option KwargsModel;
  route_map : list (string * KwargsModel);
  websocket_parameter_model : option KwargsModel
}.

(** The program state together with those attributes and with the
    [signature_model] attribute of the [Inject] objects. *)
Record SigState : Type := mkSigState {
  core : State;
  attrs : HandlerAttrs;
  inject_signature_models : list (Inject * SignatureModel)
}.

Definition with_core (c : State) (x : SigState) : SigState :=
  mkSigState c (attrs x) (inject_signature_models x).

Definition set_signature_model (sm : option SignatureModel) (h : Handler)
  : Handler :=
  mkHandler (layer h) sm (_dependencies h) (_permissions h)
    (_response_handler h) (return_annotation h) (media_type h) (status_code h)
    (background h) (response_class h) (response_headers h)
    (response_cookies h) (allow_header h).

(** [path_parameters]: the names of the path convertors, as a set. *)
Definition path_parameters (a : HandlerAttrs) : gset string :=
  list_to_set (PyDict.keys (param_convertors a)).

Section signature.
(** [SignatureModelFactory(fn, dependency_names).create_signature_model()]
    and [KwargsModel.create_for_signature_model(...)] are not part of the
    sources; they are taken as they come, possibly raising. *)
Variable SignatureModelFactory :
  Callable -> gset string -> Result SignatureModel.
Variable create_for_signature_model :
  SignatureModel -> list (string * Inject) -> gset string -> Result KwargsModel.

(** [if not self.signature_model: self.signature_model = ...] *)
Definition create_own_signature_model (x : SigState) : Result unit * SigState :=
  match signature_model (self (core x)) with
  | Some _ => (Ok tt, x)
  | None =>
      match SignatureModelFactory (handler_fn (attrs x))
              (dependency_names (layer (self (core x)))) with
      | Ok sm =>
          (Ok tt,
           with_core
             (mkState (set_signature_model (Some sm) (self (core x)))
                (dicts (core x)) (responses (core x)) (trace (core x))) x)
      | Raise e => (Raise e, x)
      end
  end.

(** [for dependency in list(...values()): if not dependency.signature_model:
    dependency.signature_model = ...] *)
Fixpoint create_dependency_signature_models (names : gset string)
    (values : list Inject) (models : list (Inject * SignatureModel))
  : Result unit * list (Inject * SignatureModel) :=
  match values with
  | [] => (Ok tt, models)
  | dependency0 :: rest =>
      match PyDict.get models dependency0 with
      | Some _ => create_dependency_signature_models names rest models
      | None =>
          match SignatureModelFactory (ProviderFunction (dependency dependency0))
                  names with
          | Ok sm =>
              create_dependency_signature_models names rest
                (PyDict.set dependency0 sm models)
          | Raise e => (Raise e, models)
          end
      end
  end.

(** [get_dependencies()] followed by reading the mapping it returned. *)
Definition resolved_dependencies (c : State)
  : Result (list (string * Inject)) * State :=
  match get_dependencies c with
  | (Ok r, c') =>
      match dicts c' !! r with
      | Some d => (Ok d, c')
      | None => (Raise (RuntimeError "dangling dict reference"), c')
      end
  | (Raise e, c') => (Raise e, c')
  end.

(** [create_handler_kwargs_model].  [get_signature_model(self)] is not part
    of the sources; it hands back the handler's signature model, which the
    handler has once [get_dependencies] has returned. *)
Definition create_handler_kwargs_model (x : SigState)
  : Result KwargsModel * SigState :=
  match resolved_dependencies (core x) with
  | (Ok dependencies, c) =>
      match signature_model (self c) with
      | Some signature_model =>
          (create_for_signature_model signature_model dependencies
             (path_parameters (attrs x)),
           with_core c x)
      | None =>
          (Raise (AttributeError "signature_model"), with_core c x)
      end
  | (Raise e, c) => (Raise e, with_core c x)
  end.

(** The assignments at the end of [create_signature_model]. *)
Definition store_kwargs_model (is_websocket : bool)
    (kwargs_model : KwargsModel) (a : HandlerAttrs) : HandlerAttrs :=
  if negb is_websocket
  then mkHandlerAttrs (handler_fn a) (methods a) (param_convertors a)
         (Some kwargs_model)
         (fold_left (fun route_map method =>
                       PyDict.set method kwargs_model route_map)
            (methods a) (route_map a))
         (websocket_parameter_model a)
  else mkHandlerAttrs (handler_fn a) (methods a) (param_convertors a)
         (kwargs a) (route_map a) (Some kwargs_model).

Definition create_signature_model (is_websocket : bool) (x : SigState)
  : Result unit * SigState :=
  match create_own_signature_model x with
  | (Raise e, x) => (Raise e, x)
  | (Ok _, x) =>
      match resolved_dependencies (core x) with
      | (Raise e, c) => (Raise e, with_core c x)
      | (Ok dependencies, c) =>
          match create_dependency_signature_models
                  (dependency_names (layer (self c)))
                  (PyDict.values dependencies) (inject_signature_models x)
          with
          | (Raise e, models) => (Raise e, mkSigState c (attrs x) models)
          | (Ok _, models) =>
              match create_handler_kwargs_model
                      (mkSigState c (attrs x) models) with
              | (Raise e, x) => (Raise e, x)
              | (Ok kwargs_model, x) =>
                  (Ok tt,
                   mkSigState (core x)
                     (store_kwargs_model is_websocket kwargs_model (attrs x))
                     (inject_signature_models x))
              end
          end
      end
  end.
End signature.

(** A handler without a signature model on the conflicting chain, with two
    HTTP methods; a factory and a kwargs-model constructor that never
    fail. *)
Definition sample_factory (fn : Callable) (names : gset string)
  : Result SignatureModel := Ok sample_signature_model.

Definition sample_create_for (sm : SignatureModel)
    (dependencies : list (string * Inject)) (path_parameters : gset string)
  : Result KwargsModel :=
  Ok (mkKwargsModel (negb (bool_decide (dependencies = []))) (fun _ => [])
        (map (fun kv => mkDependency kv.1) dependencies)
        (fun _ _ _ => Ok (VContent CNone))).

Definition unsigned_handler_on (l : Layer) : Handler :=
  mkHandler l None Void Void Void AnnEmpty None None None plain_class [] []
    [].

Definition sample_attrs : HandlerAttrs :=
  mkHandlerAttrs (HandlerFunction 0) ["GET"; "HEAD"]
    [("item_id", mkConvertor "int")] None [] None.

Definition signature_state (l : Layer) : SigState :=
  mkSigState (initial_state (unsigned_handler_on l)) sample_attrs [].


(** A handler that has its signature model, on the override chain, whose
    resolved provider has a signature model too; and a factory that always
    fails. *)
Definition modelled_state : SigState :=
  mkSigState (initial_state (handler_on override_chain)) sample_attrs
    [(provider_session, sample_signature_model)].

Definition failing_factory (fn : Callable) (names : gset string)
  : Result SignatureModel := Raise (HandlerError "no factory").

(** ** [Cookie.to_header]

    The cookie is loaded into a [SimpleCookie] holding one morsel: the
    value, and the attributes assigned to the morsel in order.  What
    [SimpleCookie] makes of that data belongs to the standard library and is
    taken as it comes, as one function [output_stripped] of the morsel and
    of the keyword arguments: the rendering ([simple_cookie.output], then
    [strip]) and also the [CookieError] with which the first assignment
    refuses an illegal key, which depends on the key alone and comes before
    anything else is done. *)
Record Morsel : Type := mkMorsel {
  morsel_key : string;
  morsel_value : string;
  morsel_attrs : list (string * PyVal)
}.

(** [self.model_dump()]: every field, unset ones as [None]. *)
Definition opt_val {A : Type} (inj : A -> PyVal) (x : option A) : PyVal :=
  match x with
  | Some a => inj a
  | None => PNone
  end.

Definition model_dump (c : Cookie) : list (string * PyVal) :=
  [("key", PStr (key c)); ("value", opt_val PStr (value c));
   ("max_age", opt_val PInt (max_age c));
   ("expires", opt_val PInt (expires c)); ("path", PStr (path c));
   ("domain", opt_val PStr (domain c)); ("secure", opt_val PBool (secure c));
   ("httponly", opt_val PBool (httponly c));
   ("samesite", PStr (samesite c));
   ("description", opt_val PStr (description c))].

Definition to_header_morsel (c : Cookie) : Morsel :=
  let value := match value c with Some v => v | None => "" end in
  let attrs :=
    if truthy_int (max_age c)
    then PyDict.set "max-age" (opt_val PInt (max_age c)) []
    else [] in
  let cookie_dict := model_dump c in
  let attrs :=
    fold_left
      (fun attrs key =>
         match PyDict.get cookie_dict key with
         | Some PNone | None => attrs
         | Some v => PyDict.set key v attrs
         end)
      ["expires"; "path"; "domain"; "secure"; "httponly"; "samesite"] attrs in
  mkMorsel (key c) value attrs.

Definition to_header {OutputKwargs : Type}
    (output_stripped : Morsel -> OutputKwargs -> Result string)
    (c : Cookie) (kwargs : OutputKwargs) : Result string :=
  output_stripped (to_header_morsel c) kwargs.

(** ** [State]

    A state object holds a reference to its dictionary [_state]; the
    dictionaries live in a store. *)
Record StateObj : Type := mkStateObj { _state : nat }.

Inductive StateResult (A : Type) : Type :=
| Returned (a : A)
| KeyError (key : string)
| StateAttributeError (msg : string).
Arguments Returned {A} _.
Arguments KeyError {A} _.
Arguments StateAttributeError {A} _.

Definition state_dict (store : list (list (string * PyVal))) (s : StateObj)
  : list (string * PyVal) :=
  match store !! _state s with
  | Some d => d
  | None => []
  end.

(** [__len__] *)
Definition State_len (store : list (list (string * PyVal))) (s : StateObj)
  : nat := length (state_dict store s).

(** [__getitem__] *)
Definition State_getitem (store : list (list (string * PyVal)))
    (s : StateObj) (key : string) : StateResult PyVal :=
  match PyDict.get (state_dict store s) key with
  | Some v => Returned v
  | None => KeyError key
  end.

(** [__getattr__]: the [KeyError] becomes an [AttributeError]. *)
Definition State_getattr (store : list (list (string * PyVal)))
    (s : StateObj) (key : string) : StateResult PyVal :=
  match State_getitem store s key with
  | KeyError _ =>
      StateAttributeError ("State has no key '" +:+ key +:+ "'")
  | r => r
  end.

(** [__copy__]: [self.__class__(copy(self._state))], a new state object on
    a new dictionary with the same items. *)
Definition State_copy_ (store : list (list (string * PyVal))) (s : StateObj)
  : StateObj * list (list (string * PyVal)) :=
  (mkStateObj (length store), store ++ [state_dict store s]).

(** [copy]: [copy(self)], which calls [__copy__]. *)
Definition State_copy (store : list (list (string * PyVal))) (s : StateObj)
  : StateObj * list (list (string * PyVal)) :=
  State_copy_ store s.

(** ** The claim's words for the exception handlers

    "When two layers register a handler for the same exception key, the
    layer closest to the handler (innermost) wins": under a key a layer has
    its own handler, or else the one its owner has, up the owner chain. *)
Fixpoint innermost_exception_handler (l : Layer) (k : ExcKey)
  : option ExcHandler :=
  match l with
  | mkLayer _ _ e o =>
      match PyDict.get (or_empty e) k with
      | Some h => Some h
      | None => match o with
                | Some up => innermost_exception_handler up k
                | None => None
                end
      end
  end.

(** A property of every layer of the owner chain, from the given layer up
    to the root. *)
Fixpoint every_owner (P : Layer -> Prop) (l : Layer) : Prop :=
  match l with
  | mkLayer _ _ _ o =>
      P l /\ match o with
             | Some up => every_owner P up
             | None => True
             end
  end.


(** ** The header object: what the proofs speak of

    The lines with their names as the library stores them, and the lines of
    one name. *)
Definition lowered {V : Type} (raw : list (string * V)) : list (string * V) :=
  map (fun kv => (lower kv.1, kv.2)) raw.

Definition header_lines (name : string) (raw : list (string * PyVal))
  : list (string * PyVal) :=
  filter (fun kv => lower kv.1 = lower name) raw.

(** A response with a content type of its own, under a handler that has an
    allow header; the handler declares a content type in capitals and one
    more header. *)
Definition allowing_handler : Handler :=
  mkHandler (mkLayer None None None None) (Some sample_signature_model)
    Void Void Void AnnEmpty None None None plain_class [] []
    [("allow", PStr "GET, HEAD")].

Definition allowing_state : State :=
  mkState allowing_handler [] [esmerald_response_obj] [].

Definition capital_headers : list (string * ResponseHeader) :=
  [("Content-Type", mkResponseHeader (PStr "application/json"));
   ("X-Served-By", mkResponseHeader (PStr "esmerald"))].

(** A handler that declares an allow header of its own twice, the second
    time in capitals. *)
Definition twice_allow_headers : list (string * ResponseHeader) :=
  [("allow", mkResponseHeader (PStr "OPTIONS"));
   ("Allow", mkResponseHeader (PStr "TRACE"))].


(** The header object encodes the values it is given and so takes strings
    only. *)
Definition is_str (v : PyVal) : bool :=
  match v with
  | PStr _ => true
  | _ => false
  end.


(** * Properties *)

(** ** Dictionaries *)
Section dict_facts.
Context {K V : Type} `{EqDecision K}.
Implicit Types (d : list (K * V)) (k : K) (v : V).

Lemma get_set_eq d k v : PyDict.get (PyDict.set k v d) k = Some v.
Proof.
  induction d as [|[k' v'] d IH]; simpl.
  - by rewrite decide_True.
  - destruct (decide (k = k')) as [->|Hne]; simpl.
    + by rewrite decide_True.
    + by rewrite decide_False.
Qed.

Lemma get_set_ne d k k' v :
  k ≠ k' -> PyDict.get (PyDict.set k v d) k' = PyDict.get d k'.
Proof.
  intros Hne. induction d as [|[k0 v0] d IH]; simpl.
  - by rewrite decide_False.
  - destruct (decide (k = k0)) as [->|Hk]; simpl.
    + by rewrite !decide_False.
    + destruct (decide (k' = k0)); [done | apply IH].
Qed.

Lemma get_app d1 d2 k :
  PyDict.get (d1 ++ d2) k =
  match PyDict.get d1 k with
  | Some v => Some v
  | None => PyDict.get d2 k
  end.
Proof.
  induction d1 as [|[k' v'] d1 IH]; simpl; [done|].
  by destruct (decide (k = k')).
Qed.

Lemma get_None d k : PyDict.get d k = None <-> k ∉ PyDict.keys d.
Proof.
  induction d as [|[k' v'] d IH]; simpl.
  - split; [intros _; apply not_elem_of_nil | done].
  - rewrite not_elem_of_cons. destruct (decide (k = k')) as [->|Hne].
    + split; [done | intros [? _]; done].
    + rewrite IH. tauto.
Qed.

Lemma get_Some_elem_of d k v : PyDict.get d k = Some v -> (k, v) ∈ d.
Proof.
  induction d as [|[k' v'] d IH]; simpl; [done|].
  destruct (decide (k = k')) as [->|Hne].
  - intros [= ->]. apply list_elem_of_here.
  - intros Hg. apply list_elem_of_further, IH, Hg.
Qed.

Lemma elem_of_get_Some d k v :
  PyDict.wf d -> (k, v) ∈ d -> PyDict.get d k = Some v.
Proof.
  unfold PyDict.wf. induction d as [|[k' v'] d IH]; simpl.
  - intros _ Hin. by apply elem_of_nil in Hin.
  - intros Hnd Hin. apply NoDup_cons in Hnd as [Hnotin Hnd].
    apply elem_of_cons in Hin as [[= -> ->]|Hin].
    + by rewrite decide_True.
    + destruct (decide (k = k')) as [->|Hne]; [|by apply IH].
      exfalso. apply Hnotin.
      apply (list_elem_of_fmap_2 fst) in Hin. exact Hin.
Qed.

Lemma get_rev d k v :
  PyDict.wf d -> PyDict.get d k = Some v -> PyDict.get (reverse d) k = Some v.
Proof.
  intros Hwf Hg. apply elem_of_get_Some.
  - unfold PyDict.wf, PyDict.keys in *.
    change (NoDup (fst <$> reverse d)).
    by rewrite fmap_reverse, reverse_Permutation.
  - rewrite elem_of_reverse. by apply get_Some_elem_of.
Qed.

Lemma keys_set d k v x :
  x ∈ PyDict.keys (PyDict.set k v d) <-> x = k \/ x ∈ PyDict.keys d.
Proof.
  induction d as [|[k' v'] d IH]; simpl.
  - rewrite list_elem_of_singleton. split; [auto|].
    intros [?|Hin]; [done|]. by apply elem_of_nil in Hin.
  - destruct (decide (k = k')) as [->|Hne]; simpl;
      rewrite !elem_of_cons; [tauto|]. rewrite IH. tauto.
Qed.

Lemma wf_set d k v : PyDict.wf d -> PyDict.wf (PyDict.set k v d).
Proof.
  unfold PyDict.wf. induction d as [|[k' v'] d IH]; simpl.
  - intros _. apply NoDup_singleton.
  - intros Hnd. apply NoDup_cons in Hnd as [Hnotin Hnd].
    destruct (decide (k = k')) as [->|Hne]; simpl.
    + by apply NoDup_cons.
    + apply NoDup_cons. split; [|by apply IH].
      intros Hin. apply keys_set in Hin as [?|?]; [congruence | done].
Qed.

Lemma values_set d k v x :
  x ∈ PyDict.values (PyDict.set k v d) -> x = v \/ x ∈ PyDict.values d.
Proof.
  induction d as [|[k' v'] d IH]; simpl.
  - rewrite list_elem_of_singleton. auto.
  - destruct (decide (k = k')) as [->|Hne]; simpl;
      rewrite !elem_of_cons; [tauto|]. intros [?|Hin]; [tauto|].
    apply IH in Hin. tauto.
Qed.

Lemma NoDup_values_set d k v :
  v ∉ PyDict.values d -> NoDup (PyDict.values d) ->
  NoDup (PyDict.values (PyDict.set k v d)).
Proof.
  induction d as [|[k' v'] d IH]; simpl.
  - intros _ _. apply NoDup_singleton.
  - rewrite not_elem_of_cons. intros [Hv Hnotin] Hnd.
    apply NoDup_cons in Hnd as [Hv' Hnd].
    destruct (decide (k = k')) as [->|Hne]; simpl.
    + by apply NoDup_cons.
    + apply NoDup_cons. split; [|by apply IH].
      intros Hin. apply values_set in Hin as [?|?]; [congruence | done].
Qed.

Lemma update_app d o1 o2 :
  PyDict.update d (o1 ++ o2) = PyDict.update (PyDict.update d o1) o2.
Proof. unfold PyDict.update. by rewrite fold_left_app. Qed.

(** After [d.update(other)] a key holds its last binding in [other], or
    what it held in [d] when [other] does not mention it. *)
Lemma get_update d other k :
  PyDict.get (PyDict.update d other) k =
  match PyDict.get (reverse other) k with
  | Some v => Some v
  | None => PyDict.get d k
  end.
Proof.
  revert d. induction other as [|[k' v'] other IH]; intros d; simpl; [done|].
  unfold PyDict.update in *. simpl. rewrite IH, reverse_cons, get_app.
  destruct (PyDict.get (reverse other) k); [done|].
  simpl. destruct (decide (k = k')) as [->|Hne].
  - apply get_set_eq.
  - by apply get_set_ne.
Qed.

Lemma wf_update d other : PyDict.wf d -> PyDict.wf (PyDict.update d other).
Proof.
  revert d. induction other as [|[k' v'] other IH]; intros d Hwf; [done|].
  apply IH. by apply wf_set.
Qed.
End dict_facts.

(** ** The dependency walk *)

Lemma has_dependency_unique_Ok d key inj :
  has_dependency_unique d key inj = Ok tt <-> inj ∉ PyDict.values d.
Proof.
  induction d as [|[dk v] d IH]; simpl.
  - split; [intros _; apply not_elem_of_nil | done].
  - rewrite not_elem_of_cons. destruct (decide (inj = v)) as [->|Hne].
    + split; [done | intros [? _]; done].
    + rewrite IH. tauto.
Qed.

Lemma has_dependency_unique_Raise d key inj e :
  has_dependency_unique d key inj = Raise e ->
  exists dk, e = ImproperlyConfigured key dk /\ (dk, inj) ∈ d.
Proof.
  induction d as [|[dk v] d IH]; simpl; [done|].
  destruct (decide (inj = v)) as [->|Hne].
  - intros [= <-]. exists dk. split; [done | apply list_elem_of_here].
  - intros Hr. destruct (IH Hr) as (dk' & -> & Hin).
    exists dk'. split; [done | by apply list_elem_of_further].
Qed.

(** In a mapping whose values are pairwise distinct the error names the one
    key that holds the injector. *)
Lemma has_dependency_unique_names d key inj dk :
  NoDup (PyDict.values d) -> PyDict.get d dk = Some inj ->
  has_dependency_unique d key inj = Raise (ImproperlyConfigured key dk).
Proof.
  induction d as [|[k' v'] d IH]; simpl; [done|].
  intros Hnd Hg. apply NoDup_cons in Hnd as [Hnotin Hnd].
  destruct (decide (dk = k')) as [->|Hne].
  - injection Hg as ->. by rewrite decide_True.
  - destruct (decide (inj = v')) as [->|Hv]; [|by apply IH].
    exfalso. apply Hnotin. apply get_Some_elem_of in Hg.
    apply (list_elem_of_fmap_2 snd) in Hg. exact Hg.
Qed.

Lemma accumulate_app d a b :
  accumulate d (a ++ b) =
  match accumulate d a with
  | (Ok _, d') => accumulate d' b
  | (Raise e, d') => (Raise e, d')
  end.
Proof.
  revert d. induction a as [|kv a IH]; intros d; simpl; [done|].
  destruct (has_dependency_unique d kv.1 kv.2); [apply IH | done].
Qed.

(** The accumulated mapping is a dictionary whose values are pairwise
    distinct, whether the walk ends normally or by a raise. *)
Lemma accumulate_invariant items : forall d res d',
  PyDict.wf d -> NoDup (PyDict.values d) ->
  accumulate d items = (res, d') ->
  PyDict.wf d' /\ NoDup (PyDict.values d').
Proof.
  induction items as [|kv items IH]; intros d res d' Hwf Hnd; simpl.
  - intros [= _ <-]. done.
  - destruct (has_dependency_unique d kv.1 kv.2) as [[]|e] eqn:Hu.
    + apply IH; [by apply wf_set|].
      apply NoDup_values_set; [|done]. by apply has_dependency_unique_Ok in Hu.
    + intros [= _ <-]. done.
Qed.

(** No provider occurring twice: the walk cannot raise and the result is the
    plain left-to-right merge. *)
Lemma accumulate_distinct items : forall d,
  NoDup (PyDict.values d ++ PyDict.values items) ->
  accumulate d items = (Ok tt, PyDict.update d items).
Proof.
  induction items as [|[k v] items IH]; intros d Hnd; simpl; [done|].
  simpl in Hnd. apply NoDup_app in Hnd as (Hd & Hdisj & Hit).
  apply NoDup_cons in Hit as [Hv Hit].
  assert (Hfresh : v ∉ PyDict.values d).
  { intros Hin. apply (Hdisj _ Hin), list_elem_of_here. }
  rewrite (proj2 (has_dependency_unique_Ok d k v) Hfresh).
  apply IH, NoDup_app. split; [by apply NoDup_values_set|]. split; [|done].
  intros x Hx. apply values_set in Hx as [->|Hx]; [done|].
  intros Hin. apply (Hdisj _ Hx). by apply list_elem_of_further.
Qed.

(** A raise comes from a pair whose provider the accumulated mapping already
    holds. *)
Lemma accumulate_Raise items : forall d e d',
  PyDict.wf d ->
  accumulate d items = (Raise e, d') ->
  exists pre key inj post dk,
    items = pre ++ (key, inj) :: post /\
    accumulate d pre = (Ok tt, d') /\
    e = ImproperlyConfigured key dk /\
    PyDict.get d' dk = Some inj.
Proof.
  induction items as [|[k v] items IH]; intros d e d' Hwf; simpl; [done|].
  destruct (has_dependency_unique d k v) as [[]|e'] eqn:Hu.
  - intros Hacc. apply IH in Hacc; [|by apply wf_set].
    destruct Hacc as (pre & key & inj & post & dk & -> & Hpre & -> & Hg).
    exists ((k, v) :: pre), key, inj, post, dk. simpl. by rewrite Hu.
  - intros [= <- <-]. apply has_dependency_unique_Raise in Hu as (dk & -> & Hin).
    exists [], k, v, items, dk. repeat split. by apply elem_of_get_Some.
Qed.

(** ** Running monadic code *)

Lemma traced_nil (st : State) : traced st [] = st.
Proof. destruct st. unfold traced. simpl. by rewrite app_nil_r. Qed.

Lemma traced_app (st : State) evs1 evs2 :
  traced (traced st evs1) evs2 = traced st (evs1 ++ evs2).
Proof. unfold traced. simpl. by rewrite app_assoc. Qed.

Lemma bind_run {A B : Type} (m : M A) (f : A -> M B) (st : State) :
  (m ≫= f) st =
  match m st with
  | (Ok a, st') => f a st'
  | (Raise e, st') => (Raise e, st')
  end.
Proof. reflexivity. Qed.

Lemma ret_run {A : Type} (a : A) (st : State) :
  (mret a : M A) st = (Ok a, st).
Proof. reflexivity. Qed.

Lemma raise_run {A : Type} (e : Exception) (st : State) :
  (raise e : M A) st = (Raise e, st).
Proof. reflexivity. Qed.

Lemma lift_run {A : Type} (r : Result A) (st : State) : lift r st = (r, st).
Proof. reflexivity. Qed.

Lemma get_self_run (st : State) : get_self st = (Ok (self st), st).
Proof. reflexivity. Qed.

Lemma modify_self_run (f : Handler -> Handler) (st : State) :
  modify_self f st =
  (Ok tt, mkState (f (self st)) (dicts st) (responses st) (trace st)).
Proof. reflexivity. Qed.

Lemma emit_run (e : Event) (st : State) : emit e st = (Ok tt, traced st [e]).
Proof. reflexivity. Qed.

Lemma new_resp_run (o : ResponseObj) (st : State) :
  new_resp o st =
  (Ok (length (responses st)),
   mkState (self st) (dicts st) (responses st ++ [o]) (trace st)).
Proof. reflexivity. Qed.

Lemma read_resp_run (r : nat) (o : ResponseObj) (st : State) :
  responses st !! r = Some o -> read_resp r st = (Ok o, st).
Proof. intros Hr. unfold read_resp. by rewrite Hr. Qed.

Lemma write_resp_run (r : nat) (o : ResponseObj) (st : State) :
  write_resp r o st =
  (Ok tt, mkState (self st) (dicts st) (<[r := o]> (responses st)) (trace st)).
Proof. reflexivity. Qed.

(** One step of a monadic computation applied to a state. *)
Ltac mstep :=
  first [ rewrite bind_run | rewrite ret_run | rewrite raise_run
        | rewrite lift_run | rewrite get_self_run | rewrite modify_self_run
        | rewrite emit_run | rewrite new_resp_run | rewrite write_resp_run ];
  cbv beta match.

Ltac mrun := repeat mstep.

(** ** Running the loops of [get_dependencies] *)

Lemma with_dicts_id (st : State) r d :
  dicts st !! r = Some d ->
  mkState (self st) (<[r:=d]> (dicts st)) (responses st) (trace st) = st.
Proof. intros Hr. destruct st; simpl in *. f_equal. by apply list_insert_id. Qed.

Lemma walk_items_run r items : forall (st : State) d,
  dicts st !! r = Some d ->
  for_each items (fun kv =>
    d ← read_dict r;
    lift (has_dependency_unique d kv.1 kv.2);;
    write_dict r (PyDict.set kv.1 kv.2 d)) st
  = ((accumulate d items).1,
     mkState (self st) (<[r := (accumulate d items).2]> (dicts st))
       (responses st) (trace st)).
Proof.
  induction items as [|kv items IH]; intros st d Hr; simpl.
  - unfold mret, M_ret. by rewrite with_dicts_id.
  - unfold mbind, M_bind, read_dict, lift, write_dict at 1. rewrite Hr.
    destruct (has_dependency_unique d kv.1 kv.2) as [[]|e]; simpl.
    + assert (Hlt : (r < length (dicts st))%nat) by by eapply lookup_lt_Some.
      erewrite IH; simpl; [|by apply list_lookup_insert_eq].
      by rewrite list_insert_insert_eq.
    + by rewrite with_dicts_id.
Qed.

Lemma walk_layers_run r layers : forall (st : State) d,
  dicts st !! r = Some d ->
  for_each layers (fun layer =>
    for_each (or_empty (dependencies layer)) (fun kv =>
      d ← read_dict r;
      lift (has_dependency_unique d kv.1 kv.2);;
      write_dict r (PyDict.set kv.1 kv.2 d))) st
  = ((accumulate d (dependency_items layers)).1,
     mkState (self st)
       (<[r := (accumulate d (dependency_items layers)).2]> (dicts st))
       (responses st) (trace st)).
Proof.
  induction layers as [|l layers IH]; intros st d Hr; simpl.
  - unfold mret, M_ret. by rewrite with_dicts_id.
  - unfold mbind, M_bind at 1. rewrite (walk_items_run _ _ _ _ Hr).
    rewrite accumulate_app.
    destruct (accumulate d (or_empty (dependencies l))) as [[[]|e] d1]; simpl.
    + assert (Hlt : (r < length (dicts st))%nat) by by eapply lookup_lt_Some.
      erewrite IH; simpl; [|by apply list_lookup_insert_eq].
      by rewrite list_insert_insert_eq.
    + done.
Qed.

(** [get_dependencies] on a handler whose slot is still [Void]: a fresh
    dictionary is stored in the slot at once and then filled by the walk. *)
Lemma get_dependencies_first (st : State) sm :
  signature_model (self st) = Some sm ->
  _dependencies (self st) = Void ->
  let r := length (dicts st) in
  let acc := accumulate [] (dependency_items (ownership_layers (layer (self st)))) in
  get_dependencies st =
  (match acc.1 with Ok _ => Ok r | Raise e => Raise e end,
   mkState (set__dependencies (Filled r) (self st)) (dicts st ++ [acc.2])
     (responses st) (trace st)).
Proof.
  intros Hsm Hvoid r acc. unfold get_dependencies.
  rewrite bind_run. unfold get_self. rewrite Hsm, Hvoid.
  rewrite bind_run. unfold new_dict.
  rewrite bind_run. unfold modify_self.
  rewrite bind_run. erewrite walk_layers_run; simpl.
  2:{ apply list_lookup_middle. done. }
  fold r acc. rewrite ret_run. replace (<[length (dicts st):=acc.2]> (dicts st ++ [[]]))
    with (dicts st ++ [acc.2]).
  - by destruct acc.1 as [[]|e].
  - rewrite insert_app_r_alt, Nat.sub_diag; [done | lia].
Qed.

(** ** Lookups in dictionaries *)

Section dict_lookup_facts.
Context {K V : Type} `{EqDecision K}.

Lemma get_reverse_wf (d : list (K * V)) (k : K) :
  PyDict.wf d -> PyDict.get (reverse d) k = PyDict.get d k.
Proof.
  intros Hwf. destruct (PyDict.get d k) as [v|] eqn:Hg.
  - by apply get_rev.
  - apply get_None. apply get_None in Hg. unfold PyDict.keys in *.
    change (k ∉ fst <$> reverse d). by rewrite fmap_reverse, elem_of_reverse.
Qed.

Lemma get_update_wf (d other : list (K * V)) (k : K) :
  PyDict.wf other ->
  PyDict.get (PyDict.update d other) k =
  match PyDict.get other k with
  | Some v => Some v
  | None => PyDict.get d k
  end.
Proof. intros Hwf. by rewrite get_update, get_reverse_wf. Qed.

Lemma get_map_values {W : Type} (g : V -> W) (d : list (K * V)) (k : K) :
  PyDict.get (map (fun kv => (kv.1, g kv.2)) d) k = g <$> PyDict.get d k.
Proof.
  induction d as [|[k' v] d IH]; simpl; [done|].
  by destruct (decide (k = k')).
Qed.

Lemma wf_map_values {W : Type} (g : V -> W) (d : list (K * V)) :
  PyDict.wf d -> PyDict.wf (map (fun kv => (kv.1, g kv.2)) d).
Proof.
  unfold PyDict.wf, PyDict.keys. by rewrite map_map.
Qed.
End dict_lookup_facts.

(** ** Merging per-layer dictionaries root to leaf *)
Section layered_merge.
Context {A K V : Type} `{EqDecision K}.
Variable f : A -> list (K * V).

Lemma flat_get_None (ls : list A) k :
  Forall (fun l => PyDict.get (f l) k = None) ls ->
  PyDict.get (reverse (flat_map f ls)) k = None.
Proof.
  intros Hall. apply get_None. unfold PyDict.keys.
  change (k ∉ fst <$> reverse (flat_map f ls)).
  rewrite fmap_reverse, elem_of_reverse, list_elem_of_fmap.
  intros ([k' v] & -> & Hin). apply list_elem_of_In, in_flat_map in Hin.
  destruct Hin as (l & Hl & Hin). apply list_elem_of_In in Hl, Hin.
  rewrite Forall_forall in Hall. specialize (Hall l Hl).
  apply get_None in Hall. apply Hall.
  by apply (list_elem_of_fmap_2 fst) in Hin.
Qed.

(** The innermost layer that binds a key decides its value. *)
Lemma flat_get_innermost (outer inner : list A) l k v :
  PyDict.wf (f l) ->
  PyDict.get (f l) k = Some v ->
  Forall (fun l' => PyDict.get (f l') k = None) inner ->
  PyDict.get (reverse (flat_map f (outer ++ l :: inner))) k = Some v.
Proof.
  intros Hwf Hg Hinner.
  rewrite flat_map_app. simpl. rewrite !reverse_app, <- app_assoc, !get_app.
  rewrite (flat_get_None inner k Hinner).
  by rewrite (get_rev _ _ _ Hwf Hg).
Qed.

Lemma fold_update_flat (ls : list A) : forall d,
  fold_left (fun acc l => PyDict.update acc (f l)) ls d =
  PyDict.update d (flat_map f ls).
Proof.
  induction ls as [|l ls IH]; intros d; simpl; [done|].
  by rewrite IH, update_app.
Qed.
End layered_merge.

(** ** The ownership chain *)

Lemma walk_owners_head (l : Layer) : head (walk_owners l) = Some l.
Proof. by destruct l. Qed.

(** The handler's own layer comes last. *)
Lemma ownership_layers_last (l : Layer) : last (ownership_layers l) = Some l.
Proof. unfold ownership_layers. by rewrite last_reverse, walk_owners_head. Qed.

Lemma ownership_layers_unfold (l : Layer) :
  ownership_layers l =
  match owner l with
  | Some up => ownership_layers up ++ [l]
  | None => [l]
  end.
Proof.
  unfold ownership_layers. destruct l as [d p e [up|]]; simpl.
  - by rewrite reverse_cons.
  - done.
Qed.

(** The root, which has no owner, comes first. *)
Lemma ownership_layers_root (l : Layer) :
  exists root, head (ownership_layers l) = Some root /\ owner root = None.
Proof.
  induction l as [d p e|d p e up IH] using Layer_owner_ind;
    rewrite ownership_layers_unfold; simpl.
  - by eexists.
  - destruct IH as (root & Hh & Hroot). exists root. split; [|done].
    destruct (ownership_layers up); [done | exact Hh].
Qed.

(** ** Dependencies: conflicts and overrides *)




(** The walk also raises when a layer binds, under the same key, the very
    provider an outer layer bound under it; the error then names that key
    twice. *)
Lemma get_dependencies_same_binding_raises :
  (get_dependencies (initial_state (handler_on same_binding_chain))).1
  = Raise (ImproperlyConfigured "db" "db").
Proof. reflexivity. Qed.

(** Two distinct providers under one key: the handler's own wins. *)
Lemma get_dependencies_override_example :
  get_dependencies (initial_state (handler_on override_chain))
  = (Ok 0%nat,
     mkState (set__dependencies (Filled 0%nat) (handler_on override_chain))
       [[("db", provider_session)]] [] []).
Proof. reflexivity. Qed.

(** ** Dependencies: the single-slot cache *)

Lemma get_dependencies_filled (st : State) (r : nat) :
  _dependencies (self st) = Filled r ->
  signature_model (self st) <> None ->
  get_dependencies st = (Ok r, st).
Proof.
  intros Hslot Hsm. unfold get_dependencies. rewrite bind_run.
  unfold get_self. destruct (signature_model (self st)); [|done].
  by rewrite Hslot.
Qed.

(** C6.  Once a call of [get_dependencies] has returned a mapping, the
    handler's slot holds the reference of that mapping instead of the unset
    marker; when the slot was unset before, the reference is a new object of
    the store.  A second call returns the same reference and changes
    nothing; and so does a call on any handler whose slot holds that
    reference, whatever its chain of layers is by then: the layers are not
    walked again. *)
Theorem get_dependencies_idempotent (st st1 : State) (r : nat) :
  get_dependencies st = (Ok r, st1) ->
  _dependencies (self st1) = Filled r /\
  (_dependencies (self st) = Void ->
   dicts st !! r = None /\ is_Some (dicts st1 !! r)) /\
  get_dependencies st1 = (Ok r, st1) /\
  (forall st2 : State,
     _dependencies (self st2) = Filled r ->
     signature_model (self st2) <> None ->
     get_dependencies st2 = (Ok r, st2)).
Proof.
  intros Hrun.
  assert (Hsm : signature_model (self st) <> None).
  { intros Hnone. unfold get_dependencies in Hrun. rewrite bind_run in Hrun.
    unfold get_self in Hrun. by rewrite Hnone in Hrun. }
  assert (Hst1 : _dependencies (self st1) = Filled r /\
                 signature_model (self st1) <> None /\
                 (_dependencies (self st) = Void ->
                  dicts st !! r = None /\ is_Some (dicts st1 !! r))).
  { destruct (_dependencies (self st)) as [|r0] eqn:Hslot.
    - destruct (signature_model (self st)) as [sm|] eqn:Hsig; [|done].
      rewrite (get_dependencies_first st sm Hsig Hslot) in Hrun.
      destruct (accumulate [] _) as [[[]|e] d]; simpl in Hrun; [|done].
      injection Hrun as <- <-. simpl. rewrite Hsig.
      split; [done|]. split; [done|]. intros _. split.
      + apply lookup_ge_None. lia.
      + rewrite list_lookup_middle by done. by eexists.
    - rewrite (get_dependencies_filled st r0 Hslot Hsm) in Hrun.
      injection Hrun as <- <-. done. }
  destruct Hst1 as (Hslot1 & Hsm1 & Hfresh).
  split; [done|]. split; [done|]. split.
  - by apply get_dependencies_filled.
  - intros st2. apply get_dependencies_filled.
Qed.

Lemma get_dependencies_idempotent_witness :
  get_dependencies override_state_resolved = (Ok 0%nat, override_state_resolved)
  /\ get_dependencies rewired_state = (Ok 0%nat, rewired_state).
Proof.
  destruct (get_dependencies_idempotent override_state
              override_state_resolved 0%nat eq_refl)
    as (_ & _ & Hagain & Hany).
  split; [exact Hagain|]. apply Hany; [reflexivity | discriminate].
Defined.

(** When the first call raises, the slot stays filled with the mapping as
    far as it got, and the next call returns that partial mapping without
    raising. *)
Lemma get_dependencies_after_raise :
  (get_dependencies (initial_state (handler_on conflict_chain))).1
  = Raise (ImproperlyConfigured "session" "db") /\
  (get_dependencies
     (get_dependencies (initial_state (handler_on conflict_chain))).2).1
  = Ok 0%nat /\
  dicts (get_dependencies (initial_state (handler_on conflict_chain))).2
    !! 0%nat = Some [("db", provider_db)].
Proof. repeat split. Qed.

(** ** Exception handlers *)

(** The merge over the layers root to leaf, read along the owner chain. *)
Lemma flat_get_owner_chain (l : Layer) (k : ExcKey) :
  every_owner (fun l' => PyDict.wf (or_empty (exception_handlers l'))) l ->
  PyDict.get
    (reverse (flat_map (fun l' => or_empty (exception_handlers l'))
                (ownership_layers l))) k
  = innermost_exception_handler l k.
Proof.
  unfold ownership_layers.
  induction l as [d p e|d p e up IH] using Layer_owner_ind; simpl.
  - intros [Hwf _]. simpl in Hwf. rewrite app_nil_r, get_reverse_wf by done.
    by destruct (PyDict.get (or_empty e) k).
  - intros [Hwf Hup]. simpl in Hwf.
    rewrite reverse_cons, flat_map_app. simpl.
    rewrite app_nil_r, reverse_app, get_app, get_reverse_wf by done.
    destruct (PyDict.get (or_empty e) k); [done|]. by apply IH.
Qed.

(** C10.  [get_exception_handlers] leaves the handler and the stores as they
    were, so nothing is cached, and returns the merge of the layers'
    mappings as they are at the time of the call: under every key the
    handler registered by the innermost layer that has the key, and no key
    that no layer has.  Read along the owner chain, when every layer's
    mapping is a dictionary: under every key the result has the handler's
    own layer's handler, or else its owner's, and so on up to the root, and
    nothing under a key that no layer up to the root has. *)
Theorem get_exception_handlers_innermost_wins (st : State) :
  let layers := ownership_layers (layer (self st)) in
  let handlers_of := fun l : Layer => or_empty (exception_handlers l) in
  exists resolved,
    get_exception_handlers st = (Ok resolved, st) /\
    (forall outer l inner k h,
       layers = outer ++ l :: inner ->
       PyDict.wf (handlers_of l) ->
       PyDict.get (handlers_of l) k = Some h ->
       Forall (fun l' => PyDict.get (handlers_of l') k = None) inner ->
       PyDict.get resolved k = Some h) /\
    (forall k,
       Forall (fun l' => PyDict.get (handlers_of l') k = None) layers ->
       PyDict.get resolved k = None) /\
    (every_owner (fun l => PyDict.wf (handlers_of l)) (layer (self st)) ->
     forall k,
       PyDict.get resolved k
       = innermost_exception_handler (layer (self st)) k).
Proof.
  intros layers handlers_of. eexists. split; [reflexivity|].
  fold layers. rewrite (fold_update_flat handlers_of layers []). split.
  { intros outer l inner k h Hlayers Hwf Hg Hinner.
    rewrite get_update, Hlayers.
    by rewrite (flat_get_innermost handlers_of outer inner l k h Hwf Hg Hinner). }
  split.
  { intros k Hall. rewrite get_update.
    by rewrite (flat_get_None handlers_of layers k Hall). }
  intros Hwf k. rewrite get_update. unfold layers, handlers_of.
  rewrite (flat_get_owner_chain _ k Hwf).
  by destruct (innermost_exception_handler (layer (self st)) k).
Qed.

(** On the chain of an application that maps [ValueError] and status 404 and
    a handler that maps [ValueError] again, the handler's own entry wins and
    the application's other entry is kept. *)
Lemma get_exception_handlers_innermost_wins_witness :
  exists resolved,
    get_exception_handlers (initial_state (handler_on exception_chain))
    = (Ok resolved, initial_state (handler_on exception_chain)) /\
    PyDict.get resolved (ExcClass "ValueError") = Some (mkExcHandler 3) /\
    PyDict.get resolved (ExcStatus 404) = Some (mkExcHandler 2) /\
    PyDict.get resolved (ExcStatus 500) = None.
Proof.
  destruct (get_exception_handlers_innermost_wins
              (initial_state (handler_on exception_chain)))
    as (resolved & Hrun & _ & _ & Hchain).
  exists resolved. split; [exact Hrun|].
  assert (Hwf : every_owner
                  (fun l => PyDict.wf (or_empty (exception_handlers l)))
                  exception_chain).
  { simpl. unfold PyDict.wf. simpl. repeat split.
    - apply NoDup_singleton.
    - apply NoDup_cons. split; [|apply NoDup_singleton].
      rewrite list_elem_of_singleton. discriminate. }
  specialize (Hchain Hwf). rewrite !Hchain. repeat split.
Defined.

Lemma get_exception_handlers_example :
  get_exception_handlers (initial_state (handler_on exception_chain))
  = (Ok [(ExcClass "ValueError", mkExcHandler 3);
         (ExcStatus 404, mkExcHandler 2)],
     initial_state (handler_on exception_chain)).
Proof. reflexivity. Qed.

(** ** Permissions *)

Lemma fold_app_flat_map {A B : Type} (f : A -> list B) (ls : list A) :
  forall acc, fold_left (fun acc l => acc ++ f l) ls acc = acc ++ flat_map f ls.
Proof.
  induction ls as [|l ls IH]; intros acc; simpl.
  - by rewrite app_nil_r.
  - by rewrite IH, app_assoc.
Qed.

Lemma resolve_permissions_first (st : State) :
  _permissions (self st) = Void ->
  let wrapped :=
    map mkAsyncCallable
      (layer_permissions (ownership_layers (layer (self st)))) in
  resolve_permissions st =
  (Ok wrapped,
   mkState (set__permissions (Filled wrapped) (self st)) (dicts st)
     (responses st) (trace st)).
Proof.
  intros Hvoid. unfold resolve_permissions. rewrite bind_run.
  unfold get_self. rewrite Hvoid, bind_run. unfold modify_self.
  by rewrite ret_run, fold_app_flat_map.
Qed.

Lemma resolve_permissions_filled (st : State) ps :
  _permissions (self st) = Filled ps -> resolve_permissions st = (Ok ps, st).
Proof.
  intros Hslot. unfold resolve_permissions. rewrite bind_run.
  unfold get_self. by rewrite Hslot.
Qed.

(** Every permission passes: all are evaluated, in order. *)
Lemma check_all_pass connection perms : forall st : State,
  Forall (fun p => has_permission (fn_wrapped p) connection = true) perms ->
  check_all connection perms st =
  (Ok tt, traced st (evaluation_events connection (map fn_wrapped perms))).
Proof.
  unfold check_all.
  induction perms as [|p perms IH]; intros st Hall; simpl.
  - by rewrite traced_nil.
  - apply Forall_cons in Hall as [Hp Hall]. mrun.
    unfold continue_or_raise_permission_exception at 1. rewrite Hp. mrun.
    rewrite IH by done. by rewrite !traced_app.
Qed.

(** The first denial ends the loop: what comes after it is not evaluated. *)
Lemma check_all_deny connection pre p post : forall st : State,
  Forall (fun p => has_permission (fn_wrapped p) connection = true) pre ->
  has_permission (fn_wrapped p) connection = false ->
  check_all connection (pre ++ p :: post) st =
  (Raise (PermissionDenied (fn_wrapped p)),
   traced st (evaluation_events connection (map fn_wrapped (pre ++ [p])))).
Proof.
  unfold check_all.
  induction pre as [|q pre IH]; intros st Hall Hp; simpl.
  - mrun. unfold continue_or_raise_permission_exception at 1. rewrite Hp.
    mrun. by rewrite !traced_app.
  - apply Forall_cons in Hall as [Hq Hall]. mrun.
    unfold continue_or_raise_permission_exception at 1. rewrite Hq. mrun.
    rewrite IH by done. by rewrite !traced_app.
Qed.



(** ** Cookies *)

Lemma shares_key_spec (cookie : Cookie) (cs : list Cookie) :
  existsb (fun c => bool_decide (key cookie = key c)) cs = true <->
  key cookie ∈ map key cs.
Proof.
  induction cs as [|c cs IH]; simpl.
  - split; [done | intros Hin; by apply elem_of_nil in Hin].
  - rewrite orb_true_iff, IH, elem_of_cons, bool_decide_eq_true. tauto.
Qed.

Lemma filter_cookies_snoc local pre c :
  filter_cookies local (pre ++ [c]) =
  if existsb (fun c' => bool_decide (key c = key c')) (filter_cookies local pre)
  then filter_cookies local pre
  else filter_cookies local pre ++ [c].
Proof. unfold filter_cookies. by rewrite fold_left_app. Qed.

(** The keys kept are those of the local cookies and of the other cookies
    visited so far. *)
Lemma filter_cookies_keys local pre x :
  x ∈ map key (filter_cookies local pre) <->
  x ∈ map key local \/ x ∈ map key pre.
Proof.
  revert x. induction pre as [|c pre IH] using rev_ind; intros x.
  - simpl. split; [auto | intros [?|Hin]; [done | by apply elem_of_nil in Hin]].
  - rewrite filter_cookies_snoc, map_app, elem_of_app. simpl.
    rewrite list_elem_of_singleton.
    destruct (existsb _ _) eqn:Hex.
    + rewrite IH. apply shares_key_spec, IH in Hex.
      split; [tauto|]. intros [?|[?|Heq]]; [tauto | tauto | by subst].
    + rewrite map_app, elem_of_app, IH. simpl. rewrite list_elem_of_singleton.
      tauto.
Qed.

Lemma filter_cookies_extends local other :
  exists kept, filter_cookies local other = local ++ kept /\ sublist kept other.
Proof.
  induction other as [|c other IH] using rev_ind.
  - exists []. split; [by rewrite app_nil_r | done].
  - destruct IH as (kept & Heq & Hsub). rewrite filter_cookies_snoc.
    destruct (existsb _ _).
    + exists kept. split; [done|]. by apply sublist_inserts_r.
    + exists (kept ++ [c]). split; [by rewrite Heq, app_assoc|].
      by apply sublist_app.
Qed.

(** C4, as the code has it.  [get_cookies] keeps every local cookie, in
    order, followed by other cookies in their order; going through the other
    cookies one by one, a cookie is appended exactly when neither a local
    cookie nor an other cookie before it has its key.  Each kept cookie is
    serialised to a mapping that holds [key], [path] and [samesite], holds
    each of the optional fields exactly when it is set, never holds a [None]
    value and never holds [description].  With local [a=1] and other
    [a=2; b=3] the result is the serialisation of [a=1] and of [b=3]. *)
Theorem get_cookies_local_then_first_by_key (local_cookies : list Cookie) :
  get_cookies local_cookies [] = map cookie_dict local_cookies /\
  (forall other_cookies,
     exists kept,
       get_cookies local_cookies other_cookies
       = map cookie_dict (local_cookies ++ kept) /\
       sublist kept other_cookies) /\
  (forall pre c,
     (key c ∉ map key local_cookies -> key c ∉ map key pre ->
      get_cookies local_cookies (pre ++ [c])
      = get_cookies local_cookies pre ++ [cookie_dict c]) /\
     (key c ∈ map key local_cookies \/ key c ∈ map key pre ->
      get_cookies local_cookies (pre ++ [c])
      = get_cookies local_cookies pre)) /\
  (forall c,
     PyDict.get (cookie_dict c) "key" = Some (PStr (key c)) /\
     PyDict.get (cookie_dict c) "value" = PStr <$> value c /\
     PyDict.get (cookie_dict c) "max_age" = PInt <$> max_age c /\
     PyDict.get (cookie_dict c) "expires" = PInt <$> expires c /\
     PyDict.get (cookie_dict c) "path" = Some (PStr (path c)) /\
     PyDict.get (cookie_dict c) "domain" = PStr <$> domain c /\
     PyDict.get (cookie_dict c) "secure" = PBool <$> secure c /\
     PyDict.get (cookie_dict c) "httponly" = PBool <$> httponly c /\
     PyDict.get (cookie_dict c) "samesite" = Some (PStr (samesite c)) /\
     PyDict.get (cookie_dict c) "description" = None /\
     (forall name, PyDict.get (cookie_dict c) name ≠ Some PNone)) /\
  get_cookies [Cookie_kv "a" "1"] [Cookie_kv "a" "2"; Cookie_kv "b" "3"]
  = [ [("key", PStr "a"); ("value", PStr "1"); ("path", PStr "/");
       ("samesite", PStr "lax")];
      [("key", PStr "b"); ("value", PStr "3"); ("path", PStr "/");
       ("samesite", PStr "lax")] ].
Proof.
  split; [done|]. split; [|split; [|split; [|done]]].
  - intros other. destruct (filter_cookies_extends local_cookies other)
      as (kept & Heq & Hsub).
    exists kept. unfold get_cookies. by rewrite Heq.
  - intros pre c. unfold get_cookies. rewrite filter_cookies_snoc.
    destruct (existsb _ _) eqn:Hex.
    + apply shares_key_spec, filter_cookies_keys in Hex. split; [|done].
      intros Hl Hp. destruct Hex; done.
    + split; [intros _ _; by rewrite map_app|].
      intros Hin. apply filter_cookies_keys, shares_key_spec in Hin.
      congruence.
  - intros c. destruct c as [k v ma ex pa dom sec ho ss de].
    unfold cookie_dict. simpl.
    destruct v, ma, ex, dom, sec, ho; simpl;
      repeat split; try done;
      intros name; repeat (case_decide; [done|]); done.
Qed.

(** C4 as stated fails: with no local cookie at all, the second of two other
    cookies that share a key is not appended. *)
Lemma get_cookies_repeated_other_key_dropped :
  ~ (forall local_cookies other_cookies,
       get_cookies local_cookies other_cookies
       = map cookie_dict
           (local_cookies
            ++ filter (fun c => key c ∉ map key local_cookies) other_cookies)).
Proof.
  intros Hclaim.
  specialize (Hclaim [] [Cookie_kv "b" "1"; Cookie_kv "b" "2"]).
  vm_compute in Hclaim. discriminate.
Qed.

(** ** The pre-built JSON response strategy *)

(** C8.  Called on a response object of the store, the JSON response handler
    returns that same object.  The object's status code becomes the
    configured one when the configured one is truthy (set and not 0) and
    stays as it was otherwise; its class, media type, headers, cookies,
    body, background and cookie calls stay as they were; and so do the
    handler, the dictionaries, every other response object and the trace. *)
Theorem json_response_only_status_overridden (status_code : option Z)
    (st : State) (r : nat) (o : ResponseObj) :
  responses st !! r = Some o ->
  exists o',
    response_content (create_json_response_handler status_code) (VResponse r) st
    = (Ok (VResponse r),
       mkState (self st) (dicts st) (<[r := o']> (responses st)) (trace st)) /\
    (forall n, status_code = Some n -> n ≠ 0 -> r_status_code o' = Some n) /\
    (truthy_int status_code = false -> o' = o) /\
    r_class o' = r_class o /\
    r_media_type o' = r_media_type o /\
    r_headers o' = r_headers o /\
    r_cookies o' = r_cookies o /\
    r_body o' = r_body o /\
    r_background o' = r_background o /\
    r_set_cookie o' = r_set_cookie o /\
    (forall r', r' ≠ r -> <[r := o']> (responses st) !! r' = responses st !! r').
Proof.
  intros Hr. simpl. unfold response_json_content.
  destruct (truthy_int status_code) eqn:Htruthy.
  - exists (with_status_code status_code o). split.
    + mrun. unfold as_response. mrun. rewrite (read_resp_run r o st Hr).
      by mrun.
    + split.
      { intros n -> Hn. done. }
      split; [done|]. repeat (split; [done|]).
      intros r' Hne. by apply list_lookup_insert_ne.
  - exists o. split.
    + mrun. destruct st; simpl in *. by rewrite list_insert_id.
    + split.
      { intros n -> Hn. simpl in Htruthy.
        apply negb_false_iff, Z.eqb_eq in Htruthy. done. }
      repeat (split; [done|]).
      intros r' Hne. by apply list_lookup_insert_ne.
Qed.

Lemma json_response_only_status_overridden_witness :
  exists o',
    response_content (create_json_response_handler (Some 201)) (VResponse 0%nat)
      (state_with json_response_obj)
    = (Ok (VResponse 0%nat),
       mkState (self (state_with json_response_obj)) [] [o'] []) /\
    r_status_code o' = Some 201 /\
    r_headers o' = [("content-type", PStr "application/json")] /\
    r_body o' = "{}".
Proof.
  destruct (json_response_only_status_overridden (Some 201)
              (state_with json_response_obj) 0%nat json_response_obj eq_refl)
    as (o' & Hrun & Hset & _ & _ & _ & Hheaders & _ & Hbody & _).
  exists o'. split; [exact Hrun|]. split; [|split].
  - apply (Hset 201); [reflexivity | discriminate].
  - exact Hheaders.
  - exact Hbody.
Defined.

(** ** The transport-native response strategy *)


Lemma get_headers_lookup headers k :
  PyDict.wf headers ->
  PyDict.get (get_headers headers) k = header_value <$> PyDict.get headers k.
Proof.
  intros Hwf. unfold get_headers.
  rewrite get_update_wf by by apply wf_map_values.
  rewrite get_map_values. by destruct (PyDict.get headers k).
Qed.

(** Later sources override earlier ones, key by key. *)
Lemma wf_get_headers headers : PyDict.wf (get_headers headers).
Proof. unfold get_headers. apply wf_update, NoDup_nil_2. Qed.

Lemma merge3_lookup a b c k :
  PyDict.wf a -> PyDict.wf b -> PyDict.wf c ->
  PyDict.get (merge3 a b c) k =
  match PyDict.get c k with
  | Some v => Some v
  | None => match PyDict.get b k with
            | Some v => Some v
            | None => PyDict.get a k
            end
  end.
Proof.
  intros Ha Hb Hc. unfold merge3, merge2.
  rewrite !get_update_wf by done. simpl.
  by destruct (PyDict.get c k), (PyDict.get b k), (PyDict.get a k).
Qed.

Lemma wf_merge3 a b c : PyDict.wf (merge3 a b c).
Proof. unfold merge3, merge2. do 3 apply wf_update. apply NoDup_nil_2. Qed.

Lemma filter_cookies_no_other local : filter_cookies local [] = local.
Proof. reflexivity. Qed.

(** Cookies with pairwise distinct keys survive the merge into an empty
    local list unchanged. *)
Lemma filter_cookies_no_local cookies :
  NoDup (map key cookies) -> filter_cookies [] cookies = cookies.
Proof.
  induction cookies as [|c cookies IH] using rev_ind; [done|].
  rewrite map_app. simpl. intros Hnd.
  apply NoDup_app in Hnd as (Hnd & Hdisj & _).
  rewrite filter_cookies_snoc, IH by done.
  destruct (existsb _ _) eqn:Hex; [|done].
  apply shares_key_spec in Hex. exfalso.
  apply (Hdisj _ Hex), list_elem_of_here.
Qed.

(** The keys after an update are the keys before and the keys updated. *)
Lemma keys_update {K V : Type} `{EqDecision K} (other : list (K * V)) :
  forall (d : list (K * V)) (x : K),
    x ∈ PyDict.keys (PyDict.update d other) <->
    x ∈ PyDict.keys d \/ x ∈ PyDict.keys other.
Proof.
  induction other as [|[k v] other IH]; intros d x.
  - simpl. split; [auto | intros [?|Hin]; [done | by apply elem_of_nil in Hin]].
  - unfold PyDict.update in *. simpl. rewrite IH, keys_set, elem_of_cons.
    tauto.
Qed.

(** ** Where the entries of an updated dictionary stand *)
Section dict_order_facts.
Context {K V : Type} `{EqDecision K}.

Lemma set_new (d : list (K * V)) k v :
  k ∉ PyDict.keys d -> PyDict.set k v d = d ++ [(k, v)].
Proof.
  induction d as [|[k' v'] d IH]; simpl; [done|].
  rewrite not_elem_of_cons. intros [Hne Hnotin].
  destruct (decide (k = k')); [done|]. by rewrite IH.
Qed.

Lemma keys_set_old (d : list (K * V)) k v :
  k ∈ PyDict.keys d -> PyDict.keys (PyDict.set k v d) = PyDict.keys d.
Proof.
  induction d as [|[k' v'] d IH]; simpl.
  - intros Hin. by apply elem_of_nil in Hin.
  - destruct (decide (k = k')) as [->|Hne]; simpl; [done|].
    rewrite elem_of_cons. intros [?|Hin]; [done|]. by rewrite IH.
Qed.

(** Updating with the items of a dictionary that shares no key adds them at
    the end. *)
Lemma update_new (other : list (K * V)) : forall d,
  NoDup (PyDict.keys (d ++ other)) -> PyDict.update d other = d ++ other.
Proof.
  unfold PyDict.update.
  induction other as [|[k v] other IH]; intros d Hnd; simpl.
  - by rewrite app_nil_r.
  - assert (Hk : k ∉ PyDict.keys d).
    { unfold PyDict.keys in *. rewrite map_app in Hnd.
      apply NoDup_app in Hnd as (_ & Hdisj & _). intros Hin.
      apply (Hdisj _ Hin). simpl. apply list_elem_of_here. }
    rewrite set_new by done. rewrite IH; rewrite <- app_assoc; done.
Qed.

(** The keys a dictionary had keep their places when it is updated, and the
    new keys follow. *)
Lemma update_split (other : list (K * V)) : forall d,
  exists old new,
    PyDict.update d other = old ++ new /\
    PyDict.keys old = PyDict.keys d /\
    (forall x, x ∈ PyDict.keys new ->
               (x ∉ PyDict.keys d) /\ (x ∈ PyDict.keys other)).
Proof.
  unfold PyDict.update.
  induction other as [|[k v] other IH]; intros d; simpl.
  - exists d, []. rewrite app_nil_r. split; [done|]. split; [done|].
    intros x Hin. by apply elem_of_nil in Hin.
  - destruct (IH (PyDict.set k v d)) as (old & new & Heq & Hkeys & Hnew).
    destruct (decide (k ∈ PyDict.keys d)) as [Hin|Hnotin].
    + exists old, new. split; [done|].
      rewrite keys_set_old in Hkeys, Hnew by done.
      split; [done|]. intros x Hx. destruct (Hnew x Hx) as [? ?].
      split; [done|]. by apply list_elem_of_further.
    + rewrite set_new in Hkeys, Hnew by done.
      unfold PyDict.keys in Hkeys. rewrite map_app in Hkeys.
      apply fmap_app_inv in Hkeys as (old1 & old2 & Hold1 & Hold2 & ->).
      exists old1, (old2 ++ new). split; [by rewrite Heq, <- app_assoc|].
      split; [done|]. intros x Hx.
      unfold PyDict.keys in Hx. rewrite map_app, elem_of_app in Hx.
      destruct Hx as [Hx|Hx].
      * change (x ∈ fst <$> old2) in Hx. rewrite <- Hold2 in Hx. simpl in Hx.
        apply list_elem_of_singleton in Hx as ->.
        split; [done | apply list_elem_of_here].
      * destruct (Hnew x Hx) as [Hnd Hother]. split.
        -- intros Hd. apply Hnd. unfold PyDict.keys.
           rewrite map_app, elem_of_app. by left.
        -- by apply list_elem_of_further.
Qed.
End dict_order_facts.

(** ** The header object *)

Lemma lower_char_idemp a : lower_char (lower_char a) = lower_char a.
Proof. by destruct a as [[] [] [] [] [] [] [] []]. Qed.

Lemma lower_idemp s : lower (lower s) = lower s.
Proof. induction s as [|a s IH]; simpl; [done|]. by rewrite lower_char_idemp, IH. Qed.

Lemma headers_getitem_lowered {V : Type} (raw : list (string * V)) key :
  headers_getitem raw key = PyDict.get (lowered raw) (lower key).
Proof.
  induction raw as [|[k v] raw IH]; simpl; [done|].
  destruct (decide (lower k = lower key)), (decide (lower key = lower k));
    congruence.
Qed.

Lemma headers_getitem_app {V : Type} (l1 l2 : list (string * V)) key :
  headers_getitem (l1 ++ l2) key =
  match headers_getitem l1 key with
  | Some v => Some v
  | None => headers_getitem l2 key
  end.
Proof.
  induction l1 as [|[k v] l1 IH]; simpl; [done|].
  by destruct (decide (lower k = lower key)).
Qed.

Lemma headers_getitem_map_values {V W : Type} (g : V -> W)
    (l : list (string * V)) key :
  headers_getitem (map (fun kv => (kv.1, g kv.2)) l) key
  = g <$> headers_getitem l key.
Proof.
  induction l as [|[k v] l IH]; simpl; [done|].
  by destruct (decide (lower k = lower key)).
Qed.

Lemma lowered_reverse {V : Type} (l : list (string * V)) :
  lowered (reverse l) = reverse (lowered l).
Proof. unfold lowered. apply (fmap_reverse _ l). Qed.

Lemma keys_lowered {V : Type} (l : list (string * V)) :
  PyDict.keys (lowered l) = map lower (PyDict.keys l).
Proof. unfold lowered, PyDict.keys. by rewrite !map_map. Qed.

(** A list whose names are lower-case already is stored as it is. *)
Lemma lowered_id {V : Type} (l : list (string * V)) :
  Forall (fun kv => lower kv.1 = kv.1) l -> lowered l = l.
Proof.
  induction 1 as [|[k v] l Hk _ IH]; simpl; [done|].
  simpl in Hk. by rewrite Hk, IH.
Qed.

(** When no two lines have the same name, the last line of a name is the
    first. *)
Lemma headers_getitem_reverse {V : Type} (l : list (string * V)) key :
  NoDup (map lower (PyDict.keys l)) ->
  headers_getitem (reverse l) key = headers_getitem l key.
Proof.
  intros Hnd. rewrite !headers_getitem_lowered, lowered_reverse.
  apply get_reverse_wf. unfold PyDict.wf. by rewrite keys_lowered.
Qed.

Lemma headers_getitem_elem {V : Type} (l : list (string * V)) k v key :
  (k, v) ∈ l -> lower k = lower key -> is_Some (headers_getitem l key).
Proof.
  intros Hin Hk. rewrite headers_getitem_lowered.
  destruct (PyDict.get (lowered l) (lower key)) eqn:Hg; [by eexists|].
  apply get_None in Hg. exfalso. apply Hg. rewrite keys_lowered.
  rewrite <- Hk. apply (list_elem_of_fmap_2 lower).
  by apply (list_elem_of_fmap_2 fst) in Hin.
Qed.

(** Reading after one assignment. *)
Lemma headers_getitem_filter (raw : list (string * PyVal)) key name :
  lower name <> lower key ->
  headers_getitem (filter (fun kv => lower kv.1 <> lower key) raw) name
  = headers_getitem raw name.
Proof.
  intros Hne. induction raw as [|[k v] raw IH]; [done|].
  rewrite filter_cons. simpl.
  destruct (decide (lower k <> lower key)) as [Hk|Hk]; simpl.
  - by rewrite IH.
  - destruct (decide (lower k = lower name)) as [Hkn|_]; [|done].
    exfalso. apply Hk. congruence.
Qed.

Lemma headers_getitem_setitem raw key value name :
  headers_getitem (headers_setitem key value raw) name =
  if decide (lower name = lower key) then Some value
  else headers_getitem raw name.
Proof.
  induction raw as [|[k v] raw IH]; simpl.
  - rewrite lower_idemp.
    destruct (decide (lower key = lower name)),
      (decide (lower name = lower key)); congruence.
  - destruct (decide (lower k = lower key)) as [Hk|Hk]; simpl.
    + rewrite lower_idemp.
      destruct (decide (lower key = lower name)),
        (decide (lower name = lower key)) as [Hn|Hn]; try congruence.
      rewrite headers_getitem_filter by done.
      destruct (decide (lower k = lower name)); congruence.
    + destruct (decide (lower k = lower name)) as [Hkn|Hkn].
      * destruct (decide (lower name = lower key)); congruence.
      * apply IH.
Qed.

(** Reading after the loop: the last assignment to a name decides. *)
Lemma headers_getitem_assign_all hs : forall raw name,
  headers_getitem (headers_assign_all hs raw) name =
  match headers_getitem (reverse hs) name with
  | Some v => Some v
  | None => headers_getitem raw name
  end.
Proof.
  unfold headers_assign_all.
  induction hs as [|[k v] hs IH]; intros raw name; simpl; [done|].
  rewrite IH, reverse_cons, headers_getitem_app.
  destruct (headers_getitem (reverse hs) name); [done|].
  rewrite headers_getitem_setitem. simpl.
  destruct (decide (lower k = lower name)),
    (decide (lower name = lower k)); congruence.
Qed.

(** The lines of one name after one assignment, and after the loop. *)
Lemma header_lines_filter name key raw :
  header_lines name (filter (fun kv => lower kv.1 <> lower key) raw)
  = if decide (lower name = lower key) then [] else header_lines name raw.
Proof.
  unfold header_lines. induction raw as [|[k v] raw IH]; simpl.
  - by destruct (decide (lower name = lower key)).
  - rewrite !filter_cons. simpl.
    destruct (decide (lower k <> lower key)) as [Hk|Hk]; simpl.
    + rewrite filter_cons. simpl. rewrite IH.
      destruct (decide (lower k = lower name)) as [Hkn|Hkn];
        destruct (decide (lower name = lower key)); congruence.
    + rewrite IH.
      destruct (decide (lower k = lower name)) as [Hkn|Hkn];
        destruct (decide (lower name = lower key)) as [Hn|Hn]; try done.
      exfalso. apply Hn. apply dec_stable in Hk. congruence.
Qed.

Lemma header_lines_setitem name key value raw :
  header_lines name (headers_setitem key value raw) =
  if decide (lower name = lower key) then [(lower key, value)]
  else header_lines name raw.
Proof.
  unfold header_lines at 1.
  induction raw as [|[k v] raw IH]; simpl.
  - rewrite filter_cons, filter_nil. simpl. rewrite lower_idemp.
    destruct (decide (lower key = lower name)),
      (decide (lower name = lower key)); done || congruence.
  - destruct (decide (lower k = lower key)) as [Hk|Hk].
    + rewrite filter_cons. simpl. rewrite lower_idemp.
      fold (header_lines name
              (filter (fun kv => lower kv.1 <> lower key) raw)).
      rewrite header_lines_filter.
      destruct (decide (lower key = lower name)),
        (decide (lower name = lower key)) as [Hn|Hn]; try congruence.
      unfold header_lines. rewrite filter_cons. simpl.
      destruct (decide (lower k = lower name)); congruence.
    + rewrite filter_cons. simpl. rewrite IH.
      unfold header_lines. rewrite filter_cons. simpl.
      destruct (decide (lower k = lower name)) as [Hkn|Hkn];
        destruct (decide (lower name = lower key)); congruence.
Qed.

Lemma header_lines_assign_all hs : forall raw name,
  header_lines name (headers_assign_all hs raw) =
  match headers_getitem (reverse hs) name with
  | Some v => [(lower name, v)]
  | None => header_lines name raw
  end.
Proof.
  unfold headers_assign_all.
  induction hs as [|[k v] hs IH]; intros raw name; simpl; [done|].
  rewrite IH, reverse_cons, headers_getitem_app.
  destruct (headers_getitem (reverse hs) name); [done|].
  rewrite header_lines_setitem. simpl.
  destruct (decide (lower k = lower name)),
    (decide (lower name = lower k)); congruence.
Qed.

(** Every line after the loop was there before or was assigned. *)
Lemma elem_of_headers_setitem kv key value raw :
  kv ∈ headers_setitem key value raw -> kv = (lower key, value) \/ kv ∈ raw.
Proof.
  induction raw as [|[k v] raw IH]; simpl.
  - rewrite list_elem_of_singleton. auto.
  - destruct (decide (lower k = lower key)).
    + rewrite !elem_of_cons, list_elem_of_filter. tauto.
    + rewrite !elem_of_cons. intros [?|Hin]; [tauto|].
      apply IH in Hin. tauto.
Qed.

Lemma elem_of_headers_assign_all hs : forall raw kv,
  kv ∈ headers_assign_all hs raw ->
  kv ∈ raw \/ exists k v, (k, v) ∈ hs /\ kv = (lower k, v).
Proof.
  unfold headers_assign_all.
  induction hs as [|[k v] hs IH]; intros raw kv; simpl; [auto|].
  intros Hin. apply IH in Hin as [Hin|(k' & v' & Hin & ->)].
  - apply elem_of_headers_setitem in Hin as [->|Hin]; [|auto].
    right. exists k, v. split; [apply list_elem_of_here | done].
  - right. exists k', v'. split; [by apply list_elem_of_further | done].
Qed.

(** When every name has one line at most, no two lines share a name. *)
Lemma header_lines_NoDup (l : list (string * PyVal)) :
  (forall name, (length (header_lines name l) <= 1)%nat) ->
  NoDup (map lower (PyDict.keys l)).
Proof.
  unfold header_lines.
  induction l as [|[k v] l IH]; simpl; [intros _; apply NoDup_nil_2|].
  intros Hone. apply NoDup_cons. split.
  - intros Hin. apply list_elem_of_fmap in Hin as (k' & Hk & Hin).
    apply list_elem_of_fmap in Hin as ([k'' v'] & -> & Hin). simpl in Hk.
    specialize (Hone k). rewrite filter_cons in Hone. simpl in Hone.
    rewrite decide_True in Hone by done. simpl in Hone.
    assert (Hmem : (k'', v') ∈ filter (fun kv => lower kv.1 = lower k) l).
    { apply list_elem_of_filter. split; [by simpl | done]. }
    destruct (filter (fun kv => lower kv.1 = lower k) l);
      [by apply elem_of_nil in Hmem | simpl in Hone; lia].
  - apply IH. intros name. specialize (Hone name).
    rewrite filter_cons in Hone. simpl in Hone.
    destruct (decide (lower k = lower name)); simpl in Hone; lia.
Qed.

(** After the loop over a mapping that names every line, every name is
    lower-case and has one line. *)
Lemma headers_assign_all_settled hs raw :
  (forall kv, kv ∈ raw -> lower kv.1 ∈ PyDict.keys hs) ->
  Forall (fun kv => lower kv.1 = kv.1) (headers_assign_all hs raw) /\
  NoDup (PyDict.keys (headers_assign_all hs raw)).
Proof.
  intros Hcover.
  assert (Hnamed : forall kv, kv ∈ headers_assign_all hs raw ->
            is_Some (headers_getitem (reverse hs) kv.1)).
  { intros kv Hin.
    apply elem_of_headers_assign_all in Hin as [Hin|(k & v & Hin & ->)].
    - apply Hcover in Hin. apply list_elem_of_fmap in Hin as ([k v] & Hk & Hin).
      simpl in Hk. apply (headers_getitem_elem _ k v).
      + by apply elem_of_reverse.
      + by rewrite <- Hk, lower_idemp.
    - apply (headers_getitem_elem _ k v).
      + by apply elem_of_reverse.
      + simpl. by rewrite lower_idemp. }
  assert (Hlower : Forall (fun kv => lower kv.1 = kv.1)
                     (headers_assign_all hs raw)).
  { apply Forall_forall. intros kv Hin.
    destruct (Hnamed kv Hin) as [v Hv].
    assert (Hmem : kv ∈ header_lines kv.1 (headers_assign_all hs raw)).
    { apply list_elem_of_filter. by split. }
    rewrite header_lines_assign_all, Hv in Hmem.
    apply list_elem_of_singleton in Hmem. destruct kv as [k0 v0].
    simpl in *. by injection Hmem as Hk0 _. }
  split; [exact Hlower|].
  assert (Hnd : NoDup (map lower (PyDict.keys (headers_assign_all hs raw)))).
  { apply header_lines_NoDup. intros name.
    rewrite header_lines_assign_all.
    destruct (headers_getitem (reverse hs) name) eqn:Hg; [simpl; lia|].
    destruct (header_lines name raw) as [|kv rest] eqn:Hlines; [simpl; lia|].
    exfalso.
    assert (Hin : kv ∈ header_lines name raw).
    { rewrite Hlines. apply list_elem_of_here. }
    apply list_elem_of_filter in Hin as [Hname Hin].
    apply Hcover in Hin. apply list_elem_of_fmap in Hin as ([k v] & Hk & Hin).
    simpl in Hk.
    destruct (headers_getitem_elem (reverse hs) k v name) as [? Hsome].
    - by apply elem_of_reverse.
    - by rewrite <- Hk, lower_idemp.
    - congruence. }
  by apply NoDup_fmap_1 in Hnd.
Qed.

(** ** The merged header mapping *)

Lemma headers_getitem_ext {V : Type} (l : list (string * V)) k k' :
  lower k = lower k' -> headers_getitem l k = headers_getitem l k'.
Proof. intros Hk. by rewrite !headers_getitem_lowered, Hk. Qed.

(** The header object as a mapping gives, under a name, the value of the
    first line of that name. *)
Lemma get_headers_items raw name :
  PyDict.get (headers_items raw) (lower name) = headers_getitem raw name.
Proof.
  unfold headers_items.
  assert (Haux : forall (g : string * PyVal -> PyVal) w l,
            (forall kv, kv ∈ l -> lower kv.1 = lower name -> g kv = w) ->
            PyDict.get (map (fun kv => (lower kv.1, g kv)) l) (lower name)
            = (fun _ => w) <$> headers_getitem l name).
  { intros g w l. induction l as [|[k v] l IH]; intros Hg; simpl; [done|].
    destruct (decide (lower name = lower k)) as [Hk|Hk].
    - rewrite decide_True by done. simpl. f_equal.
      apply (Hg (k, v)); [apply list_elem_of_here | done].
    - rewrite decide_False by congruence. apply IH.
      intros kv Hin. apply Hg. by apply list_elem_of_further. }
  destruct (headers_getitem raw name) as [v0|] eqn:Hg.
  - rewrite (Haux _ v0); [by rewrite Hg|].
    intros kv _ Hk. by rewrite (headers_getitem_ext raw kv.1 name Hk), Hg.
  - rewrite (Haux _ PNone); [by rewrite Hg|].
    intros [k v] Hin Hk. exfalso.
    destruct (headers_getitem_elem raw k v name Hin Hk) as [? ?]. congruence.
Qed.

Lemma keys_headers_items raw x :
  x ∈ PyDict.keys (headers_items raw) -> lower x = x.
Proof.
  unfold headers_items, PyDict.keys. rewrite map_map. simpl.
  intros Hin. apply list_elem_of_fmap in Hin as (kv & -> & _).
  apply lower_idemp.
Qed.

Lemma get_reverse_headers_items raw x :
  PyDict.get (reverse (headers_items raw)) x
  = PyDict.get (headers_items raw) x.
Proof.
  destruct (PyDict.get (reverse (headers_items raw)) x) as [v|] eqn:Hg.
  - apply get_Some_elem_of in Hg. rewrite elem_of_reverse in Hg.
    unfold headers_items in Hg.
    apply list_elem_of_fmap in Hg as ([k v0] & [= -> ->] & Hin). simpl.
    fold (headers_items raw). rewrite get_headers_items.
    destruct (headers_getitem_elem raw k v0 k Hin eq_refl) as [v' Hv'].
    by rewrite Hv'.
  - symmetry. apply get_None. apply get_None in Hg.
    unfold PyDict.keys in *. change (x ∉ fst <$> reverse (headers_items raw)) in Hg.
    by rewrite fmap_reverse, elem_of_reverse in Hg.
Qed.

(** [_headers]: under every key the allow header decides, then the
    response's own headers, then the handler's. *)
Lemma merged_headers_lookup headers raw allow x :
  PyDict.wf headers -> PyDict.wf allow ->
  PyDict.get (merge3 (get_headers headers) (headers_items raw) allow) x =
  match PyDict.get allow x with
  | Some v => Some v
  | None =>
      match PyDict.get (headers_items raw) x with
      | Some v => Some v
      | None => header_value <$> PyDict.get headers x
      end
  end.
Proof.
  intros Hh Ha. unfold merge3, merge2.
  rewrite get_update_wf by done.
  destruct (PyDict.get allow x); [done|].
  rewrite get_update, get_reverse_headers_items.
  destruct (PyDict.get (headers_items raw) x); [done|].
  rewrite get_update_wf by apply wf_get_headers. simpl.
  rewrite get_headers_lookup by done.
  by destruct (PyDict.get headers x).
Qed.

(** The last entry of [_headers] under a name, names compared as the header
    object compares them. *)
Lemma merged_headers_last headers raw allow name :
  NoDup (map lower (PyDict.keys headers)) ->
  PyDict.wf allow ->
  Forall (fun kv => lower kv.1 = kv.1) allow ->
  match headers_getitem
          (reverse (merge3 (get_headers headers) (headers_items raw) allow))
          name with
  | Some v => Some v
  | None => headers_getitem raw name
  end =
  match headers_getitem allow name with
  | Some v => Some v
  | None =>
      match headers_getitem raw name with
      | Some v => Some v
      | None => header_value <$> headers_getitem headers name
      end
  end.
Proof.
  intros Hnd Hwfa Hlow.
  assert (Hwfh : PyDict.wf headers) by (by apply NoDup_fmap_1 in Hnd).
  pose proof (fun x => merged_headers_lookup headers raw allow x Hwfh Hwfa)
    as Hlookup.
  set (a0 := map (fun kv => (kv.1, header_value kv.2)) headers).
  assert (Hwf0 : PyDict.wf a0) by (by apply wf_map_values).
  assert (Hkeys0 : PyDict.keys a0 = PyDict.keys headers).
  { unfold a0, PyDict.keys. by rewrite map_map. }
  assert (Hnil : PyDict.update [] a0 = a0) by (by apply (update_new a0 [])).
  set (b := headers_items raw) in *.
  set (merged := merge3 (get_headers headers) b allow) in *.
  assert (Hmerged : merged = PyDict.update a0 (b ++ allow)).
  { unfold merged, merge3, merge2, get_headers. fold a0.
    by rewrite !Hnil, update_app. }
  destruct (update_split (b ++ allow) a0) as (old & new & Hsplit & Hold & Hnew).
  rewrite <- Hmerged in Hsplit.
  assert (Hwfm : PyDict.wf merged) by (rewrite Hmerged; by apply wf_update).
  assert (Hnewlow : forall x, x ∈ PyDict.keys new -> lower x = x).
  { intros x Hx. destruct (Hnew x Hx) as [_ Hin].
    unfold PyDict.keys in Hin. rewrite map_app, elem_of_app in Hin.
    destruct Hin as [Hin|Hin]; [by apply (keys_headers_items raw)|].
    apply list_elem_of_fmap in Hin as (kv & -> & Hin).
    rewrite Forall_forall in Hlow. by apply Hlow. }
  assert (Hwfsplit : NoDup (PyDict.keys old ++ PyDict.keys new)).
  { unfold PyDict.wf, PyDict.keys in *. by rewrite Hsplit, map_app in Hwfm. }
  apply NoDup_app in Hwfsplit as (Hwfold & Hdisj & Hwfnew).
  assert (Hlownew : Forall (fun kv => lower kv.1 = kv.1) new).
  { apply Forall_forall. intros kv Hin. apply Hnewlow.
    by apply (list_elem_of_fmap_2 fst) in Hin. }
  assert (Hndold : NoDup (map lower (PyDict.keys old))) by (by rewrite Hold, Hkeys0).
  assert (Hndnew : NoDup (map lower (PyDict.keys new))).
  { rewrite <- keys_lowered, lowered_id by done. exact Hwfnew. }
  assert (Hnd0 : PyDict.wf (lowered a0)).
  { unfold PyDict.wf. by rewrite keys_lowered, Hkeys0. }
  assert (Hndlo : PyDict.wf (lowered old)).
  { unfold PyDict.wf. by rewrite keys_lowered. }
  rewrite Hsplit, reverse_app, headers_getitem_app.
  rewrite (headers_getitem_reverse new) by done.
  rewrite (headers_getitem_reverse old) by done.
  rewrite (headers_getitem_lowered new), (lowered_id new) by done.
  rewrite (headers_getitem_lowered old).
  rewrite (headers_getitem_lowered allow), (lowered_id allow) by done.
  rewrite <- (get_headers_items raw name). fold b.
  rewrite <- (headers_getitem_map_values header_value headers). fold a0.
  rewrite (headers_getitem_lowered a0).
  set (m := lower name).
  assert (Hm : lower m = m) by apply lower_idemp.
  assert (Hin_old : forall v, (m, v) ∈ old ->
            PyDict.get new m = None /\ PyDict.get (lowered old) m = Some v).
  { intros v Hin. split.
    - apply get_None. intros Hx. apply (Hdisj m); [|done].
      by apply (list_elem_of_fmap_2 fst) in Hin.
    - apply elem_of_get_Some; [done|]. unfold lowered.
      apply list_elem_of_fmap. exists (m, v). simpl. by rewrite Hm. }
  assert (Hfound : forall v, PyDict.get merged m = Some v ->
            match PyDict.get new m with
            | Some v' => Some v'
            | None => PyDict.get (lowered old) m
            end = Some v).
  { intros v Hg. apply get_Some_elem_of in Hg. rewrite Hsplit in Hg.
    apply elem_of_app in Hg as [Hg|Hg].
    - destruct (Hin_old v Hg) as [-> ->]. done.
    - by rewrite (elem_of_get_Some new m v Hwfnew Hg). }
  specialize (Hlookup m) as Hlm.
  destruct (PyDict.get allow m) as [va|] eqn:Hga.
  { by rewrite (Hfound va Hlm). }
  destruct (PyDict.get b m) as [vb|] eqn:Hgb.
  { by rewrite (Hfound vb Hlm). }
  assert (Hnone : PyDict.get new m = None).
  { apply get_None. intros Hx. destruct (Hnew m Hx) as [_ Hin].
    unfold PyDict.keys in Hin. rewrite map_app, elem_of_app in Hin.
    apply get_None in Hga, Hgb. tauto. }
  rewrite Hnone.
  assert (Hsame : forall k v, lower k = m -> (k, v) ∈ old -> (k, v) ∈ a0).
  { intros k v Hk Hin.
    assert (Hg : PyDict.get merged k = Some v).
    { apply elem_of_get_Some; [done|]. rewrite Hsplit, elem_of_app. by left. }
    rewrite Hlookup in Hg.
    destruct (PyDict.get allow k) as [?|] eqn:Hak.
    { exfalso. assert (Hkin : k ∈ PyDict.keys allow).
      { destruct (decide (k ∈ PyDict.keys allow)) as [?|Hn]; [done|].
        apply get_None in Hn. congruence. }
      apply list_elem_of_fmap in Hkin as (kv & -> & Hkin).
      rewrite Forall_forall in Hlow. rewrite (Hlow kv Hkin) in Hk.
      congruence. }
    destruct (PyDict.get b k) as [?|] eqn:Hbk.
    { exfalso. assert (Hkin : k ∈ PyDict.keys b).
      { destruct (decide (k ∈ PyDict.keys b)) as [?|Hn]; [done|].
        apply get_None in Hn. congruence. }
      rewrite (keys_headers_items raw k Hkin) in Hk. congruence. }
    apply get_Some_elem_of. unfold a0. rewrite get_map_values. exact Hg. }
  destruct (PyDict.get (lowered old) m) as [v|] eqn:Ho.
  - symmetry. apply elem_of_get_Some; [done|].
    apply get_Some_elem_of in Ho. unfold lowered in *.
    apply list_elem_of_fmap in Ho as ([k v'] & [= Hk ->] & Hin). simpl in Hk.
    apply list_elem_of_fmap. exists (k, v'). split; [by rewrite Hk|].
    by apply Hsame.
  - symmetry. apply get_None. apply get_None in Ho.
    rewrite keys_lowered in Ho |- *. by rewrite Hold in Ho.
Qed.

Lemma response_starlette_content_run cookies headers media_type
    (st : State) (r : nat) (o : ResponseObj) :
  responses st !! r = Some o ->
  response_starlette_content cookies headers media_type (VResponse r) st =
  (Ok (VResponse r),
   mkState (self st) (dicts st)
     (<[r := assign_headers
               (merge3 (get_headers headers) (headers_items (r_headers o))
                  (allow_header (self st)))
               (with_media_type media_type
                  (set_cookies (get_cookies cookies []) o))]> (responses st))
     (trace st)).
Proof.
  intros Hr. unfold response_starlette_content, as_response. mrun.
  rewrite (read_resp_run r o st Hr). by mrun.
Qed.

Lemma response_esmerald_content_run cookies headers status_code media_type
    (st : State) (r : nat) (o : ResponseObj) data_cookies :
  responses st !! r = Some o ->
  r_cookies o = Some data_cookies ->
  response_esmerald_content cookies headers status_code media_type
    (VResponse r) st =
  (Ok (VResponse r),
   mkState (self st) (dicts st)
     (<[r := assign_headers
               (merge3 (get_headers headers) (headers_items (r_headers o))
                  (allow_header (self st)))
               ((if truthy_media_type media_type
                 then with_media_type media_type else id)
                  ((if truthy_int status_code
                    then with_status_code status_code else id)
                     (set_cookies (get_cookies data_cookies cookies) o)))]>
        (responses st))
     (trace st)).
Proof.
  intros Hr Hc. unfold response_esmerald_content, as_response. mrun.
  rewrite (read_resp_run r o st Hr). mrun. rewrite Hc. mrun.
  by destruct (truthy_int status_code), (truthy_media_type media_type).
Qed.

(** Every line of the response has its name among the keys of [_headers]. *)
Lemma merged_headers_cover headers raw allow kv :
  kv ∈ raw ->
  lower kv.1
  ∈ PyDict.keys (merge3 (get_headers headers) (headers_items raw) allow).
Proof.
  intros Hin. unfold merge3, merge2. rewrite !keys_update. left. right.
  unfold headers_items, PyDict.keys. rewrite map_map. simpl.
  apply list_elem_of_fmap. by exists kv.
Qed.



(** Two handler headers that differ by case only are two entries of
    [_headers] and one line of the response: the computed allow header
    takes the place of the first entry, and the second entry, assigned after
    it, replaces it on the response. *)
Lemma handler_header_in_capitals_replaces_allow :
  r_headers <$>
    responses (response_content
                 (create_starlette_response_handler [] twice_allow_headers
                    None) (VResponse 0%nat) allowing_state).2 !! 0%nat
  = Some [("content-type", PStr "text/plain"); ("allow", PStr "TRACE")].
Proof. reflexivity. Qed.


(** ** Selecting the response strategy *)

Lemma get_response_handler_filled (st : State) (f : ResponseHandler) :
  _response_handler (self st) = Filled f ->
  get_response_handler st = (Ok f, st).
Proof.
  intros Hslot. unfold get_response_handler. mrun. by rewrite Hslot.
Qed.

(** C2.  On a handler whose response-handler slot is unset,
    [get_response_handler] builds one closure [f], stores it in the slot and
    returns it.  Which of the five strategies [f] is depends on the declared
    return annotation alone, tested in this order: container, pre-built JSON
    response, generic response, transport-native response, and the plain
    fallback when none of them matches; no runtime value takes part, and a
    container-annotated handler runs the container strategy on whatever
    value it is given.  Once the slot holds [f], every call returns [f] and
    changes nothing, whatever the handler's annotation and configuration are
    by then. *)
Theorem get_response_handler_static_first_match_cached (st : State) :
  _response_handler (self st) = Void ->
  let h := self st in
  let ann := return_annotation h in
  let cookies := response_cookies h in
  let headers := response_headers h in
  exists f,
    get_response_handler st
    = (Ok f,
       mkState (set__response_handler (Filled f) h) (dicts st) (responses st)
         (trace st)) /\
    (is_class_and_subclass ann [ResponseContainer_cls] = true ->
     f = create_response_container_handler cookies headers (media_type h)
           (status_code h) /\
     forall data,
       response_content f data
       = response_container_content cookies headers (media_type h)
           (status_code h) data) /\
    (is_class_and_subclass ann [ResponseContainer_cls] = false ->
     is_class_and_subclass ann [JSONResponse; ORJSONResponse] = true ->
     f = create_json_response_handler (status_code h)) /\
    (is_class_and_subclass ann [ResponseContainer_cls] = false ->
     is_class_and_subclass ann [JSONResponse; ORJSONResponse] = false ->
     is_class_and_subclass ann [Response] = true ->
     f = create_response_handler cookies headers (status_code h)
           (media_type h)) /\
    (is_class_and_subclass ann [ResponseContainer_cls] = false ->
     is_class_and_subclass ann [JSONResponse; ORJSONResponse] = false ->
     is_class_and_subclass ann [Response] = false ->
     is_class_and_subclass ann [StarletteResponse] = true ->
     f = create_starlette_response_handler cookies headers (media_type h)) /\
    (is_class_and_subclass ann [ResponseContainer_cls] = false ->
     is_class_and_subclass ann [JSONResponse; ORJSONResponse] = false ->
     is_class_and_subclass ann [Response] = false ->
     is_class_and_subclass ann [StarletteResponse] = false ->
     f = create_handler (background h) cookies headers
           match media_type h with
           | Some (EnumMember v) => Some v
           | Some (Str s) => Some s
           | None => None
           end
           (response_class h) (status_code h)) /\
    get_response_handler (get_response_handler st).2
    = (Ok f, (get_response_handler st).2) /\
    (forall st2 : State,
       _response_handler (self st2) = Filled f ->
       get_response_handler st2 = (Ok f, st2)).
Proof.
  intros Hvoid h ann cookies headers. eexists. split.
  { unfold get_response_handler. mrun. rewrite Hvoid. mrun. reflexivity. }
  fold h ann cookies headers.
  split. { intros ->. done. }
  split. { intros -> ->. done. }
  split. { intros -> -> ->. done. }
  split. { intros -> -> -> ->. done. }
  split. { intros -> -> -> ->. done. }
  split.
  - eassert (Hrun : get_response_handler st = (Ok _, _)).
    { unfold get_response_handler. mrun. rewrite Hvoid. mrun. reflexivity. }
    rewrite Hrun. simpl. by apply get_response_handler_filled.
  - intros st2. apply get_response_handler_filled.
Qed.

Lemma get_response_handler_static_first_match_cached_witness :
  (get_response_handler (initial_state orjson_handler)).1
  = Ok (create_json_response_handler (Some 200)).
Proof.
  destruct (get_response_handler_static_first_match_cached
              (initial_state orjson_handler) eq_refl)
    as (f & Hrun & _ & Hjson & _).
  rewrite Hrun. simpl. f_equal. apply Hjson; reflexivity.
Defined.

(** ** The plain-value fallback *)

Lemma response_plain_content_run background cookies headers media_type
    response_class status_code (c : Content) (st : State) :
  response_plain_content background cookies headers media_type response_class
    status_code (VContent c) st =
  (Ok (VResponse (length (responses st))),
   mkState (self st) (dicts st)
     (responses st ++
      [set_cookies (get_cookies cookies [])
         (new_response response_class background c
            (map (fun kv => (kv.1, header_object kv.2)) headers)
            (Str <$> media_type) status_code)])
     (trace st)).
Proof.
  unfold response_plain_content, get_response_data. mrun.
  erewrite read_resp_run; [|by apply list_lookup_middle]. mrun.
  simpl. rewrite insert_app_r_alt, Nat.sub_diag; [done | lia].
Qed.

Lemma get_response_handler_fallback (st : State) :
  _response_handler (self st) = Void ->
  is_class_and_subclass (return_annotation (self st)) [ResponseContainer_cls]
  = false ->
  is_class_and_subclass (return_annotation (self st))
    [JSONResponse; ORJSONResponse] = false ->
  is_class_and_subclass (return_annotation (self st)) [Response] = false ->
  is_class_and_subclass (return_annotation (self st)) [StarletteResponse]
  = false ->
  let f :=
    create_handler (background (self st)) (response_cookies (self st))
      (response_headers (self st))
      match media_type (self st) with
      | Some (EnumMember v) => Some v
      | Some (Str s) => Some s
      | None => None
      end
      (response_class (self st)) (status_code (self st)) in
  get_response_handler st =
  (Ok f,
   mkState (set__response_handler (Filled f) (self st)) (dicts st)
     (responses st) (trace st)).
Proof.
  intros Hvoid H1 H2 H3 H4. unfold get_response_handler. mrun.
  rewrite Hvoid, H1, H2, H3, H4. by mrun.
Qed.

(** C5.  A handler configured with status code 201 and the media type
    "application/json" (as the enum member or as the string), whose return
    annotation selects none of the four response strategies, gets the plain
    fallback as its response handler; called on a plain dictionary it
    creates a new response object whose status code is 201, whose media type
    is "application/json" and whose body is the dictionary as the configured
    response class renders it. *)
Theorem plain_dictionary_response (st : State)
    (d : list (string * Content)) :
  _response_handler (self st) = Void ->
  status_code (self st) = Some 201 ->
  media_type (self st) = Some (EnumMember "application/json") \/
  media_type (self st) = Some (Str "application/json") ->
  is_class_and_subclass (return_annotation (self st)) [ResponseContainer_cls]
  = false ->
  is_class_and_subclass (return_annotation (self st))
    [JSONResponse; ORJSONResponse] = false ->
  is_class_and_subclass (return_annotation (self st)) [Response] = false ->
  is_class_and_subclass (return_annotation (self st)) [StarletteResponse]
  = false ->
  exists f st1 st2 o,
    get_response_handler st = (Ok f, st1) /\
    f = create_handler (background (self st)) (response_cookies (self st))
          (response_headers (self st)) (Some "application/json")
          (response_class (self st)) (Some 201) /\
    response_content f (VContent (CDict d)) st1
    = (Ok (VResponse (length (responses st))), st2) /\
    responses st2 !! length (responses st) = Some o /\
    responses st !! length (responses st) = None /\
    r_status_code o = Some 201 /\
    r_media_type o = Some (Str "application/json") /\
    r_body o = render (response_class (self st)) (CDict d).
Proof.
  intros Hvoid Hsc Hmt H1 H2 H3 H4.
  pose proof (get_response_handler_fallback st Hvoid H1 H2 H3 H4) as Hrun.
  rewrite Hsc in Hrun.
  assert (Hm : match media_type (self st) with
               | Some (EnumMember v) => Some v
               | Some (Str s) => Some s
               | None => None
               end = Some "application/json")
    by by destruct Hmt as [-> | ->].
  rewrite Hm in Hrun. cbv zeta in Hrun.
  eexists _, _, _, _. split; [exact Hrun|]. split; [done|]. split.
  { simpl.
    exact (response_plain_content_run _ _ _ _ _ _ _
             (mkState (set__response_handler _ (self st)) (dicts st)
                (responses st) (trace st))). }
  simpl. split; [by apply list_lookup_middle|].
  split; [apply lookup_ge_None; lia | done].
Qed.

Lemma plain_dictionary_response_witness :
  exists f st1 st2 o,
    get_response_handler (initial_state dict_handler) = (Ok f, st1) /\
    response_content f (VContent (CDict [("id", CInt 7)])) st1
    = (Ok (VResponse 0%nat), st2) /\
    responses st2 !! 0%nat = Some o /\
    r_status_code o = Some 201 /\
    r_media_type o = Some (Str "application/json") /\
    r_body o = render_json (CDict [("id", CInt 7)]).
Proof.
  destruct (plain_dictionary_response (initial_state dict_handler)
              [("id", CInt 7)] eq_refl eq_refl (or_introl eq_refl)
              eq_refl eq_refl eq_refl eq_refl)
    as (f & st1 & st2 & o & Hget & _ & Hrun & Ho & _ & Hsc & Hmt & Hbody).
  exists f, st1, st2, o. repeat split; assumption.
Defined.

Lemma render_json_example :
  render_json (CDict [("id", CInt 7); ("tags", CList [CStr "a"; CNone])])
  = "{" +:+ quote +:+ "id" +:+ quote +:+ ":7," +:+ quote +:+ "tags" +:+ quote
    +:+ ":[" +:+ quote +:+ "a" +:+ quote +:+ ",null]}".
Proof. vm_compute. reflexivity. Qed.

(** ** Dispatch without parameters *)

Section keeps_trace_facts.
Context {A B : Type}.

Lemma keeps_trace_ret (a : A) : keeps_trace (mret a : M A).
Proof. done. Qed.

Lemma keeps_trace_raise (e : Exception) : keeps_trace (raise e : M A).
Proof. done. Qed.

Lemma keeps_trace_lift (r : Result A) : keeps_trace (lift r).
Proof. done. Qed.

Lemma keeps_trace_bind (m : M A) (f : A -> M B) :
  keeps_trace m -> (forall a, keeps_trace (f a)) -> keeps_trace (m ≫= f).
Proof.
  intros Hm Hf st. rewrite bind_run. specialize (Hm st).
  destruct (m st) as [[a|e] st']; simpl in *; [|done].
  by rewrite Hf.
Qed.
End keeps_trace_facts.

Lemma keeps_trace_get_self : keeps_trace get_self.
Proof. done. Qed.

Lemma keeps_trace_modify_self f : keeps_trace (modify_self f).
Proof. done. Qed.

Lemma keeps_trace_new_resp o : keeps_trace (new_resp o).
Proof. done. Qed.

Lemma keeps_trace_read_resp r : keeps_trace (read_resp r).
Proof. intros st. unfold read_resp. by destruct (responses st !! r). Qed.

Lemma keeps_trace_write_resp r o : keeps_trace (write_resp r o).
Proof. done. Qed.

Create HintDb keeps_trace.
#[local] Hint Resolve keeps_trace_ret keeps_trace_raise keeps_trace_lift
  keeps_trace_get_self keeps_trace_modify_self keeps_trace_new_resp
  keeps_trace_read_resp keeps_trace_write_resp : keeps_trace.

Ltac keeps_trace_step :=
  match goal with
  | |- keeps_trace (_ ≫= _) => apply keeps_trace_bind
  | |- forall _, _ => intro
  | |- keeps_trace (match ?x with _ => _ end) => destruct x
  | |- keeps_trace _ => solve [auto with keeps_trace]
  end.

Lemma keeps_trace_as_response attr data : keeps_trace (as_response attr data).
Proof. unfold as_response. repeat keeps_trace_step. Qed.

#[local] Hint Resolve keeps_trace_as_response : keeps_trace.

Lemma keeps_trace_response_content f data :
  keeps_trace (response_content f data).
Proof.
  destruct f; simpl.
  - unfold response_container_content. repeat keeps_trace_step.
  - unfold response_json_content. repeat keeps_trace_step.
  - unfold response_esmerald_content. repeat keeps_trace_step.
  - unfold response_starlette_content. repeat keeps_trace_step.
  - unfold response_plain_content, get_response_data.
    repeat keeps_trace_step.
Qed.

Lemma keeps_trace_get_response_handler : keeps_trace get_response_handler.
Proof. unfold get_response_handler. repeat keeps_trace_step. Qed.

Lemma keeps_trace_to_response data : keeps_trace (to_response_ data).
Proof.
  unfold to_response_. apply keeps_trace_bind.
  - apply keeps_trace_get_response_handler.
  - intros f. apply keeps_trace_response_content.
Qed.

Lemma _get_response_data_no_kwargs (route : Route)
    (parameter_model : KwargsModel) (request : Connection) (st : State) :
  has_kwargs parameter_model = false ->
  _get_response_data route parameter_model request st =
  (fn route (owner_is_APIView route) [],
   traced st [EvCallHandler (owner_is_APIView route) []]).
Proof.
  intros Hno. unfold _get_response_data. rewrite Hno. by mrun.
Qed.

(** With parameters declared, the same dispatch does ask for the kwargs and
    does await the body. *)
Lemma _get_response_data_reads_body_example :
  _get_response_data echo_route body_model bob (initial_state dict_handler)
  = (Ok (VContent (CStr "hello")),
     traced (initial_state dict_handler)
       [EvToKwargs bob; EvAwaitBody bob;
        EvParseValues [("data", VContent (CStr "hello"))];
        EvCallHandler false [("data", VContent (CStr "hello"))]]).
Proof. reflexivity. Qed.

(** C9.  With a parameter model that declares no parameters,
    [_get_response_data] calls the handler function with the empty argument
    set and that call is the only thing it does: the kwargs model is not
    asked for kwargs, no body is awaited, no dependency is resolved and
    nothing is validated.  The whole dispatch through
    [call_handler_function] records that call and nothing else. *)
Theorem no_parameters_no_body_read (route : Route)
    (parameter_model : KwargsModel) (request : Connection) (st : State) :
  has_kwargs parameter_model = false ->
  _get_response_data route parameter_model request st
  = (fn route (owner_is_APIView route) [],
     traced st [EvCallHandler (owner_is_APIView route) []]) /\
  trace (call_handler_function request route parameter_model st).2
  = trace st ++ [EvCallHandler (owner_is_APIView route) []].
Proof.
  intros Hno.
  assert (Htrace : forall st0 : State,
             trace (call_handler_function request route parameter_model st0).2
             = trace st0 ++ [EvCallHandler (owner_is_APIView route) []]).
  { intros st0. unfold call_handler_function. rewrite bind_run.
    rewrite (_get_response_data_no_kwargs route parameter_model request st0 Hno).
    destruct (fn route (owner_is_APIView route) []) as [v|e]; [|done].
    by rewrite keeps_trace_to_response. }
  split; [by apply _get_response_data_no_kwargs | apply Htrace].
Qed.

Lemma no_parameters_no_body_read_witness :
  trace (call_handler_function alice ping_route no_kwargs_model
           (initial_state dict_handler)).2
  = [EvCallHandler false []].
Proof.
  exact (proj2 (no_parameters_no_body_read ping_route no_kwargs_model
                  alice (initial_state dict_handler) eq_refl)).
Defined.

(** * Further properties of the code *)

(** ** The ownership chain *)

Lemma owner_linked_snoc (ls : list Layer) (b : Layer) :
  owner_linked ls ->
  match last ls with
  | Some a => owner b = Some a
  | None => True
  end ->
  owner_linked (ls ++ [b]).
Proof.
  induction ls as [|a ls IH]; simpl; [done|].
  destruct ls as [|a' ls]; simpl in *; [done|].
  intros [Ha Hrest] Hlast. split; [done|]. by apply IH.
Qed.

(** X1.  [ownership_layers] is never empty; it starts with the root, which
    has no owner, ends with the layer it was asked for, and every entry is
    the owner of the next one. *)
Theorem ownership_layers_root_to_self (self_layer : Layer) :
  (exists root,
     head (ownership_layers self_layer) = Some root /\ owner root = None) /\
  last (ownership_layers self_layer) = Some self_layer /\
  owner_linked (ownership_layers self_layer).
Proof.
  split; [apply ownership_layers_root|]. split; [apply ownership_layers_last|].
  induction self_layer as [d p e|d p e up IH] using Layer_owner_ind;
    rewrite ownership_layers_unfold; simpl; [done|].
  apply owner_linked_snoc; [done|]. by rewrite ownership_layers_last.
Qed.

(** ** Dependencies *)

Lemma accumulate_Ok items : forall d d',
  accumulate d items = (Ok tt, d') -> d' = PyDict.update d items.
Proof.
  induction items as [|kv items IH]; intros d d'; simpl.
  - by intros [= <-].
  - destruct (has_dependency_unique d kv.1 kv.2) as [[]|e]; [|done].
    intros Hacc. by apply IH in Hacc.
Qed.

(** The keys of the mapping grow along the walk and stay among the keys of
    the bindings walked. *)
Lemma accumulate_keys items : forall d res d' x,
  accumulate d items = (res, d') ->
  x ∈ PyDict.keys d' -> x ∈ PyDict.keys d \/ x ∈ PyDict.keys items.
Proof.
  induction items as [|kv items IH]; intros d res d' x; simpl.
  - intros [= _ <-]. auto.
  - destruct (has_dependency_unique d kv.1 kv.2) as [[]|e].
    + intros Hacc Hx. destruct (IH _ _ _ _ Hacc Hx) as [Hin|Hin].
      * apply keys_set in Hin as [->|Hin]; [|by left].
        right. apply list_elem_of_here.
      * right. by apply list_elem_of_further.
    + intros [= _ <-]. auto.
Qed.

Lemma dependency_names_spec (self_layer : Layer) (x : string) :
  x ∈ dependency_names self_layer <->
  x ∈ PyDict.keys (dependency_items (ownership_layers self_layer)).
Proof.
  unfold dependency_names, dependency_items, PyDict.keys.
  rewrite elem_of_list_to_set.
  induction (ownership_layers self_layer) as [|l ls IH]; simpl; [done|].
  rewrite map_app, !elem_of_app, IH. done.
Qed.

(** X2.  On a handler with a signature model and an unset dependency slot,
    the keys of the mapping that [get_dependencies] leaves in the store are
    always among [dependency_names], and when [get_dependencies] returns
    normally they are exactly [dependency_names]. *)
Theorem get_dependencies_keys_are_dependency_names (st : State)
    (sm : SignatureModel) :
  signature_model (self st) = Some sm ->
  _dependencies (self st) = Void ->
  exists d,
    dicts (get_dependencies st).2 !! length (dicts st) = Some d /\
    (forall x, x ∈ PyDict.keys d -> x ∈ dependency_names (layer (self st))) /\
    (forall r, (get_dependencies st).1 = Ok r ->
       list_to_set (PyDict.keys d) = dependency_names (layer (self st))).
Proof.
  intros Hsm Hvoid. rewrite (get_dependencies_first st sm Hsm Hvoid). simpl.
  destruct (accumulate [] _) as [res d] eqn:Hacc. exists d. simpl.
  split; [by apply list_lookup_middle|]. split.
  - intros x Hx. apply dependency_names_spec.
    destruct (accumulate_keys _ _ _ _ x Hacc Hx) as [Hin|Hin]; [|done].
    by apply elem_of_nil in Hin.
  - intros r Hr. destruct res as [[]|e]; [|done].
    apply accumulate_Ok in Hacc as ->. apply set_eq. intros x.
    rewrite elem_of_list_to_set, dependency_names_spec, keys_update.
    split; [intros [Hin|?]; [by apply elem_of_nil in Hin | done] | auto].
Qed.

Lemma get_dependencies_keys_are_dependency_names_witness :
  exists d,
    dicts (get_dependencies override_state).2 !! 0%nat = Some d /\
    list_to_set (PyDict.keys d) = dependency_names override_chain.
Proof.
  destruct (get_dependencies_keys_are_dependency_names override_state
              sample_signature_model eq_refl eq_refl) as (d & Hd & _ & Heq).
  exists d. split; [exact Hd|]. by apply (Heq 0%nat).
Defined.

(** X3.  Without a signature model [get_dependencies] raises the runtime
    error and changes nothing, also when the dependency slot already holds a
    mapping: the check comes before the cache. *)
Theorem get_dependencies_needs_signature_model (st : State) :
  signature_model (self st) = None ->
  get_dependencies st =
  (Raise (RuntimeError
     "get_dependencies cannot be called before a signature model has been generated"),
   st).
Proof.
  intros Hnone. unfold get_dependencies. mrun. by rewrite Hnone.
Qed.

Lemma get_dependencies_needs_signature_model_witness :
  _dependencies (self unsigned_state) = Filled 0%nat /\
  get_dependencies unsigned_state =
  (Raise (RuntimeError
     "get_dependencies cannot be called before a signature model has been generated"),
   unsigned_state).
Proof.
  split; [reflexivity|].
  exact (get_dependencies_needs_signature_model unsigned_state eq_refl).
Defined.

(** X4.  When the first call of [get_dependencies] raises, the slot is left
    filled with the mapping accumulated before the offending binding; the
    next call returns that partial mapping and does not raise. *)
Theorem get_dependencies_raise_then_partial (st : State)
    (sm : SignatureModel) (e : Exception) :
  signature_model (self st) = Some sm ->
  _dependencies (self st) = Void ->
  (get_dependencies st).1 = Raise e ->
  exists pre key inj post d dk,
    dependency_items (ownership_layers (layer (self st)))
    = pre ++ (key, inj) :: post /\
    accumulate [] pre = (Ok tt, d) /\
    e = ImproperlyConfigured key dk /\
    dicts (get_dependencies st).2 !! length (dicts st) = Some d /\
    get_dependencies (get_dependencies st).2
    = (Ok (length (dicts st)), (get_dependencies st).2).
Proof.
  intros Hsm Hvoid. rewrite (get_dependencies_first st sm Hsm Hvoid). simpl.
  destruct (accumulate [] _) as [[[]|e'] d] eqn:Hacc; simpl; [done|].
  intros [= ->].
  destruct (accumulate_Raise _ [] e d (NoDup_nil_2 : PyDict.wf []) Hacc) as
    (pre & key & inj & post & dk & Hitems & Hpre & He & _).
  exists pre, key, inj, post, d, dk.
  split; [done|]. split; [done|]. split; [done|].
  split; [by apply list_lookup_middle|].
  apply get_dependencies_filled; simpl; [done | by rewrite Hsm].
Qed.

Lemma get_dependencies_raise_then_partial_witness :
  exists d,
    dicts (get_dependencies (initial_state (handler_on conflict_chain))).2
      !! 0%nat = Some d /\
    d = [("db", provider_db)] /\
    (get_dependencies
       (get_dependencies (initial_state (handler_on conflict_chain))).2).1
    = Ok 0%nat.
Proof.
  destruct (get_dependencies_raise_then_partial
              (initial_state (handler_on conflict_chain))
              sample_signature_model
              (ImproperlyConfigured "session" "db") eq_refl eq_refl eq_refl)
    as (pre & key & inj & post & d & dk & _ & _ & _ & Hd & Hagain).
  exists d. split; [exact Hd|]. split.
  - vm_compute in Hd. by injection Hd as <-.
  - by rewrite Hagain.
Defined.

(** X5.  The uniqueness check has no exception for the key being bound: when
    the walk reaches a binding [(key, inj)] and the accumulated mapping
    already holds [inj] under [key] itself, [get_dependencies] raises the
    configuration error naming [key] twice. *)
Theorem get_dependencies_same_key_rebinding_raises (st : State)
    (sm : SignatureModel) pre key inj post d :
  signature_model (self st) = Some sm ->
  _dependencies (self st) = Void ->
  dependency_items (ownership_layers (layer (self st)))
  = pre ++ (key, inj) :: post ->
  accumulate [] pre = (Ok tt, d) ->
  PyDict.get d key = Some inj ->
  (get_dependencies st).1 = Raise (ImproperlyConfigured key key).
Proof.
  intros Hsm Hvoid Hitems Hpre Hg.
  rewrite (get_dependencies_first st sm Hsm Hvoid). simpl.
  rewrite Hitems, accumulate_app, Hpre. simpl.
  destruct (accumulate_invariant pre [] (Ok tt) d) as [_ Hnd];
    [apply NoDup_nil_2 | apply NoDup_nil_2 | done |].
  by rewrite (has_dependency_unique_names d key inj key Hnd Hg).
Qed.

Lemma get_dependencies_same_key_rebinding_raises_witness :
  (get_dependencies (initial_state (handler_on same_binding_chain))).1
  = Raise (ImproperlyConfigured "db" "db").
Proof.
  apply (get_dependencies_same_key_rebinding_raises
           (initial_state (handler_on same_binding_chain))
           sample_signature_model [("db", provider_db)] "db" provider_db []
           [("db", provider_db)]); reflexivity.
Defined.

(** X6.  In a mapping that [get_dependencies] returns for a handler with an
    unset slot no key occurs twice and no provider occurs under two keys. *)
Theorem get_dependencies_result_injective (st : State) (sm : SignatureModel)
    (r : nat) :
  signature_model (self st) = Some sm ->
  _dependencies (self st) = Void ->
  (get_dependencies st).1 = Ok r ->
  exists d,
    dicts (get_dependencies st).2 !! r = Some d /\
    PyDict.wf d /\
    NoDup (PyDict.values d) /\
    (forall k1 k2 p,
       PyDict.get d k1 = Some p -> PyDict.get d k2 = Some p -> k1 = k2).
Proof.
  intros Hsm Hvoid. rewrite (get_dependencies_first st sm Hsm Hvoid). simpl.
  destruct (accumulate [] _) as [[[]|e] d] eqn:Hacc; simpl; [|done].
  intros [= <-]. exists d. split; [by apply list_lookup_middle|].
  destruct (accumulate_invariant _ [] (Ok tt) d
              (NoDup_nil_2 : PyDict.wf []) (NoDup_nil_2 : NoDup (PyDict.values []))
              Hacc) as [Hwf Hnd].
  split; [done|]. split; [done|].
  intros k1 k2 p H1 H2. apply get_Some_elem_of in H1, H2.
  clear Hacc Hwf. induction d as [|[k v] d IH]; [by apply elem_of_nil in H1|].
  simpl in Hnd. apply NoDup_cons in Hnd as [Hv Hnd].
  apply elem_of_cons in H1 as [H1|H1]; apply elem_of_cons in H2 as [H2|H2].
  - congruence.
  - exfalso. apply Hv. assert (p = v) as -> by congruence.
    by apply (list_elem_of_fmap_2 snd) in H2.
  - exfalso. apply Hv. assert (p = v) as -> by congruence.
    by apply (list_elem_of_fmap_2 snd) in H1.
  - by apply IH.
Qed.

Lemma get_dependencies_result_injective_witness :
  exists d,
    dicts (get_dependencies (initial_state (handler_on shadow_chain))).2
      !! 0%nat = Some d /\
    PyDict.wf d /\ NoDup (PyDict.values d).
Proof.
  destruct (get_dependencies_result_injective
              (initial_state (handler_on shadow_chain))
              sample_signature_model 0%nat eq_refl eq_refl eq_refl)
    as (d & Hd & Hwf & Hnd & _).
  by exists d.
Defined.

(** ** Permissions *)

(** X7.  The permission list is resolved once.  After the first
    [resolve_permissions], any handler whose slot holds that list gets it
    back unchanged, whatever its layers declare by then, and
    [allow_connection] evaluates that list: all of it when every permission
    grants the connection, and up to the first denial otherwise. *)
Theorem resolve_permissions_walks_once (st st2 : State)
    (connection : Connection) :
  _permissions (self st) = Void ->
  _permissions (self st2) = _permissions (self (resolve_permissions st).2) ->
  let ps := layer_permissions (ownership_layers (layer (self st))) in
  resolve_permissions st2 = (Ok (map mkAsyncCallable ps), st2) /\
  (Forall (fun p => has_permission p connection = true) ps ->
   allow_connection connection st2
   = (Ok tt, traced st2 (evaluation_events connection ps))) /\
  (forall pre p post,
     ps = pre ++ p :: post ->
     Forall (fun p => has_permission p connection = true) pre ->
     has_permission p connection = false ->
     allow_connection connection st2
     = (Raise (PermissionDenied p),
        traced st2 (evaluation_events connection (pre ++ [p])))).
Proof.
  intros Hvoid Hslot ps. rewrite (resolve_permissions_first st Hvoid) in Hslot.
  simpl in Hslot. fold ps in Hslot.
  assert (Hunwrap : forall l : list Permission,
             map fn_wrapped (map mkAsyncCallable l) = l).
  { intros l. rewrite map_map. simpl. apply map_id. }
  assert (Hallow : allow_connection connection st2
                   = check_all connection (map mkAsyncCallable ps) st2).
  { unfold allow_connection. rewrite bind_run.
    by rewrite (resolve_permissions_filled st2 _ Hslot). }
  split; [by apply resolve_permissions_filled|]. split.
  - intros Hall. rewrite Hallow, check_all_pass, Hunwrap; [done|].
    rewrite Forall_map. simpl. done.
  - intros pre p post Hps Hpre Hp. rewrite Hallow, Hps, map_app. simpl.
    rewrite (check_all_deny connection (map mkAsyncCallable pre)
               (mkAsyncCallable p) (map mkAsyncCallable post) st2).
    + change [mkAsyncCallable p] with (map mkAsyncCallable [p]).
      by rewrite <- map_app, Hunwrap.
    + rewrite Forall_map. simpl. done.
    + done.
Qed.

Lemma resolve_permissions_walks_once_witness :
  layer_permissions (ownership_layers (layer (self permission_state_rewired)))
  = [] /\
  allow_connection alice permission_state_rewired
  = (Raise (PermissionDenied IsAdmin),
     traced permission_state_rewired
       (evaluation_events alice [IsAuthenticated; IsAdmin])).
Proof.
  split; [reflexivity|].
  destruct (resolve_permissions_walks_once
              (initial_state (handler_on permission_chain))
              permission_state_rewired alice eq_refl eq_refl)
    as (_ & _ & Hdeny).
  apply (Hdeny [IsAuthenticated] IsAdmin [AllowAny]).
  - reflexivity.
  - repeat constructor.
  - reflexivity.
Defined.

(** ** Cookies *)

Lemma filter_cookies_NoDup local other :
  NoDup (map key (filter_cookies local other)) <-> NoDup (map key local).
Proof.
  induction other as [|c other IH] using rev_ind; [done|].
  rewrite filter_cookies_snoc. destruct (existsb _ _) eqn:Hex; [done|].
  rewrite map_app, NoDup_app. simpl. rewrite IH. split; [tauto|].
  intros Hnd. split; [done|]. split; [|apply NoDup_singleton].
  intros x Hx Hin. apply list_elem_of_singleton in Hin as ->.
  apply shares_key_spec in Hx. congruence.
Qed.

(** X8.  The mappings returned by [get_cookies] have pairwise distinct
    [key] entries exactly when the local cookies have pairwise distinct
    keys: the other cookies never introduce a repeated key, and a key
    repeated among the local cookies is kept repeated. *)
Theorem get_cookies_unique_keys_iff_local_unique
    (local_cookies other_cookies : list Cookie) :
  NoDup (map (fun d => PyDict.get d "key")
           (get_cookies local_cookies other_cookies))
  <-> NoDup (map key local_cookies).
Proof.
  rewrite <- (filter_cookies_NoDup local_cookies other_cookies).
  unfold get_cookies. rewrite map_map.
  set (cs := filter_cookies local_cookies other_cookies).
  assert (Heq : map (fun c => PyDict.get (cookie_dict c) "key") cs
                = map (fun s => Some (PStr s)) (map key cs)).
  { rewrite map_map. apply map_ext. intros c. reflexivity. }
  rewrite Heq. split.
  - apply (NoDup_fmap_1 (fun s => Some (PStr s))).
  - apply (NoDup_fmap_2_strong (fun s => Some (PStr s))).
    intros x y _ _ [=]. done.
Qed.

(** ** The container strategy *)

Lemma merge2_lookup a b k :
  PyDict.wf a -> PyDict.wf b ->
  PyDict.get (merge2 a b) k =
  match PyDict.get b k with
  | Some v => Some v
  | None => PyDict.get a k
  end.
Proof.
  intros Ha Hb. unfold merge2. rewrite !get_update_wf by done. simpl.
  by destruct (PyDict.get b k), (PyDict.get a k).
Qed.

Lemma response_container_content_run cookies headers media_type status_code
    (c : ResponseContainer) (st : State) :
  response_container_content cookies headers media_type status_code
    (VContainer c) st =
  (Ok (VResponse (length (responses st))),
   mkState (self st) (dicts st)
     (responses st ++
      [set_cookies (get_cookies (rc_cookies c) cookies)
         (to_response c (merge2 (get_headers headers) (rc_headers c))
            media_type status_code)])
     (trace st)).
Proof.
  unfold response_container_content. mrun.
  erewrite read_resp_run; [|by apply list_lookup_middle]. mrun.
  simpl. rewrite insert_app_r_alt, Nat.sub_diag; [done | lia].
Qed.

(** X9.  Called on a container, the container handler adds one response
    object to the store and returns it: the object the container's own
    [to_response] builds from the configured media type and status code and
    from headers in which, name by name, the container's header wins over
    the handler's, with the container's cookies set on it first and then the
    handler's cookies whose key is not yet taken.  The response objects
    already in the store are not touched. *)
Theorem container_handler_builds_from_container
    (cookies : list Cookie) (headers : list (string * ResponseHeader))
    (media_type : option MediaTypeAttr) (status_code : option Z)
    (c : ResponseContainer) (st : State) :
  exists merged built,
    response_content
      (create_response_container_handler cookies headers media_type
         status_code) (VContainer c) st
    = (Ok (VResponse (length (responses st))),
       mkState (self st) (dicts st)
         (responses st
          ++ [set_cookies (get_cookies (rc_cookies c) cookies) built])
         (trace st)) /\
    built = to_response c merged media_type status_code /\
    (PyDict.wf headers -> PyDict.wf (rc_headers c) ->
     forall name,
       PyDict.get merged name =
       match PyDict.get (rc_headers c) name with
       | Some v => Some v
       | None => header_value <$> PyDict.get headers name
       end) /\
    (exists kept,
       get_cookies (rc_cookies c) cookies
       = map cookie_dict (rc_cookies c ++ kept) /\ sublist kept cookies) /\
    (forall r o,
       responses st !! r = Some o ->
       (responses st
        ++ [set_cookies (get_cookies (rc_cookies c) cookies) built]) !! r
       = Some o).
Proof.
  exists (merge2 (get_headers headers) (rc_headers c)),
    (to_response c (merge2 (get_headers headers) (rc_headers c)) media_type
       status_code).
  split; [apply response_container_content_run|]. split; [done|]. split.
  { intros Hh Hc name. rewrite merge2_lookup by (done || apply wf_get_headers).
    destruct (PyDict.get (rc_headers c) name); [done|].
    by apply get_headers_lookup. }
  split.
  { destruct (filter_cookies_extends (rc_cookies c) cookies)
      as (kept & Heq & Hsub).
    exists kept. unfold get_cookies. by rewrite Heq. }
  intros r o Hr. by apply lookup_app_l_Some.
Qed.

(** ** The generic response strategy *)

(** X10.  Called on a response object that has a cookie list of its own,
    the generic handler returns that same object.  Its status code becomes
    the configured one only when that is truthy (set and not 0), its media
    type becomes the configured one only when that is truthy (set and not
    empty); the cookies set on it are the object's own cookies followed by
    the handler's cookies whose key is not yet taken; its class, cookie
    list, body and background stay as they were. *)
Theorem esmerald_handler_overrides_only_truthy
    (cookies : list Cookie) (headers : list (string * ResponseHeader))
    (status_code : option Z) (media_type : option MediaTypeAttr)
    (st : State) (r : nat) (o : ResponseObj) (data_cookies : list Cookie) :
  responses st !! r = Some o ->
  r_cookies o = Some data_cookies ->
  exists o',
    response_content
      (create_response_handler cookies headers status_code media_type)
      (VResponse r) st
    = (Ok (VResponse r),
       mkState (self st) (dicts st) (<[r := o']> (responses st)) (trace st)) /\
    (truthy_int status_code = true -> r_status_code o' = status_code) /\
    (truthy_int status_code = false -> r_status_code o' = r_status_code o) /\
    (truthy_media_type media_type = true -> r_media_type o' = media_type) /\
    (truthy_media_type media_type = false ->
     r_media_type o' = r_media_type o) /\
    r_set_cookie o' = r_set_cookie o ++ get_cookies data_cookies cookies /\
    r_class o' = r_class o /\
    r_cookies o' = r_cookies o /\
    r_body o' = r_body o /\
    r_background o' = r_background o.
Proof.
  intros Hr Hc. eexists. split.
  { simpl. apply (response_esmerald_content_run _ _ _ _ _ _ _ _ Hr Hc). }
  destruct (truthy_int status_code), (truthy_media_type media_type);
    repeat split; done.
Qed.

Lemma esmerald_handler_overrides_only_truthy_witness :
  exists o',
    response_content
      (create_response_handler [Cookie_kv "a" "1"] [] (Some 0)
         (Some (Str "")))
      (VResponse 0%nat) (state_with esmerald_response_obj)
    = (Ok (VResponse 0%nat),
       mkState (self (state_with esmerald_response_obj)) [] [o'] []) /\
    r_status_code o' = Some 200 /\
    r_media_type o' = Some (Str "text/plain") /\
    r_set_cookie o' = [cookie_dict (Cookie_kv "a" "1")].
Proof.
  destruct (esmerald_handler_overrides_only_truthy [Cookie_kv "a" "1"] []
              (Some 0) (Some (Str "")) (state_with esmerald_response_obj)
              0%nat esmerald_response_obj [] eq_refl eq_refl)
    as (o' & Hrun & _ & Hsc & _ & Hmt & Hcookies & _).
  exists o'. split; [exact Hrun|]. split; [by apply Hsc|].
  split; [by apply Hmt | exact Hcookies].
Defined.

(** ** The plain-value fallback on responses and awaitables *)

Lemma response_plain_content_json_run background cookies headers media_type
    response_class status_code (st : State) (r : nat) (o : ResponseObj)
    (data : Value) :
  responses st !! r = Some o ->
  isinstance_mro (r_class o) [JSONResponse; ORJSONResponse] = true ->
  data = VResponse r \/ data = VAwaitable (VResponse r) ->
  response_plain_content background cookies headers media_type response_class
    status_code data st =
  (Ok (VResponse r),
   mkState (self st) (dicts st)
     (<[r := set_cookies (get_cookies cookies [])
               (with_background background
                  (with_status_code status_code o))]> (responses st))
     (trace st)).
Proof.
  intros Hr Hjson Hdata.
  assert (Hlt : (r < length (responses st))%nat) by by eapply lookup_lt_Some.
  unfold response_plain_content.
  assert (Hget : get_response_data data st = (Ok (VResponse r), st))
    by by destruct Hdata as [-> | ->].
  rewrite bind_run, Hget. cbv beta match. mrun.
  rewrite (read_resp_run r o st Hr). cbv beta match. rewrite Hjson. mrun.
  erewrite read_resp_run; [|by apply list_lookup_insert_eq]. mrun. simpl.
  by rewrite list_insert_insert_eq.
Qed.

(** X11.  When the value handed to the fallback handler is, or is an
    awaitable of, a response object of class [JSONResponse] or
    [ORJSONResponse], the handler reuses that object instead of building a
    new one: it assigns the configured status code and background whatever
    they are (also when they are unset), sets every handler cookie on it,
    and leaves its headers, media type, body and class alone. *)
Theorem fallback_reuses_json_response
    (background : option Background) (cookies : list Cookie)
    (headers : list (string * ResponseHeader)) (media_type : option string)
    (response_class : ResponseClass) (status_code : option Z)
    (st : State) (r : nat) (o : ResponseObj) (data : Value) :
  responses st !! r = Some o ->
  isinstance_mro (r_class o) [JSONResponse; ORJSONResponse] = true ->
  data = VResponse r \/ data = VAwaitable (VResponse r) ->
  exists o',
    response_content
      (create_handler background cookies headers media_type response_class
         status_code) data st
    = (Ok (VResponse r),
       mkState (self st) (dicts st) (<[r := o']> (responses st)) (trace st)) /\
    length (<[r := o']> (responses st)) = length (responses st) /\
    r_status_code o' = status_code /\
    r_background o' = background /\
    r_set_cookie o' = r_set_cookie o ++ map cookie_dict cookies /\
    r_headers o' = r_headers o /\
    r_media_type o' = r_media_type o /\
    r_body o' = r_body o /\
    r_class o' = r_class o.
Proof.
  intros Hr Hjson Hdata. eexists. split.
  { simpl. by apply response_plain_content_json_run. }
  split; [by rewrite length_insert|]. repeat split; done.
Qed.

Lemma fallback_reuses_json_response_witness :
  exists o',
    response_content
      (create_handler None [Cookie_kv "a" "1"]
         [("x-frame", mkResponseHeader (PStr "deny"))] (Some "text/html")
         plain_class None)
      (VAwaitable (VResponse 0%nat)) (state_with json_response_obj)
    = (Ok (VResponse 0%nat),
       mkState (self (state_with json_response_obj)) [] [o'] []) /\
    r_status_code o' = None /\
    r_media_type o' = Some (Str "application/json") /\
    r_headers o' = [("content-type", PStr "application/json")].
Proof.
  destruct (fallback_reuses_json_response None [Cookie_kv "a" "1"]
              [("x-frame", mkResponseHeader (PStr "deny"))] (Some "text/html")
              plain_class None (state_with json_response_obj) 0%nat
              json_response_obj (VAwaitable (VResponse 0%nat)) eq_refl
              eq_refl (or_intror eq_refl))
    as (o' & Hrun & _ & Hsc & _ & _ & Hh & Hmt & _).
  exists o'. split; [exact Hrun|]. split; [exact Hsc|].
  split; [exact Hmt | exact Hh].
Defined.

(** X12.  On plain content, awaitable or not, the fallback handler adds one
    response object to the store, built by the configured response class
    with the configured background and the header declarations as they
    are, and sets every handler cookie on it in order, none dropped by key;
    the response objects already in the store are not touched. *)
Theorem fallback_builds_new_response
    (background : option Background) (cookies : list Cookie)
    (headers : list (string * ResponseHeader)) (media_type : option string)
    (response_class : ResponseClass) (status_code : option Z)
    (st : State) (c : Content) (data : Value) :
  data = VContent c \/ data = VAwaitable (VContent c) ->
  exists o,
    response_content
      (create_handler background cookies headers media_type response_class
         status_code) data st
    = (Ok (VResponse (length (responses st))),
       mkState (self st) (dicts st) (responses st ++ [o]) (trace st)) /\
    r_class o = cls_mro response_class /\
    r_background o = background /\
    r_headers o = map (fun kv => (kv.1, header_object kv.2)) headers /\
    r_set_cookie o = map cookie_dict cookies /\
    (forall r o0,
       responses st !! r = Some o0 -> (responses st ++ [o]) !! r = Some o0).
Proof.
  intros Hdata. eexists. split.
  { simpl. destruct Hdata as [-> | ->].
    - apply response_plain_content_run.
    - apply (response_plain_content_run background cookies headers media_type
               response_class status_code c st). }
  repeat split; try done. intros r o0 Hr. by apply lookup_app_l_Some.
Qed.

Lemma fallback_builds_new_response_witness :
  exists o,
    response_content
      (create_handler None [Cookie_kv "a" "1"; Cookie_kv "a" "2"] []
         (Some "application/json") json_class (Some 200))
      (VAwaitable (VContent (CInt 7))) (state_with json_response_obj)
    = (Ok (VResponse 1%nat),
       mkState (self (state_with json_response_obj)) []
         [json_response_obj; o] []) /\
    r_set_cookie o
    = [cookie_dict (Cookie_kv "a" "1"); cookie_dict (Cookie_kv "a" "2")].
Proof.
  destruct (fallback_builds_new_response None
              [Cookie_kv "a" "1"; Cookie_kv "a" "2"] []
              (Some "application/json") json_class (Some 200)
              (state_with json_response_obj) (CInt 7)
              (VAwaitable (VContent (CInt 7))) (or_intror eq_refl))
    as (o & Hrun & _ & _ & _ & Hcookies & _).
  exists o. split; [exact Hrun | exact Hcookies].
Defined.

Lemma container_handler_example :
  exists o,
    response_content
      (create_response_container_handler [Cookie_kv "session" "h"]
         [("x-served-by", mkResponseHeader (PStr "handler"))] None (Some 200))
      (VContainer sample_container) (initial_state dict_handler)
    = (Ok (VResponse 0%nat), mkState dict_handler [] [o] []) /\
    r_headers o = [("x-served-by", PStr "container")] /\
    r_set_cookie o = [cookie_dict (Cookie_kv "session" "c")].
Proof. eexists. split; [reflexivity|]. split; reflexivity. Qed.

(** ** Parameter collection and dispatch *)

Lemma bind_assoc_run {A B C : Type} (m : M A) (f : A -> M B) (g : B -> M C)
    (st : State) :
  ((m ≫= f) ≫= g) st = (m ≫= (fun a => f a ≫= g)) st.
Proof.
  rewrite !bind_run. destruct (m st) as [[a|e] st']; [|done].
  by rewrite bind_run.
Qed.

Lemma bind_ext_run {A B : Type} (m : M A) (f g : A -> M B) (st : State) :
  (forall a st', f a st' = g a st') -> (m ≫= f) st = (m ≫= g) st.
Proof.
  intros Hfg. rewrite !bind_run. by destruct (m st) as [[a|e] st'].
Qed.

Lemma bind_cong_run {A B : Type} (m m' : M A) (f : A -> M B) (st : State) :
  m st = m' st -> (m ≫= f) st = (m' ≫= f) st.
Proof. intros Hm. by rewrite !bind_run, Hm. Qed.

Lemma _get_response_data_with_kwargs (route : Route)
    (parameter_model : KwargsModel) (request : Connection) (st : State) :
  has_kwargs parameter_model = true ->
  _get_response_data route parameter_model request st =
  match collect_kwargs parameter_model request st with
  | (Ok kwargs, st1) =>
      match parse_values_from_connection_kwargs (route_signature_model route)
              request kwargs with
      | Some parsed =>
          (fn route (owner_is_APIView route) parsed,
           traced st1 [EvParseValues kwargs;
                       EvCallHandler (owner_is_APIView route) parsed])
      | None => (Raise ValidationError, traced st1 [EvParseValues kwargs])
      end
  | (Raise e, st1) => (Raise e, st1)
  end.
Proof.
  intros Hkw.
  transitivity
    (((collect_kwargs parameter_model request ≫= fun kwargs =>
         emit (EvParseValues kwargs);;
         match parse_values_from_connection_kwargs
                 (route_signature_model route) request kwargs with
         | Some parsed => mret parsed
         | None => raise ValidationError
         end) ≫= fun parsed_kwargs =>
        emit (EvCallHandler (owner_is_APIView route) parsed_kwargs);;
        lift (fn route (owner_is_APIView route) parsed_kwargs)) st).
  - unfold _get_response_data. rewrite Hkw. apply bind_cong_run. symmetry.
    unfold collect_kwargs. rewrite bind_assoc_run. apply bind_ext_run.
    intros [] st'. rewrite bind_assoc_run. reflexivity.
  - rewrite !bind_run.
    destruct (collect_kwargs parameter_model request st) as [[kwargs|e] st1];
      [|done].
    mrun. destruct (parse_values_from_connection_kwargs _ _ _); mrun.
    + by rewrite traced_app.
    + done.
Qed.

Lemma await_data_spec (request : Connection) (kwargs : Kwargs) (st : State) :
  (await_data request kwargs st).2 = traced st (body_events request kwargs) /\
  forall kwargs',
    (await_data request kwargs st).1 = Ok kwargs' ->
    forall k, k ≠ "data" -> PyDict.get kwargs' k = PyDict.get kwargs k.
Proof.
  unfold await_data, body_events.
  destruct (PyDict.get kwargs "data") as [v|]; simpl.
  2:{ rewrite traced_nil. split; [done|]. by intros kwargs' [= <-]. }
  destruct (truthy_value v) eqn:Htruthy.
  - destruct v; simpl; mrun; simpl; rewrite ?traced_nil; (split; [done|]);
      try done.
    intros kwargs' [= <-] k Hk. by apply get_set_ne.
  - destruct v; simpl in *; try done.
    rewrite traced_nil. split; [done|]. by intros kwargs' [= <-].
Qed.

Lemma resolve_step_run (parameter_model : KwargsModel) (request : Connection)
    (acc : M Kwargs) (d : Dependency) (st : State) :
  resolve_step parameter_model request acc d st =
  match acc st with
  | (Ok kwargs, st1) =>
      match resolve_dependency parameter_model d request kwargs with
      | Ok v =>
          (Ok (PyDict.set (dep_key d) v kwargs),
           traced st1 [EvResolveDependency (dep_key d)])
      | Raise e => (Raise e, traced st1 [EvResolveDependency (dep_key d)])
      end
  | (Raise e, st1) => (Raise e, st1)
  end.
Proof.
  unfold resolve_step. rewrite bind_run.
  destruct (acc st) as [[kwargs|e] st1]; [|done]. mrun.
  destruct (resolve_dependency parameter_model d request kwargs); by mrun.
Qed.

Lemma resolve_loop_spec (parameter_model : KwargsModel)
    (request : Connection) (deps : list Dependency) :
  forall (kwargs : Kwargs) (st : State),
  let run :=
    foldl (resolve_step parameter_model request) (mret kwargs) deps st in
  exists n,
    (n <= length deps)%nat /\
    run.2 = traced st (resolve_events (take n deps)) /\
    match run.1 with
    | Ok kwargs' =>
        n = length deps /\
        (forall d, d ∈ deps -> is_Some (PyDict.get kwargs' (dep_key d))) /\
        (forall k, k ∉ map dep_key deps ->
                   PyDict.get kwargs' k = PyDict.get kwargs k)
    | Raise _ => (0 < n)%nat
    end.
Proof.
  induction deps as [|d deps IH] using rev_ind; intros kwargs st run.
  - exists 0%nat. subst run. simpl. rewrite traced_nil.
    split; [done|]. split; [done|]. split; [done|]. split; [|done].
    intros d Hd. by apply elem_of_nil in Hd.
  - subst run. rewrite foldl_snoc, resolve_step_run.
    destruct (IH kwargs st) as (n & Hn & Htr & Hres).
    destruct (foldl (resolve_step parameter_model request) (mret kwargs) deps
                st) as [[kw1|e] st1]; cbn [fst snd] in *.
    + destruct Hres as (-> & Hbound & Hother).
      rewrite take_ge in Htr by done. subst st1.
      destruct (resolve_dependency parameter_model d request kw1) as [v|e];
        exists (S (length deps)); rewrite length_app; simpl.
      * split; [lia|]. rewrite take_ge by (rewrite length_app; simpl; lia).
        unfold resolve_events. rewrite map_app, traced_app. simpl.
        split; [done|]. split; [lia|]. split.
        -- intros d' Hd'. apply elem_of_app in Hd' as [Hd'|Hd'].
           ++ destruct (decide (dep_key d = dep_key d')) as [Heq|Hne].
              ** rewrite <- Heq, get_set_eq. by eexists.
              ** rewrite get_set_ne by done. by apply Hbound.
           ++ apply list_elem_of_singleton in Hd' as ->.
              rewrite get_set_eq. by eexists.
        -- intros k Hk. rewrite map_app, elem_of_app in Hk. simpl in Hk.
           rewrite get_set_ne.
           ++ apply Hother. tauto.
           ++ intros <-. apply Hk. right. apply list_elem_of_here.
      * split; [lia|]. rewrite take_ge by (rewrite length_app; simpl; lia).
        unfold resolve_events. rewrite map_app, traced_app. simpl.
        split; [done | lia].
    + exists n. rewrite length_app. split; [lia|].
      rewrite take_app_le by done. done.
Qed.

(** What the parameter collection records and returns. *)
Lemma collect_kwargs_spec (parameter_model : KwargsModel)
    (request : Connection) (st : State) :
  let deps := expected_dependencies parameter_model in
  let run := collect_kwargs parameter_model request st in
  exists n,
    (n <= length deps)%nat /\
    run.2 = traced st
              (EvToKwargs request
               :: body_events request (to_kwargs parameter_model request)
               ++ resolve_events (take n deps)) /\
    match run.1 with
    | Ok kwargs =>
        n = length deps /\
        (forall d, d ∈ deps -> is_Some (PyDict.get kwargs (dep_key d))) /\
        (forall k, k ≠ "data" -> k ∉ map dep_key deps ->
                   PyDict.get kwargs k
                   = PyDict.get (to_kwargs parameter_model request) k)
    | Raise _ => True
    end.
Proof.
  intros deps run. subst run. unfold collect_kwargs. mrun.
  destruct (await_data_spec request (to_kwargs parameter_model request)
              (traced st [EvToKwargs request])) as [Htr Hkeep].
  destruct (await_data request _ _) as [[kw|e] st1]; simpl in *.
  - unfold resolve_dependencies.
    destruct (resolve_loop_spec parameter_model request deps kw st1)
      as (n & Hn & Htr2 & Hres).
    fold deps.
    destruct (foldl (resolve_step parameter_model request) (mret kw) deps st1)
      as [[kw'|e] st2]; cbn [fst snd] in *.
    + exists n. split; [done|]. subst st1 st2. rewrite !traced_app.
      split; [done|]. destruct Hres as (Hlen & Hbound & Hother).
      split; [done|]. split; [done|].
      intros k Hk Hnot. rewrite Hother by done. by apply Hkeep.
    + exists n. split; [done|]. subst st1 st2. by rewrite !traced_app.
  - exists 0%nat. split; [lia|]. subst st1. rewrite traced_app. simpl.
    by rewrite app_nil_r.
Qed.

Lemma collect_events_kind (request : Connection) (kwargs : Kwargs)
    (deps : list Dependency) (e : Event) :
  e ∈ EvToKwargs request :: body_events request kwargs ++ resolve_events deps ->
  e = EvToKwargs request \/ e = EvAwaitBody request \/
  exists d, d ∈ deps /\ e = EvResolveDependency (dep_key d).
Proof.
  rewrite elem_of_cons, elem_of_app. intros [->|[Hin|Hin]]; [by left| |].
  - right. left. unfold body_events in Hin.
    destruct (PyDict.get kwargs "data") as [[]|];
      try (by apply elem_of_nil in Hin).
    by apply list_elem_of_singleton in Hin.
  - right. right. unfold resolve_events in Hin.
    apply list_elem_of_fmap in Hin as (d & -> & Hd). by exists d.
Qed.

(** X13.  When the parameter model declares parameters, the handler
    function is called only with kwargs that the signature model returned
    for the kwargs collected from the connection, with the owner first
    exactly when the route's owner is an [APIView], and what
    [_get_response_data] returns is what that call returned; when the
    signature model rejects the collected kwargs, the validation error is
    raised and the function is not called. *)
Theorem handler_called_only_with_validated_kwargs (route : Route)
    (parameter_model : KwargsModel) (request : Connection) (st : State) :
  has_kwargs parameter_model = true ->
  exists evs,
    (_get_response_data route parameter_model request st).2 = traced st evs /\
    (forall b parsed,
       EvCallHandler b parsed ∈ evs ->
       b = owner_is_APIView route /\
       (_get_response_data route parameter_model request st).1
       = fn route b parsed /\
       exists kwargs,
         EvParseValues kwargs ∈ evs /\
         parse_values_from_connection_kwargs (route_signature_model route)
           request kwargs = Some parsed) /\
    (forall kwargs,
       EvParseValues kwargs ∈ evs ->
       parse_values_from_connection_kwargs (route_signature_model route)
         request kwargs = None ->
       (_get_response_data route parameter_model request st).1
       = Raise ValidationError /\
       forall b parsed, EvCallHandler b parsed ∉ evs).
Proof.
  intros Hkw. rewrite (_get_response_data_with_kwargs _ _ _ _ Hkw).
  destruct (collect_kwargs_spec parameter_model request st)
    as (n & _ & Htr & _). simpl in Htr.
  set (cevs := EvToKwargs request
               :: body_events request (to_kwargs parameter_model request)
               ++ resolve_events (take n (expected_dependencies parameter_model)))
    in *.
  assert (Hkind : forall e, e ∈ cevs ->
            (forall b k, e ≠ EvCallHandler b k) /\
            (forall k, e ≠ EvParseValues k)).
  { intros e He. apply collect_events_kind in He as [->|[->|(d & _ & ->)]];
      by split. }
  destruct (collect_kwargs parameter_model request st) as [[kwargs|e] st1];
    simpl in Htr; subst st1.
  - destruct (parse_values_from_connection_kwargs _ _ kwargs) as [parsed|]
      eqn:Hparse; simpl; rewrite traced_app; eexists; (split; [reflexivity|]).
    + split.
      * intros b p Hin. apply elem_of_app in Hin as [Hin|Hin].
        { by destruct (proj1 (Hkind _ Hin) b p). }
        apply elem_of_cons in Hin as [[=]|Hin].
        apply list_elem_of_singleton in Hin as [= -> ->].
        split; [done|]. split; [done|]. exists kwargs. split; [|done].
        apply elem_of_app. right. apply list_elem_of_here.
      * intros kw Hin Hnone. apply elem_of_app in Hin as [Hin|Hin].
        { by destruct (proj2 (Hkind _ Hin) kw). }
        apply elem_of_cons in Hin as [[= ->]|Hin]; [congruence|].
        by apply list_elem_of_singleton in Hin.
    + split.
      * intros b p Hin. apply elem_of_app in Hin as [Hin|Hin].
        { by destruct (proj1 (Hkind _ Hin) b p). }
        by apply list_elem_of_singleton in Hin.
      * intros kw _ _. split; [done|]. intros b p Hin.
        apply elem_of_app in Hin as [Hin|Hin].
        { by destruct (proj1 (Hkind _ Hin) b p). }
        by apply list_elem_of_singleton in Hin.
  - simpl. exists cevs. split; [done|]. split.
    + intros b p Hin. by destruct (proj1 (Hkind _ Hin) b p).
    + intros kw Hin. by destruct (proj2 (Hkind _ Hin) kw).
Qed.

Lemma handler_called_only_with_validated_kwargs_witness :
  _get_response_data rejecting_route body_model bob
    (initial_state dict_handler)
  = (Raise ValidationError,
     traced (initial_state dict_handler)
       [EvToKwargs bob; EvAwaitBody bob;
        EvParseValues [("data", VContent (CStr "hello"))]]).
Proof.
  destruct (handler_called_only_with_validated_kwargs rejecting_route
              body_model bob (initial_state dict_handler) eq_refl)
    as (evs & Htr & _ & Hreject).
  destruct (Hreject [("data", VContent (CStr "hello"))]) as [Hres _].
  - assert (Hevs : evs = [EvToKwargs bob; EvAwaitBody bob;
                          EvParseValues [("data", VContent (CStr "hello"))]]).
    { vm_compute in Htr. by injection Htr as <-. }
    rewrite Hevs. do 2 apply list_elem_of_further. apply list_elem_of_here.
  - reflexivity.
  - rewrite (surjective_pairing (_get_response_data _ _ _ _)), Hres.
    reflexivity.
Defined.

(** X14.  When the parameter model declares parameters, the expected
    dependencies are resolved in their declared order, after the kwargs
    were taken from the connection and the body, if any, was awaited.
    Either the collection raises, and then only a prefix of the
    dependencies was resolved and neither validation nor the handler
    function is reached; or all of them were resolved, and validation sees
    kwargs in which every expected dependency key is bound. *)
Theorem dependencies_resolved_in_order_until_failure (route : Route)
    (parameter_model : KwargsModel) (request : Connection) (st : State) :
  has_kwargs parameter_model = true ->
  let deps := expected_dependencies parameter_model in
  let run := _get_response_data route parameter_model request st in
  exists n tail,
    (n <= length deps)%nat /\
    run.2 = traced st
              (EvToKwargs request
               :: body_events request (to_kwargs parameter_model request)
               ++ resolve_events (take n deps) ++ tail) /\
    ((tail = [] /\ exists e, run.1 = Raise e) \/
     (n = length deps /\
      exists kwargs rest,
        tail = EvParseValues kwargs :: rest /\
        forall d, d ∈ deps -> is_Some (PyDict.get kwargs (dep_key d)))).
Proof.
  intros Hkw deps run. subst run.
  rewrite (_get_response_data_with_kwargs _ _ _ _ Hkw).
  destruct (collect_kwargs_spec parameter_model request st)
    as (n & Hn & Htr & Hres). simpl in Htr, Hres. fold deps in Hn, Htr, Hres.
  destruct (collect_kwargs parameter_model request st) as [[kwargs|e] st1];
    simpl in Htr, Hres; subst st1.
  - destruct Hres as (-> & Hbound & _).
    destruct (parse_values_from_connection_kwargs _ _ kwargs) as [parsed|];
      simpl; rewrite traced_app; exists (length deps);
      [exists [EvParseValues kwargs;
               EvCallHandler (owner_is_APIView route) parsed]
      |exists [EvParseValues kwargs]];
      (split; [done|]);
      (split; [simpl; by rewrite <- app_assoc|]);
      right; (split; [done|]); by eexists _, _.
  - exists n, []. split; [done|]. simpl. rewrite app_nil_r.
    split; [done|]. left. split; [done|]. by exists e.
Qed.

Lemma dependencies_resolved_in_order_until_failure_witness :
  _get_response_data ping_route failing_dependency_model bob
    (initial_state dict_handler)
  = (Raise (HandlerError "cache is down"),
     traced (initial_state dict_handler)
       [EvToKwargs bob; EvResolveDependency "db";
        EvResolveDependency "cache"]) /\
  exists n tail,
    (n <= 3)%nat /\
    (_get_response_data ping_route failing_dependency_model bob
       (initial_state dict_handler)).2
    = traced (initial_state dict_handler)
        (EvToKwargs bob
         :: resolve_events
              (take n [mkDependency "db"; mkDependency "cache";
                       mkDependency "mail"]) ++ tail).
Proof.
  split; [reflexivity|].
  destruct (dependencies_resolved_in_order_until_failure ping_route
              failing_dependency_model bob (initial_state dict_handler)
              eq_refl) as (n & tail & Hn & Htr & _).
  exists n, tail. split; [exact Hn | exact Htr].
Defined.

(** X15.  When the parameter model declares parameters, the body is awaited
    exactly when the kwargs taken from the connection hold an awaitable
    under [data]; a [data] entry that is truthy and not an awaitable makes
    the dispatch raise a type error right after the kwargs were taken. *)
Theorem body_awaited_iff_data_awaitable (route : Route)
    (parameter_model : KwargsModel) (request : Connection) (st : State) :
  has_kwargs parameter_model = true ->
  let run := _get_response_data route parameter_model request st in
  (exists evs,
     run.2 = traced st evs /\
     (EvAwaitBody request ∈ evs <->
      exists body,
        PyDict.get (to_kwargs parameter_model request) "data"
        = Some (VAwaitable body))) /\
  (forall v,
     PyDict.get (to_kwargs parameter_model request) "data" = Some v ->
     truthy_value v = true ->
     (forall body, v ≠ VAwaitable body) ->
     run = (Raise (TypeError "object can't be used in 'await' expression"),
            traced st [EvToKwargs request])).
Proof.
  intros Hkw run. subst run.
  rewrite (_get_response_data_with_kwargs _ _ _ _ Hkw). split.
  - destruct (collect_kwargs_spec parameter_model request st)
      as (n & _ & Htr & _). simpl in Htr.
    assert (Hbody : forall tail,
              (forall e, e ∈ tail -> e ≠ EvAwaitBody request) ->
              EvAwaitBody request
                ∈ (EvToKwargs request
                   :: body_events request (to_kwargs parameter_model request)
                   ++ resolve_events
                        (take n (expected_dependencies parameter_model)))
                  ++ tail <->
              exists body,
                PyDict.get (to_kwargs parameter_model request) "data"
                = Some (VAwaitable body)).
    { intros tail Htail. rewrite elem_of_app, elem_of_cons, elem_of_app.
      unfold body_events, resolve_events. split.
      - intros [[[=]|[Hin|Hin]]|Hin].
        + destruct (PyDict.get _ "data") as [[]|];
            try (by apply elem_of_nil in Hin). by eexists.
        + by apply list_elem_of_fmap in Hin as (d & [=] & _).
        + by destruct (Htail _ Hin).
      - intros [body ->]. left. right. left. apply list_elem_of_here. }
    destruct (collect_kwargs parameter_model request st) as [[kwargs|e] st1];
      simpl in Htr; subst st1.
    + destruct (parse_values_from_connection_kwargs _ _ kwargs);
        simpl; rewrite traced_app; eexists; (split; [reflexivity|]);
        apply Hbody; intros e He;
        repeat (apply elem_of_cons in He as [->|He]; [done|]);
        by apply elem_of_nil in He.
    + simpl. eexists. split; [reflexivity|].
      rewrite <- (app_nil_r (_ :: _)). apply Hbody.
      intros e0 He. by apply elem_of_nil in He.
  - intros v Hv Htruthy Hnot. unfold collect_kwargs, await_data. mrun.
    rewrite Hv, Htruthy. destruct v; try done. by destruct (Hnot v).
Qed.

Lemma body_awaited_iff_data_awaitable_witness :
  exists evs,
    (_get_response_data echo_route body_model bob
       (initial_state dict_handler)).2
    = traced (initial_state dict_handler) evs /\
    EvAwaitBody bob ∈ evs.
Proof.
  destruct (body_awaited_iff_data_awaitable echo_route body_model bob
              (initial_state dict_handler) eq_refl)
    as [(evs & Htr & Hiff) _].
  exists evs. split; [exact Htr|]. apply Hiff.
  by exists (VContent (CStr "hello")).
Defined.

(** X16.  [_get_response_data] only appends to the record of calls: the
    handler object with its caches, the dictionaries and the response
    objects are as before.  When it raises, [call_handler_function] raises
    the same exception in the same state: no response handler is built and
    no response object is created. *)
Theorem parameter_resolution_touches_nothing (route : Route)
    (parameter_model : KwargsModel) (request : Connection) (st : State) :
  exists evs,
    (_get_response_data route parameter_model request st).2 = traced st evs /\
    forall e,
      (_get_response_data route parameter_model request st).1 = Raise e ->
      call_handler_function request route parameter_model st
      = (Raise e, traced st evs).
Proof.
  assert (Hframe : exists evs,
            (_get_response_data route parameter_model request st).2
            = traced st evs).
  { destruct (has_kwargs parameter_model) eqn:Hkw.
    - rewrite (_get_response_data_with_kwargs _ _ _ _ Hkw).
      destruct (collect_kwargs_spec parameter_model request st)
        as (n & _ & Htr & _). simpl in Htr.
      destruct (collect_kwargs parameter_model request st)
        as [[kwargs|e] st1]; simpl in Htr; subst st1.
      + destruct (parse_values_from_connection_kwargs _ _ kwargs); simpl;
          rewrite traced_app; by eexists.
      + by eexists.
    - rewrite (_get_response_data_no_kwargs _ _ _ _ Hkw). by eexists. }
  destruct Hframe as [evs Hevs]. exists evs. split; [done|].
  intros e He. unfold call_handler_function. rewrite bind_run.
  destruct (_get_response_data route parameter_model request st) as [res st1].
  simpl in *. by subst.
Qed.

(** ** Building the signature and kwargs models *)

Lemma get_dependencies_returns (c c' : State) (r : nat) :
  get_dependencies c = (Ok r, c') ->
  signature_model (self c') = signature_model (self c) /\
  signature_model (self c) <> None /\
  _dependencies (self c') = Filled r /\
  layer (self c') = layer (self c) /\
  responses c' = responses c /\
  trace c' = trace c.
Proof.
  intros Hrun. destruct (signature_model (self c)) as [sm|] eqn:Hsm.
  2:{ unfold get_dependencies in Hrun. rewrite bind_run, get_self_run in Hrun.
      cbv beta match in Hrun. by rewrite Hsm in Hrun. }
  destruct (_dependencies (self c)) as [|r0] eqn:Hslot.
  - rewrite (get_dependencies_first c sm Hsm Hslot) in Hrun.
    destruct (accumulate [] _) as [[[]|e] d]; simpl in Hrun; [|done].
    injection Hrun as <- <-. simpl. by rewrite Hsm.
  - rewrite (get_dependencies_filled c r0 Hslot) in Hrun by by rewrite Hsm.
    injection Hrun as <- <-. by rewrite Hsm.
Qed.

Lemma get_dependencies_raises (c c' : State) (e : Exception) :
  get_dependencies c = (Raise e, c') ->
  signature_model (self c') = signature_model (self c) /\
  layer (self c') = layer (self c) /\
  (signature_model (self c) <> None ->
   exists r d, _dependencies (self c') = Filled r /\ dicts c' !! r = Some d /\
               exists key dk, e = ImproperlyConfigured key dk).
Proof.
  intros Hrun. destruct (signature_model (self c)) as [sm|] eqn:Hsm.
  2:{ unfold get_dependencies in Hrun. rewrite bind_run, get_self_run in Hrun.
      cbv beta match in Hrun. rewrite Hsm in Hrun. injection Hrun as <- <-.
      by rewrite Hsm. }
  destruct (_dependencies (self c)) as [|r0] eqn:Hslot.
  - rewrite (get_dependencies_first c sm Hsm Hslot) in Hrun.
    destruct (accumulate [] _) as [[[]|e'] d] eqn:Hacc; simpl in Hrun;
      [done|].
    injection Hrun as <- <-. simpl. rewrite Hsm. split; [done|].
    split; [done|]. intros _. exists (length (dicts c)), d.
    split; [done|]. split; [by apply list_lookup_middle|].
    destruct (accumulate_Raise _ [] e' d (NoDup_nil_2 : PyDict.wf []) Hacc)
      as (pre & key & inj & post & dk & _ & _ & -> & _).
    by exists key, dk.
  - by rewrite (get_dependencies_filled c r0 Hslot) in Hrun by by rewrite Hsm.
Qed.

Lemma resolved_dependencies_returns (c c' : State) d :
  resolved_dependencies c = (Ok d, c') ->
  exists r,
    signature_model (self c') = signature_model (self c) /\
    signature_model (self c) <> None /\
    _dependencies (self c') = Filled r /\
    dicts c' !! r = Some d /\
    layer (self c') = layer (self c) /\
    resolved_dependencies c' = (Ok d, c').
Proof.
  unfold resolved_dependencies.
  destruct (get_dependencies c) as [[r|e] c1] eqn:Hrun; [|done].
  destruct (dicts c1 !! r) as [d1|] eqn:Hd; [|done].
  intros [= <- <-].
  destruct (get_dependencies_returns c c1 r Hrun)
    as (Hsm & Hsome & Hslot & Hlayer & _).
  exists r. repeat (split; [done|]).
  rewrite (get_dependencies_filled c1 r Hslot) by by rewrite Hsm.
  by rewrite Hd.
Qed.

Section signature_facts.
Variable factory : Callable -> gset string -> Result SignatureModel.
Variable create_for :
  SignatureModel -> list (string * Inject) -> gset string -> Result KwargsModel.

Lemma create_dependency_signature_models_spec names values :
  forall models res models',
  create_dependency_signature_models factory names values models
  = (res, models') ->
  (forall inj sm, PyDict.get models inj = Some sm ->
                  PyDict.get models' inj = Some sm) /\
  (res = Ok tt ->
   forall inj, inj ∈ values -> is_Some (PyDict.get models' inj)).
Proof.
  induction values as [|v values IH]; intros models res models'; simpl.
  - intros [= <- <-]. split; [done|]. intros _ inj Hin.
    by apply elem_of_nil in Hin.
  - destruct (PyDict.get models v) as [smv|] eqn:Hv.
    + intros Hrun. destruct (IH _ _ _ Hrun) as [Hkeep Hall].
      split; [done|]. intros Hok inj Hin.
      apply elem_of_cons in Hin as [->|Hin]; [|by apply Hall].
      rewrite (Hkeep _ _ Hv). by eexists.
    + destruct (factory (ProviderFunction (dependency v)) names) as [sm|e].
      * intros Hrun. destruct (IH _ _ _ Hrun) as [Hkeep Hall]. split.
        -- intros inj sm' Hg. apply Hkeep. rewrite get_set_ne; [done|].
           intros <-. congruence.
        -- intros Hok inj Hin.
           apply elem_of_cons in Hin as [->|Hin]; [|by apply Hall].
           rewrite (Hkeep v sm); [by eexists | apply get_set_eq].
      * intros [= <- <-]. split; [done|]. done.
Qed.

(** Nothing is created for dependencies that have a model already. *)
Lemma create_dependency_signature_models_present names values models :
  (forall inj, inj ∈ values -> is_Some (PyDict.get models inj)) ->
  create_dependency_signature_models factory names values models
  = (Ok tt, models).
Proof.
  induction values as [|v values IH]; intros Hall; simpl; [done|].
  destruct (Hall v) as [sm ->]; [apply list_elem_of_here|].
  apply IH. intros inj Hin. apply Hall. by apply list_elem_of_further.
Qed.

Lemma route_map_after_methods (km : KwargsModel) (ms : list string) :
  forall (rm : list (string * KwargsModel)) (m : string),
  PyDict.get
    (fold_left (fun route_map method => PyDict.set method km route_map) ms rm)
    m
  = if bool_decide (m ∈ ms) then Some km else PyDict.get rm m.
Proof.
  induction ms as [|m0 ms IH]; intros rm m; simpl; [done|].
  rewrite IH. destruct (bool_decide (m ∈ ms)) eqn:Hin.
  - apply bool_decide_eq_true in Hin. rewrite bool_decide_eq_true_2; [done|].
    by apply list_elem_of_further.
  - apply bool_decide_eq_false in Hin.
    destruct (decide (m = m0)) as [->|Hne].
    + rewrite bool_decide_eq_true_2 by apply list_elem_of_here.
      apply get_set_eq.
    + rewrite bool_decide_eq_false_2.
      * by apply get_set_ne.
      * intros Hm. apply elem_of_cons in Hm as [?|?]; done.
Qed.

Lemma create_own_signature_model_spec (x x1 : SigState) res :
  create_own_signature_model factory x = (res, x1) ->
  attrs x1 = attrs x /\
  inject_signature_models x1 = inject_signature_models x /\
  layer (self (core x1)) = layer (self (core x)) /\
  _dependencies (self (core x1)) = _dependencies (self (core x)) /\
  dicts (core x1) = dicts (core x) /\
  (res = Ok tt -> signature_model (self (core x1)) <> None) /\
  (forall sm, signature_model (self (core x)) = Some sm -> x1 = x /\ res = Ok tt) /\
  (forall e, res = Raise e ->
     x1 = x /\
     factory (handler_fn (attrs x))
       (dependency_names (layer (self (core x)))) = Raise e).
Proof.
  unfold create_own_signature_model.
  destruct (signature_model (self (core x))) as [sm|] eqn:Hsm.
  - intros [= <- <-]. rewrite Hsm. repeat split; done.
  - destruct (factory _ _) as [sm|e] eqn:Hf.
    + intros [= <- <-]. simpl. repeat split; done.
    + intros [= <- <-]. rewrite Hsm. repeat split; try done; congruence.
Qed.
End signature_facts.

(** X17.  When [create_signature_model] returns normally, the handler has a
    signature model, its dependency slot holds the resolved mapping, every
    provider of that mapping has a signature model, and one kwargs model was
    built from the handler's signature model, the resolved mapping and the
    path parameters.  For an HTTP handler that kwargs model is stored in
    [kwargs] and under every method of the handler in [route_map], other
    entries of [route_map] and [websocket_parameter_model] staying as they
    were; for a websocket handler it is stored in
    [websocket_parameter_model] only. *)
Theorem create_signature_model_stores_kwargs_model
    (factory : Callable -> gset string -> Result SignatureModel)
    (create_for : SignatureModel -> list (string * Inject) -> gset string ->
                  Result KwargsModel)
    (is_websocket : bool) (x x' : SigState) :
  create_signature_model factory create_for is_websocket x = (Ok tt, x') ->
  exists sm r d km,
    signature_model (self (core x')) = Some sm /\
    _dependencies (self (core x')) = Filled r /\
    dicts (core x') !! r = Some d /\
    create_for sm d (path_parameters (attrs x)) = Ok km /\
    (forall inj, inj ∈ PyDict.values d ->
                 is_Some (PyDict.get (inject_signature_models x') inj)) /\
    (is_websocket = false ->
     kwargs (attrs x') = Some km /\
     (forall m, m ∈ methods (attrs x) ->
                PyDict.get (route_map (attrs x')) m = Some km) /\
     (forall m, m ∉ methods (attrs x) ->
                PyDict.get (route_map (attrs x')) m
                = PyDict.get (route_map (attrs x)) m) /\
     websocket_parameter_model (attrs x')
     = websocket_parameter_model (attrs x)) /\
    (is_websocket = true ->
     websocket_parameter_model (attrs x') = Some km /\
     kwargs (attrs x') = kwargs (attrs x) /\
     route_map (attrs x') = route_map (attrs x)).
Proof.
  unfold create_signature_model.
  destruct (create_own_signature_model factory x) as [[[]|e] x1] eqn:H1;
    [|done].
  destruct (create_own_signature_model_spec factory x x1 _ H1)
    as (Hattrs & Hmodels & _).
  destruct (resolved_dependencies (core x1)) as [[d|e] c] eqn:H2; [|done].
  destruct (resolved_dependencies_returns _ _ _ H2)
    as (r & Hsm & Hsome & Hslot & Hd & Hlayer & Hagain).
  destruct (create_dependency_signature_models factory _ _ _)
    as [[[]|e] models] eqn:H3; [|done].
  destruct (create_dependency_signature_models_spec factory _ _ _ _ _ H3)
    as [_ Hall].
  unfold create_handler_kwargs_model. simpl. rewrite Hagain.
  destruct (signature_model (self c)) as [sm|] eqn:Hsmc; [|done].
  destruct (create_for sm d (path_parameters (attrs x1))) as [km|e] eqn:H4;
    [|done].
  intros [= <-]. simpl. exists sm, r, d, km. rewrite <- Hattrs.
  split; [done|]. split; [done|]. split; [done|]. split; [done|].
  split; [by apply Hall|]. split.
  - intros ->. simpl. split; [done|]. split; [|split; [|done]].
    + intros m Hm. rewrite route_map_after_methods.
      by rewrite bool_decide_eq_true_2.
    + intros m Hm. rewrite route_map_after_methods.
      by rewrite bool_decide_eq_false_2.
  - intros ->. done.
Qed.

Lemma create_signature_model_stores_kwargs_model_witness :
  exists x' km,
    create_signature_model sample_factory sample_create_for false
      (signature_state override_chain) = (Ok tt, x') /\
    kwargs (attrs x') = Some km /\
    PyDict.get (route_map (attrs x')) "GET" = Some km /\
    PyDict.get (route_map (attrs x')) "HEAD" = Some km /\
    is_Some (PyDict.get (inject_signature_models x') provider_session).
Proof.
  eexists.
  destruct (create_signature_model_stores_kwargs_model sample_factory
              sample_create_for false (signature_state override_chain) _
              eq_refl)
    as (sm & r & d & km & _ & Hslot & Hd & _ & Hmodels & Hhttp & _).
  destruct (Hhttp eq_refl) as (Hkw & Hmap & _).
  vm_compute in Hslot. injection Hslot as <-.
  exists km. split; [reflexivity|]. split; [exact Hkw|].
  split; [apply Hmap, list_elem_of_here|].
  split; [apply Hmap, list_elem_of_further, list_elem_of_here|].
  apply Hmodels. vm_compute in Hd. injection Hd as <-. apply list_elem_of_here.
Defined.

Lemma create_dependency_signature_models_total
    (factory : Callable -> gset string -> Result SignatureModel) names values :
  (forall fn ns, exists sm, factory fn ns = Ok sm) ->
  forall models,
    (create_dependency_signature_models factory names values models).1
    = Ok tt.
Proof.
  intros Htotal. induction values as [|v values IH]; intros models; simpl;
    [done|].
  destruct (PyDict.get models v); [apply IH|].
  destruct (Htotal (ProviderFunction (dependency v)) names) as [sm ->].
  apply IH.
Qed.

(** X18.  When [create_signature_model] raises on a handler whose
    dependency slot is unset, no kwargs model has been stored anywhere, and
    the exception is one the signature-model factory raised, or one the
    kwargs-model constructor raised, or the configuration error of the
    dependency walk; in the last case the handler has its signature model
    and its dependency slot holds a mapping of the store.  It is
    never the runtime error of [get_dependencies] unless a collaborator
    raised that. *)
Theorem create_signature_model_raise_stores_nothing
    (factory : Callable -> gset string -> Result SignatureModel)
    (create_for : SignatureModel -> list (string * Inject) -> gset string ->
                  Result KwargsModel)
    (is_websocket : bool) (x x' : SigState) (e : Exception) :
  _dependencies (self (core x)) = Void ->
  create_signature_model factory create_for is_websocket x = (Raise e, x') ->
  attrs x' = attrs x /\
  ((exists fn names, factory fn names = Raise e) \/
   (exists sm d p, create_for sm d p = Raise e) \/
   (exists key dk r d,
      e = ImproperlyConfigured key dk /\
      signature_model (self (core x')) <> None /\
      _dependencies (self (core x')) = Filled r /\
      dicts (core x') !! r = Some d)).
Proof.
  intros Hvoid. unfold create_signature_model.
  destruct (create_own_signature_model factory x) as [[[]|e1] x1] eqn:H1.
  2:{ intros [= <- <-].
      destruct (create_own_signature_model_spec factory x x1 _ H1)
        as (Hattrs & _ & _ & _ & _ & _ & _ & Hraise).
      destruct (Hraise e1 eq_refl) as [_ Hf]. split; [done|]. left.
      by eexists _, _. }
  destruct (create_own_signature_model_spec factory x x1 _ H1)
    as (Hattrs & Hmodels & Hlayer1 & Hslot1 & _ & Hsm1 & _).
  specialize (Hsm1 eq_refl). rewrite Hvoid in Hslot1.
  unfold resolved_dependencies at 1.
  destruct (get_dependencies (core x1)) as [[r|e2] c] eqn:Hget.
  2:{ intros [= <- <-]. simpl. split; [done|]. right. right.
      destruct (get_dependencies_raises _ _ _ Hget) as (Hsmc & _ & Hpartial).
      destruct (Hpartial Hsm1) as (r & d & Hslot & Hd & key & dk & ->).
      exists key, dk, r, d. by rewrite Hsmc. }
  destruct (signature_model (self (core x1))) as [sm1|] eqn:Hsig; [|done].
  rewrite (get_dependencies_first _ sm1 Hsig Hslot1) in Hget.
  destruct (accumulate [] _) as [[[]|e2] d] eqn:Hacc; simpl in Hget; [|done].
  injection Hget as <- <-. simpl.
  rewrite list_lookup_middle by done.
  destruct (create_dependency_signature_models factory _ _ _)
    as [[[]|e3] models] eqn:H3.
  2:{ intros [= <- <-]. simpl. split; [done|]. left.
      clear -H3. revert H3. generalize (inject_signature_models x1).
      induction (PyDict.values d) as [|v vs IH]; intros ms; simpl; [done|].
      destruct (PyDict.get ms v); [apply IH|].
      destruct (factory (ProviderFunction (dependency v)) _) as [sm|e4] eqn:Hf;
        [apply IH|].
      intros [= <- <-]. by eexists _, _. }
  unfold create_handler_kwargs_model, resolved_dependencies. simpl.
  rewrite (get_dependencies_filled _ (length (dicts (core x1))))
    by (simpl; by rewrite ?Hsig).
  simpl. rewrite list_lookup_middle by done.
  unfold set__dependencies. simpl. rewrite Hsig.
  destruct (create_for sm1 d (path_parameters (attrs x1))) as [km|e4] eqn:H4;
    [done|].
  intros [= <- <-]. simpl. split; [done|]. right. left. by eexists _, _, _.
Qed.

Lemma create_signature_model_raise_stores_nothing_witness :
  exists x',
    create_signature_model sample_factory sample_create_for false
      (signature_state conflict_chain)
    = (Raise (ImproperlyConfigured "session" "db"), x') /\
    attrs x' = sample_attrs.
Proof.
  eexists. split; [reflexivity|].
  exact (proj1 (create_signature_model_raise_stores_nothing sample_factory
                  sample_create_for false (signature_state conflict_chain) _
                  (ImproperlyConfigured "session" "db") eq_refl eq_refl)).
Defined.

Lemma create_signature_model_filled
    (factory : Callable -> gset string -> Result SignatureModel)
    (create_for : SignatureModel -> list (string * Inject) -> gset string ->
                  Result KwargsModel)
    (is_websocket : bool) (x : SigState) sm r d :
  signature_model (self (core x)) = Some sm ->
  _dependencies (self (core x)) = Filled r ->
  dicts (core x) !! r = Some d ->
  create_signature_model factory create_for is_websocket x =
  match create_dependency_signature_models factory
          (dependency_names (layer (self (core x)))) (PyDict.values d)
          (inject_signature_models x) with
  | (Raise e, models) => (Raise e, mkSigState (core x) (attrs x) models)
  | (Ok _, models) =>
      match create_for sm d (path_parameters (attrs x)) with
      | Ok km =>
          (Ok tt,
           mkSigState (core x) (store_kwargs_model is_websocket km (attrs x))
             models)
      | Raise e => (Raise e, mkSigState (core x) (attrs x) models)
      end
  end.
Proof.
  intros Hsm Hslot Hd.
  assert (Hres : resolved_dependencies (core x) = (Ok d, core x)).
  { unfold resolved_dependencies.
    rewrite (get_dependencies_filled _ r Hslot) by by rewrite Hsm.
    by rewrite Hd. }
  unfold create_signature_model, create_own_signature_model.
  rewrite Hsm, Hres.
  destruct (create_dependency_signature_models factory _ _ _)
    as [[[]|e] models]; [|done].
  unfold create_handler_kwargs_model. simpl. rewrite Hres, Hsm.
  by destruct (create_for sm d (path_parameters (attrs x))).
Qed.

(** X19.  With a factory and a kwargs-model constructor that never raise,
    a [create_signature_model] that raised on a handler with an unset
    dependency slot succeeds when it is simply called again: the
    configuration error is not raised a second time, and the kwargs model
    is built from the mapping the interrupted walk left behind. *)
Theorem create_signature_model_retry_uses_partial_mapping
    (factory : Callable -> gset string -> Result SignatureModel)
    (create_for : SignatureModel -> list (string * Inject) -> gset string ->
                  Result KwargsModel)
    (is_websocket : bool) (x x' : SigState) (e : Exception) :
  (forall fn names, exists sm, factory fn names = Ok sm) ->
  (forall sm d p, exists km, create_for sm d p = Ok km) ->
  _dependencies (self (core x)) = Void ->
  create_signature_model factory create_for is_websocket x = (Raise e, x') ->
  exists sm r d km x'',
    (accumulate []
       (dependency_items (ownership_layers (layer (self (core x)))))).1
    = Raise e /\
    (accumulate []
       (dependency_items (ownership_layers (layer (self (core x)))))).2 = d /\
    signature_model (self (core x')) = Some sm /\
    _dependencies (self (core x')) = Filled r /\
    dicts (core x') !! r = Some d /\
    create_for sm d (path_parameters (attrs x)) = Ok km /\
    create_signature_model factory create_for is_websocket x' = (Ok tt, x'') /\
    attrs x'' = store_kwargs_model is_websocket km (attrs x).
Proof.
  intros Hfactory Hcreate Hvoid. unfold create_signature_model at 1.
  destruct (create_own_signature_model factory x) as [[[]|e1] x1] eqn:H1.
  2:{ destruct (create_own_signature_model_spec factory x x1 _ H1)
        as (_ & _ & _ & _ & _ & _ & _ & Hraise).
      destruct (Hraise e1 eq_refl) as [_ Hf].
      destruct (Hfactory (handler_fn (attrs x))
                  (dependency_names (layer (self (core x))))) as [sm Hsm].
      congruence. }
  destruct (create_own_signature_model_spec factory x x1 _ H1)
    as (Hattrs & Hmodels & Hlayer1 & Hslot1 & _ & Hsm1 & _).
  specialize (Hsm1 eq_refl). rewrite Hvoid in Hslot1.
  destruct (signature_model (self (core x1))) as [sm1|] eqn:Hsig; [|done].
  unfold resolved_dependencies at 1.
  rewrite (get_dependencies_first _ sm1 Hsig Hslot1). simpl.
  rewrite Hlayer1.
  destruct (accumulate [] _) as [[[]|e2] d] eqn:Hacc; simpl.
  - rewrite list_lookup_middle by done.
    pose proof (create_dependency_signature_models_total factory
                  (dependency_names (layer (self (core x1)))) (PyDict.values d)
                  Hfactory (inject_signature_models x1)) as Htot.
    destruct (create_dependency_signature_models factory _ _ _)
      as [[[]|e3] models]; simpl in Htot; [|done].
    unfold create_handler_kwargs_model, resolved_dependencies. simpl.
    rewrite (get_dependencies_filled _ (length (dicts (core x1))))
      by (simpl; by rewrite ?Hsig).
    simpl. rewrite list_lookup_middle by done.
    unfold set__dependencies. simpl. rewrite Hsig.
    destruct (Hcreate sm1 d (path_parameters (attrs x1))) as [km ->]. done.
  - intros [= <- <-]. simpl.
    destruct (Hcreate sm1 d (path_parameters (attrs x))) as [km Hkm].
    pose proof (create_signature_model_filled factory create_for is_websocket
                  (with_core
                     (mkState
                        (set__dependencies (Filled (length (dicts (core x1))))
                           (self (core x1)))
                        (dicts (core x1) ++ [d]) (responses (core x1))
                        (trace (core x1))) x1)
                  sm1 (length (dicts (core x1))) d) as Hagain.
    simpl in Hagain. unfold set__dependencies in Hagain. simpl in Hagain.
    specialize (Hagain Hsig eq_refl (list_lookup_middle _ _ _ _ eq_refl)).
    pose proof (create_dependency_signature_models_total factory
                  (dependency_names (layer (self (core x1)))) (PyDict.values d)
                  Hfactory (inject_signature_models x1)) as Htot.
    destruct (create_dependency_signature_models factory _ _ _)
      as [[[]|e3] models]; simpl in Htot; [|done].
    rewrite Hattrs, Hkm in Hagain.
    eexists sm1, (length (dicts (core x1))), d, km, _.
    split; [done|]. split; [done|].
    split; [by unfold set__dependencies; simpl|]. split; [done|].
    split; [by apply list_lookup_middle|]. split; [done|].
    split; [exact Hagain | done].
Qed.

Lemma create_signature_model_retry_uses_partial_mapping_witness :
  exists x' x'' km,
    create_signature_model sample_factory sample_create_for false
      (signature_state conflict_chain)
    = (Raise (ImproperlyConfigured "session" "db"), x') /\
    create_signature_model sample_factory sample_create_for false x'
    = (Ok tt, x'') /\
    kwargs (attrs x'') = Some km /\
    expected_dependencies km = [mkDependency "db"].
Proof.
  destruct (create_signature_model_retry_uses_partial_mapping sample_factory
              sample_create_for false (signature_state conflict_chain)
              (create_signature_model sample_factory sample_create_for false
                 (signature_state conflict_chain)).2
              (ImproperlyConfigured "session" "db"))
    as (sm & r & d & km & x'' & _ & Hd & _ & _ & _ & Hkm & Hagain & Hattrs).
  - intros fn names. by eexists.
  - intros sm d p. by eexists.
  - reflexivity.
  - reflexivity.
  - eexists _, x'', km. split; [reflexivity|]. split; [exact Hagain|].
    rewrite Hattrs. split; [reflexivity|].
    vm_compute in Hd. subst d. by injection Hkm as <-.
Defined.

(** X20.  The factory is consulted only for what lacks a signature model.
    On a handler that has a signature model, and whose resolved
    dependencies all have one, [create_signature_model] behaves the same
    whatever the factory is, and keeps the handler's signature model and
    every dependency's signature model as they are. *)
Theorem create_signature_model_keeps_existing_models
    (factory1 factory2 : Callable -> gset string -> Result SignatureModel)
    (create_for : SignatureModel -> list (string * Inject) -> gset string ->
                  Result KwargsModel)
    (is_websocket : bool) (x : SigState) (sm : SignatureModel) :
  signature_model (self (core x)) = Some sm ->
  (forall d c, resolved_dependencies (core x) = (Ok d, c) ->
     forall inj, inj ∈ PyDict.values d ->
                 is_Some (PyDict.get (inject_signature_models x) inj)) ->
  create_signature_model factory1 create_for is_websocket x
  = create_signature_model factory2 create_for is_websocket x /\
  signature_model
    (self (core (create_signature_model factory1 create_for is_websocket x).2))
  = Some sm /\
  inject_signature_models
    (create_signature_model factory1 create_for is_websocket x).2
  = inject_signature_models x.
Proof.
  intros Hsm Hall.
  assert (Hshape : forall factory,
            create_signature_model factory create_for is_websocket x =
            match resolved_dependencies (core x) with
            | (Raise e, c) => (Raise e, with_core c x)
            | (Ok d, c) =>
                match create_for sm d (path_parameters (attrs x)) with
                | Ok km =>
                    (Ok tt,
                     mkSigState c
                       (store_kwargs_model is_websocket km (attrs x))
                       (inject_signature_models x))
                | Raise e =>
                    (Raise e,
                     mkSigState c (attrs x) (inject_signature_models x))
                end
            end).
  { intros factory. unfold create_signature_model, create_own_signature_model.
    rewrite Hsm.
    destruct (resolved_dependencies (core x)) as [[d|e] c] eqn:Hres; [|done].
    rewrite (create_dependency_signature_models_present factory _ _ _
               (Hall d c eq_refl)).
    destruct (resolved_dependencies_returns _ _ _ Hres)
      as (r & Hsmc & _ & _ & _ & _ & Hagain).
    unfold create_handler_kwargs_model. simpl. rewrite Hagain, Hsmc, Hsm.
    by destruct (create_for sm d (path_parameters (attrs x))). }
  split; [by rewrite !Hshape|]. rewrite Hshape.
  destruct (resolved_dependencies (core x)) as [[d|e] c] eqn:Hres.
  - destruct (resolved_dependencies_returns _ _ _ Hres)
      as (r & Hsmc & _).
    destruct (create_for sm d (path_parameters (attrs x))); simpl;
      by rewrite Hsmc.
  - simpl. split; [|done]. unfold resolved_dependencies in Hres.
    destruct (get_dependencies (core x)) as [[r|e'] c'] eqn:Hget.
    + destruct (get_dependencies_returns _ _ _ Hget) as (Hsmc & _).
      destruct (dicts c' !! r); [done|].
      injection Hres as <- <-. by rewrite Hsmc.
    + destruct (get_dependencies_raises _ _ _ Hget) as (Hsmc & _).
      injection Hres as <- <-. by rewrite Hsmc.
Qed.

Lemma create_signature_model_keeps_existing_models_witness :
  create_signature_model failing_factory sample_create_for false modelled_state
  = create_signature_model sample_factory sample_create_for false
      modelled_state /\
  (create_signature_model failing_factory sample_create_for false
     modelled_state).1 = Ok tt.
Proof.
  split; [|reflexivity].
  apply (create_signature_model_keeps_existing_models failing_factory
           sample_factory sample_create_for false modelled_state
           sample_signature_model eq_refl).
  intros d c Hres. vm_compute in Hres. injection Hres as <- <-.
  intros inj Hin. apply list_elem_of_singleton in Hin as ->. by eexists.
Defined.

(** ** [Cookie.to_header] *)

(** X21.  Whatever the standard library makes of a morsel, the header of a
    cookie does not depend on its description, is the same for an unset
    value and an empty one, and is the same for an unset [max_age] and a
    [max_age] of 0.  The morsel always gets [path] and [samesite]; it gets
    [max-age] exactly when [max_age] is set and not 0, but [expires]
    whenever [expires] is set, 0 included, and [secure] and [httponly]
    whenever they are set, [False] included. *)
Theorem to_header_normalises_cookie {OutputKwargs : Type}
    (output_stripped : Morsel -> OutputKwargs -> Result string)
    (c : Cookie) (kw : OutputKwargs) :
  to_header output_stripped c kw
  = to_header output_stripped
      (mkCookie (key c)
         (Some match value c with Some v => v | None => "" end)
         (if truthy_int (max_age c) then max_age c else None)
         (expires c) (path c) (domain c) (secure c) (httponly c) (samesite c)
         None) kw /\
  morsel_key (to_header_morsel c) = key c /\
  PyDict.get (morsel_attrs (to_header_morsel c)) "path" = Some (PStr (path c))
  /\
  PyDict.get (morsel_attrs (to_header_morsel c)) "samesite"
  = Some (PStr (samesite c)) /\
  PyDict.get (morsel_attrs (to_header_morsel c)) "max-age"
  = (if truthy_int (max_age c) then PInt <$> max_age c else None) /\
  PyDict.get (morsel_attrs (to_header_morsel c)) "expires"
  = PInt <$> expires c /\
  PyDict.get (morsel_attrs (to_header_morsel c)) "domain"
  = PStr <$> domain c /\
  PyDict.get (morsel_attrs (to_header_morsel c)) "secure"
  = PBool <$> secure c /\
  PyDict.get (morsel_attrs (to_header_morsel c)) "httponly"
  = PBool <$> httponly c.
Proof.
  destruct c as [k v ma ex pa dom sec ho ss de]. unfold to_header. split.
  - f_equal. unfold to_header_morsel.
    destruct ma as [[|n|n]|], v; reflexivity.
  - unfold to_header_morsel.
    destruct ma as [[|n|n]|], ex, dom, sec, ho; repeat split; reflexivity.
Qed.

(** ** [State] *)

(** X22.  Copying a state gives a state object on a new dictionary that
    holds the same items: length and lookups agree with the original, and
    replacing the dictionary of either one leaves the other's dictionary as
    it is.  The dictionary of the original is not touched. *)
Theorem State_copy_is_independent (store : list (list (string * PyVal)))
    (s : StateObj) (d : list (string * PyVal)) :
  store !! _state s = Some d ->
  let s' := (State_copy store s).1 in
  let store' := (State_copy store s).2 in
  _state s' ≠ _state s /\
  store' !! _state s = Some d /\
  store' !! _state s' = Some d /\
  State_len store' s' = State_len store s /\
  (forall key,
     State_getitem store' s' key = State_getitem store s key /\
     State_getattr store' s' key = State_getattr store s key) /\
  (forall d', <[_state s' := d']> store' !! _state s = Some d) /\
  (forall d', <[_state s := d']> store' !! _state s' = Some d).
Proof.
  intros Hs s' store'. subst s' store'. unfold State_copy, State_copy_.
  simpl. assert (Hlt : (_state s < length store)%nat)
    by by eapply lookup_lt_Some.
  assert (Hd : state_dict store s = d) by (unfold state_dict; by rewrite Hs).
  rewrite Hd.
  assert (Hnew : (store ++ [d]) !! length store = Some d)
    by by apply list_lookup_middle.
  assert (Hold : (store ++ [d]) !! _state s = Some d)
    by by apply lookup_app_l_Some.
  split; [lia|]. split; [done|]. split; [done|].
  assert (Hcopy : state_dict (store ++ [d]) (mkStateObj (length store)) = d)
    by (unfold state_dict; simpl; by rewrite Hnew).
  split; [unfold State_len; by rewrite Hcopy, Hd|]. split.
  - intros key. unfold State_getattr, State_getitem. by rewrite Hcopy, Hd.
  - split; intros d'.
    + rewrite list_lookup_insert_ne by lia. done.
    + rewrite list_lookup_insert_ne by lia. done.
Qed.

Lemma State_copy_is_independent_witness :
  State_getattr (State_copy [[("user", PStr "ann")]] (mkStateObj 0)).2
    (State_copy [[("user", PStr "ann")]] (mkStateObj 0)).1 "user"
  = Returned (PStr "ann") /\
  State_getattr (State_copy [[("user", PStr "ann")]] (mkStateObj 0)).2
    (State_copy [[("user", PStr "ann")]] (mkStateObj 0)).1 "role"
  = StateAttributeError "State has no key 'role'".
Proof.
  destruct (State_copy_is_independent [[("user", PStr "ann")]] (mkStateObj 0)
              [("user", PStr "ann")] eq_refl)
    as (_ & _ & _ & _ & Hlookup & _).
  split.
  - rewrite (proj2 (Hlookup "user")). reflexivity.
  - rewrite (proj2 (Hlookup "role")). reflexivity.
Defined.
